(** * llm-api-layer: the authentication core, the tenant directory and the LLM proxy

    A shallow embedding of [src/plugins/auth.ts] (the hapi JWT strategy and
    its [validate] callback), [src/services/tenantService.ts] (the directory
    over Redis), [src/routes/auth.ts], [src/routes/llm.ts] and
    [src/services/ollamaService.ts].

    JavaScript objects are finite maps from property names to JSON values,
    the Redis keyspace is a finite map from string keys to string or set
    values, [async] functions that touch Redis are state-passing functions
    that either return or throw, and the libraries the code calls (JSON,
    @hapi/jwt, bcrypt, Joi's rules) are operations of the class
    [Externals]. *)

From stdpp Require Import base option strings list gmap fin_maps pretty.
From Stdlib Require Import ZArith Ascii.

#[local] Set Warnings "-register-all,-clear-no-such-hyp".
#[local] Open Scope Z_scope.

(** ** JSON values and JavaScript objects *)

(** [JNum n] is the Number value of the integer [n], its nearest double;
    numbers with a fraction, NaN and the infinities are not values of this
    type. [undefined] is the [None] of [option jsval]. *)
Inductive jsval :=
  | JNull
  | JBool (b : bool)
  | JNum (n : Z)
  | JStr (s : string)
  | JArr (items : list jsval)
  | JObj (fields : gmap string jsval).

Abbreviation obj := (gmap string jsval).

(** ** Exceptions and results *)

(** What a [throw] carries: a Boom HTTP error, an axios error, or any other
    [Error] (TypeError, SyntaxError, Redis client errors). *)
Inductive exn :=
  | Boom (statusCode : Z) (message : string)
  | AxiosError (message : string)
  | Error (message : string).

Inductive result (A : Type) :=
  | Ok (a : A)
  | Throw (e : exn).
Arguments Ok {A} a.
Arguments Throw {A} e.

Module JS.

(** The Number value of a positive integer: the nearest double, ties to
    the even significand; [None] is [Infinity]. *)
Definition to_double (m : Z) : option Z :=
  if m <? 2 ^ 53 then Some m
  else
    let e := Z.log2 m - 52 in
    let q := Z.shiftr m e in
    let r := m - Z.shiftl q e in
    let half := Z.shiftl 1 (e - 1) in
    let q' := if r <? half then q
              else if half <? r then q + 1
              else if Z.even q then q else q + 1 in
    let x := Z.shiftl q' e in
    if x <? 2 ^ 1024 then Some x else None.

(** The number of decimal digits of a positive integer. *)
Definition digits (x : Z) : Z := Z.of_nat (String.length (pretty x)).

(** Number::toString picks integers [n], [k], [s] with [s] of [k] digits
    and [s * 10^(n-k)] the number, [k] as small as possible: the
    candidates with [k] digits for the double [x]. *)
Definition candidates (x k : Z) : list (Z * Z * Z) :=
  n ← [digits x; digits x + 1];
  if n <? k then []
  else
    s ← [x / 10 ^ (n - k); x / 10 ^ (n - k) + 1];
    if (10 ^ (k - 1) <=? s) && (s <? 10 ^ k)
       && bool_decide (to_double (s * 10 ^ (n - k)) = Some x)
    then [(k, n, s)] else [].

(** Of two candidates the one closer to [x], the even one on a tie. *)
Definition closer (x : Z) (a b : Z * Z * Z) : Z * Z * Z :=
  let dist := λ c : Z * Z * Z, Z.abs (c.2 * 10 ^ (c.1.2 - c.1.1) - x) in
  if dist a <? dist b then a
  else if dist b <? dist a then b
  else if Z.even a.2 then a else b.

(** A double has a candidate of at most 17 digits. *)
Fixpoint shortest (x : Z) (k : Z) (fuel : nat) : Z * Z * Z :=
  match fuel with
  | O => (digits x, digits x, x)
  | S fuel' =>
      match candidates x k with
      | c :: cs => foldl (closer x) c cs
      | [] => shortest x (k + 1) fuel'
      end
  end.

(** [String(n)] for a number with an integer value: the digits of [s]
    and [n - k] zeros up to 21 digits, the exponent form from there. *)
Definition numberToString (n : Z) : string :=
  if n =? 0 then "0"
  else
    let sign := if n <? 0 then "-" else EmptyString in
    match to_double (Z.abs n) with
    | None => sign +:+ "Infinity"
    | Some x =>
        let '(k, e, s) := shortest x 1 17 in
        let ds := pretty s in
        if e <=? 21
        then sign +:+ ds
                  +:+ String.concat EmptyString (replicate (Z.to_nat (e - k)) "0")
        else
          match ds with
          | String d rest =>
              sign +:+ String d (if k =? 1 then EmptyString else "." +:+ rest)
                   +:+ "e+" +:+ pretty (e - 1)
          | EmptyString => sign
          end
    end.

(** [String(v)], as a template literal applies it. *)
Fixpoint toString (v : jsval) : string :=
  match v with
  | JNull => "null"
  | JBool true => "true"
  | JBool false => "false"
  | JNum n => numberToString n
  | JStr s => s
  | JArr items =>
      (fix join (l : list jsval) : string :=
         match l with
         | [] => EmptyString
         | x :: r =>
             let sx := match x with JNull => EmptyString | _ => toString x end in
             match r with [] => sx | _ => sx +:+ "," +:+ join r end
         end) items
  | JObj _ => "[object Object]"
  end.

(** [`${v}`] for a value that may be [undefined]. *)
Definition interp (v : option jsval) : string :=
  match v with Some x => toString x | None => "undefined" end.

(** Truthiness, as [if (v)] and [!v] test it. *)
Definition truthy (v : jsval) : bool :=
  match v with
  | JNull => false
  | JBool b => b
  | JNum n => negb (n =? 0)
  | JStr s => negb (String.eqb s EmptyString)
  | JArr _ | JObj _ => true
  end.

Definition truthy_opt (v : option jsval) : bool :=
  match v with Some x => truthy x | None => false end.

(** Truthiness of what [redis.get] resolves to: [null] and the empty
    string are falsy. *)
Definition truthy_str (v : option string) : bool :=
  match v with Some s => negb (String.eqb s EmptyString) | None => false end.

(** [v === 'lit'] and [v !== 'lit'] for a string literal. *)
Definition is_str (v : option jsval) (lit : string) : bool :=
  match v with Some (JStr s) => String.eqb s lit | _ => false end.

(** [a === b] between a header value (a string or [undefined]) and a
    value read from an object. *)
Definition strict_eq_str (a : option string) (b : option jsval) : bool :=
  match a, b with
  | None, None => true
  | Some s, Some (JStr t) => String.eqb s t
  | _, _ => false
  end.

Definition indexed (l : list jsval) : obj :=
  list_to_map (imap (λ i x, (pretty i, x)) l).

Definition chars (s : string) : list jsval :=
  (λ c, JStr (String c EmptyString)) <$> String.list_ascii_of_string s.

(** The enumerable own properties, which [{...v}] copies. Spreading
    [null], a number or a boolean copies nothing. *)
Definition own_props (v : jsval) : obj :=
  match v with
  | JObj o => o
  | JArr l => indexed l
  | JStr s => indexed (chars s)
  | JNull | JBool _ | JNum _ => ∅
  end.

(** [v.k] for a property name [k] that is not a built-in ([length] and
    prototype members are never read by the code): a TypeError on
    [null]. *)
Definition prop (v : jsval) (k : string) : result (option jsval) :=
  match v with
  | JNull => Throw (Error "TypeError: Cannot read properties of null")
  | _ => Ok (own_props v !! k)
  end.

(** [const { k, ...rest } = v]: a TypeError on [null]. *)
Definition rest_without (k : string) (v : jsval) : result obj :=
  match v with
  | JNull => Throw (Error "TypeError: Cannot destructure null")
  | _ => Ok (delete k (own_props v))
  end.

(** [{ ...o, k: v }] where [v] may be [undefined]: an [undefined]
    property is dropped by every serialisation, so it is modelled as
    absent. *)
Definition set_field (k : string) (v : option jsval) (o : obj) : obj :=
  match v with Some x => <[k:=x]> o | None => delete k o end.

End JS.

(** ** The Redis keyspace *)

Inductive rvalue :=
  | RString (s : string)
  | RSet (members : gset string).

(** [connected = false] stands for a client that is not initialised or a
    server that cannot be reached: every command throws. The store has no
    clock: what is said of an entry written with [setEx] is said of the
    store the write leaves, before the entry expires. *)
Record redis := { connected : bool; db : gmap string rvalue }.

(** An [async] function over the store: it returns or throws, and the
    writes made before a throw stay. *)
Definition M (A : Type) : Type := redis → result A * redis.

Definition ret {A} (a : A) : M A := λ s, (Ok a, s).
Definition throw {A} (e : exn) : M A := λ s, (Throw e, s).
Definition bind {A B} (m : M A) (k : A → M B) : M B :=
  λ s, match m s with
       | (Ok a, s') => k a s'
       | (Throw e, s') => (Throw e, s')
       end.
Definition lift {A} (r : result A) : M A := λ s, (r, s).

(** [try { body } catch (error) { handler(error) }] *)
Definition try_catch {A} (body : M A) (handler : exn → M A) : M A :=
  λ s, match body s with
       | (Ok a, s') => (Ok a, s')
       | (Throw e, s') => handler e s'
       end.

Notation "'let*' x := c 'in' k" := (bind c (λ x, k))
  (at level 10, x name, c at level 100, k at level 200).

Module Redis.

Definition unreachable : exn := Error "The client is closed".
Definition wrongtype : exn :=
  Error "WRONGTYPE Operation against a key holding the wrong kind of value".
Definition invalid_expire : exn :=
  Error "ERR invalid expire time in 'setex' command".

Definition command {A} (f : gmap string rvalue → result A * gmap string rvalue) : M A :=
  λ s, if connected s
       then let '(r, d) := f (db s) in (r, {| connected := true; db := d |})
       else (Throw unreachable, s).

Definition get (key : string) : M (option string) :=
  command (λ d, match d !! key with
                | None => (Ok None, d)
                | Some (RString v) => (Ok (Some v), d)
                | Some (RSet _) => (Throw wrongtype, d)
                end).

Definition set (key value : string) : M unit :=
  command (λ d, (Ok (), <[key := RString value]> d)).

(** SETEX: the server refuses a time to live that is not positive. *)
Definition setEx (key : string) (seconds : Z) (value : string) : M unit :=
  command (λ d, if seconds <=? 0 then (Throw invalid_expire, d)
                else (Ok (), <[key := RString value]> d)).

Definition del (key : string) : M unit :=
  command (λ d, (Ok (), delete key d)).

Definition exists_ (key : string) : M Z :=
  command (λ d, (Ok (match d !! key with Some _ => 1 | None => 0 end), d)).

Definition sAdd (key member : string) : M unit :=
  command (λ d, match d !! key with
                | None => (Ok (), <[key := RSet {[ member ]}]> d)
                | Some (RSet ms) => (Ok (), <[key := RSet ({[ member ]} ∪ ms)]> d)
                | Some (RString _) => (Throw wrongtype, d)
                end).

Definition sMembers (key : string) : M (list string) :=
  command (λ d, match d !! key with
                | None => (Ok [], d)
                | Some (RSet ms) => (Ok (elements ms), d)
                | Some (RString _) => (Throw wrongtype, d)
                end).

End Redis.

(** The keys, as the template literals of the code build them. *)
Definition tenantKey (tenantId : string) : string := "tenant:" +:+ tenantId.
Definition domainKey (domain : string) : string := "tenant:domain:" +:+ domain.
Definition tenantsAllKey : string := "tenants:all".
Definition userKey (tenantId userId : string) : string :=
  "tenant:" +:+ tenantId +:+ ":user:" +:+ userId.
Definition usersKey (tenantId : string) : string :=
  "tenant:" +:+ tenantId +:+ ":users".
Definition emailKey (tenantId email : string) : string :=
  "tenant:" +:+ tenantId +:+ ":user:email:" +:+ email.
Definition blacklistKey (token : string) : string := "token:blacklist:" +:+ token.
Definition sessionKey (sessionId : string) : string := "session:" +:+ sessionId.

(** ** The libraries the code calls *)

Class Externals := {
  (** [JSON.stringify] and [JSON.parse]; [None] is a SyntaxError. *)
  JSON_stringify : jsval → string;
  JSON_parse : string → option jsval;
  (** [JWT.token.generate] with the process secret, HS256 and ttlSec 14400,
      and the decoding and verification the hapi jwt scheme performs before
      it calls [validate] (signature, nbf, exp, maxAgeSec, timeSkewSec);
      [None] is a token the scheme refuses, and [JWT_refusal] the message
      of the 401 it answers then (the message differs with the cause: a
      token that is missing, malformed, expired or wrongly signed). *)
  JWT_generate : obj → string;
  JWT_verify : string → option obj;
  JWT_refusal : string → string;
  (** [bcrypt.hash(password, 10)] and [bcrypt.compare]. *)
  bcrypt_hash : string → string;
  bcrypt_compare : string → string → bool;
  (** [Joi.string().uuid()], and the rule of [chatRequestSchema] for the
      [options] object (bounds on floating-point sampling parameters). *)
  Joi_uuid : string → bool;
  Joi_chat_options : jsval → bool;
  (** [Joi.number()] and [Joi.boolean()] as response validation applies
      them: which values pass, the strings Joi converts included and the
      numbers outside the safe range excluded. *)
  Joi_number : jsval → bool;
  Joi_boolean : jsval → bool;
}.

(** ** The tenant and user directory ([TenantService])

    [uuidv4()] and [new Date().toISOString()] are inputs: every operation
    that calls them takes the identifier and the timestamp they return.
    The operations take tenant and user ids as strings, as their signatures
    say; a caller that read an id from a token or from a record passes it
    through the conversion of a template literal ([JS.interp]), which is
    the identity on strings. *)

Record CreateTenantData := {
  tenant_name : string;
  tenant_domain : string;
  tenant_settings : option obj;
}.

Record CreateUserData := {
  user_username : string;
  user_email : string;
  user_password : string;
  user_role : option string;
}.

Section TenantService.
Context `{Externals}.

Definition parse (text : string) : M jsval :=
  match JSON_parse text with
  | Some v => ret v
  | None => throw (Error "SyntaxError: Unexpected token in JSON")
  end.

(** The [tenant] record [createTenant] builds. *)
Definition newTenant (uuid now : string) (tenantData : CreateTenantData) : obj :=
  <["tenantId" := JStr uuid]>
  (<["name" := JStr (tenant_name tenantData)]>
  (<["domain" := JStr (tenant_domain tenantData)]>
  (<["status" := JStr "active"]>
  (<["createdAt" := JStr now]>
  (<["settings" := JObj (default ∅ (tenant_settings tenantData))]> ∅))))).

Definition createTenant (uuid now : string) (tenantData : CreateTenantData) : M obj :=
  let tenantId := uuid in
  let tenant := newTenant uuid now tenantData in
  let* _ := Redis.set (tenantKey tenantId) (JSON_stringify (JObj tenant)) in
  let* _ := Redis.sAdd tenantsAllKey tenantId in
  let* _ := (if negb (String.eqb (tenant_domain tenantData) EmptyString)
             then Redis.set (domainKey (tenant_domain tenantData)) tenantId
             else ret ()) in
  ret tenant.

(** [Tenant | null]: [JNull] when there is no record, else whatever the
    stored text parses to. *)
Definition getTenant (tenantId : string) : M jsval :=
  let* tenantData := Redis.get (tenantKey tenantId) in
  match tenantData with
  | Some text => if String.eqb text EmptyString then ret JNull else parse text
  | None => ret JNull
  end.

Definition getTenantByDomain (domain : string) : M jsval :=
  let* tenantId := Redis.get (domainKey domain) in
  match tenantId with
  | Some id => if String.eqb id EmptyString then ret JNull else getTenant id
  | None => ret JNull
  end.

(** [{ ...tenant, ...updates, tenantId, updatedAt }] *)
Definition mergeTenant (tenant : jsval) (updates : obj) (tenantId now : string) : obj :=
  <["updatedAt" := JStr now]>
    (<["tenantId" := JStr tenantId]> (updates ∪ JS.own_props tenant)).

Definition updateTenant (now : string) (tenantId : string) (updates : obj) : M jsval :=
  let* tenant := getTenant tenantId in
  if negb (JS.truthy tenant) then ret JNull
  else
    let updatedTenant := mergeTenant tenant updates tenantId now in
    let* _ := Redis.set (tenantKey tenantId) (JSON_stringify (JObj updatedTenant)) in
    ret (JObj updatedTenant).

(** The [user] record [createUser] builds, password hash included. *)
Definition newUser (uuid now tenantId : string) (userData : CreateUserData) : obj :=
  <["userId" := JStr uuid]>
  (<["tenantId" := JStr tenantId]>
  (<["username" := JStr (user_username userData)]>
  (<["email" := JStr (user_email userData)]>
  (<["password" := JStr (bcrypt_hash (user_password userData))]>
  (<["role" := JStr (match user_role userData with
                     | Some r => if String.eqb r EmptyString then "user" else r
                     | None => "user"
                     end)]>
  (<["status" := JStr "active"]>
  (<["createdAt" := JStr now]> ∅))))))).

Definition createUser (uuid now : string) (tenantId : string)
    (userData : CreateUserData) : M obj :=
  let userId := uuid in
  let user := newUser uuid now tenantId userData in
  let* _ := Redis.set (userKey tenantId userId) (JSON_stringify (JObj user)) in
  let* _ := Redis.sAdd (usersKey tenantId) userId in
  let* _ := Redis.set (emailKey tenantId (user_email userData)) userId in
  ret (delete "password" user).

(** [User | null], password hash included. *)
Definition getUserByEmail (tenantId email : string) : M jsval :=
  let* userId := Redis.get (emailKey tenantId email) in
  match userId with
  | None => ret JNull
  | Some id =>
      if String.eqb id EmptyString then ret JNull
      else
        let* userData := Redis.get (userKey tenantId id) in
        match userData with
        | Some text => if String.eqb text EmptyString then ret JNull else parse text
        | None => ret JNull
        end
  end.

(** [UserWithoutPassword | null]; [None] is [null]. *)
Definition getUser (tenantId userId : string) : M (option obj) :=
  let* userData := Redis.get (userKey tenantId userId) in
  match userData with
  | None => ret None
  | Some text =>
      if String.eqb text EmptyString then ret None
      else
        let* user := parse text in
        let* userWithoutPassword := lift (JS.rest_without "password" user) in
        ret (Some userWithoutPassword)
  end.

Definition verifyPassword (password hashedPassword : string) : M bool :=
  ret (bcrypt_compare password hashedPassword).

Fixpoint getAllUsers_loop (tenantId : string) (userIds : list string)
    (users : list obj) : M (list obj) :=
  match userIds with
  | [] => ret users
  | userId :: rest =>
      let* user := getUser tenantId userId in
      getAllUsers_loop tenantId rest
        (match user with Some u => users ++ [u] | None => users end)
  end.

Definition getAllUsers (tenantId : string) : M (list obj) :=
  let* userIds := Redis.sMembers (usersKey tenantId) in
  getAllUsers_loop tenantId userIds [].

(** [{ ...user, ...updates, userId, tenantId, updatedAt }] *)
Definition mergeUser (user : jsval) (updates : obj) (tenantId userId now : string) : obj :=
  <["updatedAt" := JStr now]>
    (<["tenantId" := JStr tenantId]>
       (<["userId" := JStr userId]> (updates ∪ JS.own_props user))).

Definition updateUser (now : string) (tenantId userId : string) (updates : obj)
    : M (option obj) :=
  let* userData := Redis.get (userKey tenantId userId) in
  match userData with
  | None => ret None
  | Some text =>
      if String.eqb text EmptyString then ret None
      else
        let* user := parse text in
        let updatedUser := mergeUser user updates tenantId userId now in
        let* _ := Redis.set (userKey tenantId userId) (JSON_stringify (JObj updatedUser)) in
        ret (Some (delete "password" updatedUser))
  end.

Definition blacklistToken (token : string) (expiresIn : Z) : M unit :=
  Redis.setEx (blacklistKey token) expiresIn "true".

Definition isTokenBlacklisted (token : string) : M bool :=
  let* n := Redis.exists_ (blacklistKey token) in
  ret (n =? 1).

(** [tenantId] and [userId] are whatever the caller read from the tenant
    and user objects. *)
Definition createSession (uuid now : string) (tenantId userId : option jsval)
    (loginTime userAgent : option string) : M obj :=
  let sessionId := uuid in
  let session : obj :=
    <["sessionId" := JStr sessionId]>
    (JS.set_field "tenantId" tenantId
    (JS.set_field "userId" userId
    (<["loginTime" := JStr (match loginTime with
                            | Some t => if String.eqb t EmptyString then now else t
                            | None => now
                            end)]>
    (JS.set_field "userAgent" (JStr <$> userAgent)
    (<["createdAt" := JStr now]> ∅))))) in
  let* _ := Redis.setEx (sessionKey sessionId) 14400 (JSON_stringify (JObj session)) in
  ret session.

End TenantService.

(** ** The JWT strategy ([authPlugin]) *)

(** The Principal: [{ user, tenantId, scope }]. [tenantId] is the claim as
    it was read from the token payload. *)
Record AuthCredentials := {
  cred_user : obj;
  cred_tenantId : option jsval;
  cred_scope : list string;
}.

(** [{ isValid: false }] or [{ isValid: true, credentials }]. *)
Inductive ValidateResult :=
  | Invalid
  | Valid (credentials : AuthCredentials).

(** What the scheme hands to [validate]: the decoded payload and the raw
    token string. *)
Record JWTArtifacts := {
  decoded_payload : obj;
  token : string;
}.

Section AuthPlugin.
Context `{Externals}.

(** The body of the [try] block of [validate]. *)
Definition validate_try (artifacts : JWTArtifacts) : M ValidateResult :=
  let payload := decoded_payload artifacts in
  let token := token artifacts in
  let* isBlacklisted := Redis.exists_ (blacklistKey token) in
  if negb (isBlacklisted =? 0) then ret Invalid
  else
    let* tenantExists :=
      Redis.exists_ (tenantKey (JS.interp (payload !! "tenantId"))) in
    if tenantExists =? 0 then ret Invalid
    else
      let* userData :=
        Redis.get (userKey (JS.interp (payload !! "tenantId"))
                           (JS.interp (payload !! "userId"))) in
      match userData with
      | None => ret Invalid
      | Some text =>
          if String.eqb text EmptyString then ret Invalid
          else
            let* user := parse text in
            let* userWithoutPassword := lift (JS.rest_without "password" user) in
            let* role := lift (JS.prop user "role") in
            ret (Valid {| cred_user := userWithoutPassword;
                          cred_tenantId := payload !! "tenantId";
                          cred_scope := if JS.is_str role "admin"
                                        then ["admin"; "user"]
                                        else ["user"] |})
      end.

(** [validate]: whatever the body throws becomes [{ isValid: false }]. *)
Definition validate (artifacts : JWTArtifacts) : M ValidateResult :=
  try_catch (validate_try artifacts) (λ _, ret Invalid).

(** The strategy on a bearer token: the scheme verifies and decodes it,
    then asks [validate]; a refusal at either step is a 401. *)
Definition authenticate (bearer : string) : M AuthCredentials :=
  match JWT_verify bearer with
  | None => throw (Boom 401 (JWT_refusal bearer))
  | Some payload =>
      let* r := validate {| decoded_payload := payload; token := bearer |} in
      match r with
      | Invalid => throw (Boom 401 "Invalid credentials")
      | Valid credentials => ret credentials
      end
  end.

(** The route option [auth: { scope: [...] }]: a 403 unless the Principal
    carries one of the listed tags. *)
Definition authorize (required : list string) (credentials : AuthCredentials) : M unit :=
  if existsb (λ tag, bool_decide (tag ∈ cred_scope credentials)) required
  then ret ()
  else throw (Boom 403 "Insufficient scope").

(** [generateToken] of routes/auth.ts. *)
Definition tokenClaims (user : obj) (tenantId : option jsval) : obj :=
  JS.set_field "role" (user !! "role")
    (JS.set_field "tenantId" tenantId
       (JS.set_field "userId" (user !! "userId")
          (<["iss" := JStr "urn:issuer:api"]>
             (<["aud" := JStr "urn:audience:api"]> ∅)))).

Definition generateToken (user : obj) (tenantId : option jsval) : string :=
  JWT_generate (tokenClaims user tenantId).

End AuthPlugin.

(** ** The routes of routes/auth.ts *)

(** [h.response(body).code(code)], or a returned object (code 200). *)
Record Reply := { code : Z; body : obj }.

Record RegisterPayload := {
  reg_tenantName : string;
  reg_domain : string;
  reg_username : string;
  reg_email : string;
  reg_password : string;
}.

Record LoginPayload := {
  login_email : string;
  login_password : string;
  login_tenantId : option string;
  login_domain : option string;
}.

Section AuthRoutes.
Context `{Externals}.

(** [catch (error) { if (Boom.isBoom(error)) throw error; throw
    Boom.badImplementation(message) }] *)
Definition rethrow_boom {A} (message : string) (e : exn) : M A :=
  match e with
  | Boom _ _ => throw e
  | _ => throw (Boom 500 message)
  end.

(** [{ tenantId: tenant.tenantId, name: tenant.name, domain: tenant.domain }] *)
Definition tenantSummary (tenant : obj) : obj :=
  JS.set_field "tenantId" (tenant !! "tenantId")
    (JS.set_field "name" (tenant !! "name")
       (JS.set_field "domain" (tenant !! "domain") ∅)).

(** POST /api/auth/register *)
Definition register_handler (tenantUuid tenantNow userUuid userNow : string)
    (payload : RegisterPayload) : M Reply :=
  try_catch
    (let* existingTenant := getTenantByDomain (reg_domain payload) in
     if JS.truthy existingTenant
     then throw (Boom 409 "Tenant with this domain already exists")
     else
       let* tenant := createTenant tenantUuid tenantNow
                        {| tenant_name := reg_tenantName payload;
                           tenant_domain := reg_domain payload;
                           tenant_settings := None |} in
       let* user := createUser userUuid userNow (JS.interp (tenant !! "tenantId"))
                      {| user_username := reg_username payload;
                         user_email := reg_email payload;
                         user_password := reg_password payload;
                         user_role := Some "admin" |} in
       let token := generateToken user (tenant !! "tenantId") in
       ret {| code := 201;
              body := <["message" := JStr "Tenant and admin user created successfully"]>
                      (<["tenant" := JObj (tenantSummary tenant)]>
                      (<["user" := JObj user]>
                      (<["token" := JStr token]> ∅))) |})
    (rethrow_boom "Failed to register tenant").

(** POST /api/auth/login *)
Definition login_handler (sessionUuid loginTime sessionNow : string)
    (userAgent : option string) (payload : LoginPayload) : M Reply :=
  try_catch
    (let* tenant :=
       if JS.truthy_str (login_tenantId payload)
       then let* t := getTenant (default EmptyString (login_tenantId payload)) in ret (Some t)
       else if JS.truthy_str (login_domain payload)
       then let* t := getTenantByDomain (default EmptyString (login_domain payload)) in ret (Some t)
       else ret None in
     match tenant with
     | None => throw (Boom 404 "Tenant not found")
     | Some tenant =>
     if negb (JS.truthy tenant) then throw (Boom 404 "Tenant not found")
     else
       let* tenantStatus := lift (JS.prop tenant "status") in
       if negb (JS.is_str tenantStatus "active")
       then throw (Boom 403 "Tenant is not active")
       else
         let* tenantId := lift (JS.prop tenant "tenantId") in
         let* user := getUserByEmail (JS.interp tenantId) (login_email payload) in
         if negb (JS.truthy user) then throw (Boom 401 "Invalid credentials")
         else
           let* hashed := lift (JS.prop user "password") in
           let* isValid :=
             match hashed with
             | Some (JStr h) => verifyPassword (login_password payload) h
             | _ => throw (Error "data and hash arguments required")
             end in
           if negb isValid then throw (Boom 401 "Invalid credentials")
           else
             let* userStatus := lift (JS.prop user "status") in
             if negb (JS.is_str userStatus "active")
             then throw (Boom 403 "User account is not active")
             else
               let* userWithoutPassword := lift (JS.rest_without "password" user) in
               let token := generateToken userWithoutPassword tenantId in
               let* userId := lift (JS.prop user "userId") in
               let* session := createSession sessionUuid sessionNow tenantId userId
                                 (Some loginTime) userAgent in
               ret {| code := 200;
                      body := <["message" := JStr "Login successful"]>
                              (<["token" := JStr token]>
                              (<["user" := JObj userWithoutPassword]>
                              (<["tenant" := JObj (tenantSummary (JS.own_props tenant))]>
                              (JS.set_field "sessionId" (session !! "sessionId") ∅)))) |}
     end)
    (rethrow_boom "Failed to login").

(** The handler of POST /api/users. *)
Definition createUser_handler (uuid now : string) (credentials : AuthCredentials)
    (userData : CreateUserData) : M Reply :=
  try_catch
    (let tenantId := JS.interp (cred_tenantId credentials) in
     let* existingUser := getUserByEmail tenantId (user_email userData) in
     if JS.truthy existingUser
     then throw (Boom 409 "User with this email already exists in tenant")
     else
       let* user := createUser uuid now tenantId userData in
       ret {| code := 201;
              body := <["message" := JStr "User created successfully"]>
                      (<["user" := JObj user]> ∅) |})
    (rethrow_boom "Failed to create user").

(** POST /api/users: the strategy, the [admin] scope, then the handler. *)
Definition createUser_route (uuid now : string) (bearer : string)
    (userData : CreateUserData) : M Reply :=
  let* credentials := authenticate bearer in
  let* _ := authorize ["admin"] credentials in
  createUser_handler uuid now credentials userData.

End AuthRoutes.

(** ** The Ollama client ([OllamaService]) and the routes of routes/llm.ts *)

Record OllamaMessage := { msg_role : string; msg_content : string }.

Record OllamaChatRequest := {
  chat_model : string;
  chat_messages : list OllamaMessage;
  chat_stream : option bool;
  chat_options : option jsval;
}.

(** The inference service as the axios client sees it: a call resolves with
    the response body or rejects; a rejection by axios itself (connection
    refused, non-2xx status, the 120 s timeout) is an [AxiosError]. *)
Record Upstream := {
  post_chat : OllamaChatRequest → result jsval;
  get_tags : result jsval;
}.

Inductive call :=
  | PostChat (request : OllamaChatRequest)
  | GetTags.

(** An [async] function that talks to the inference service: its result and
    the calls it made, in order. *)
Definition P (A : Type) : Type := result A * list call.

Definition retP {A} (a : A) : P A := (Ok a, []).
Definition throwP {A} (e : exn) : P A := (Throw e, []).
Definition bindP {A B} (m : P A) (k : A → P B) : P B :=
  match m with
  | (Ok a, calls) => let '(r, calls') := k a in (r, calls ++ calls')
  | (Throw e, calls) => (Throw e, calls)
  end.
Definition liftP {A} (r : result A) : P A := (r, []).
Definition try_catchP {A} (body : P A) (handler : exn → P A) : P A :=
  match body with
  | (Ok a, calls) => (Ok a, calls)
  | (Throw e, calls) => let '(r, calls') := handler e in (r, calls ++ calls')
  end.

Notation "'let+' x := c 'in' k" := (bindP c (λ x, k))
  (at level 10, x name, c at level 100, k at level 200).

Section LLM.
Context `{Externals}.
Variable upstream : Upstream.

Definition with_stream (request : OllamaChatRequest) (stream : option bool)
    : OllamaChatRequest :=
  {| chat_model := chat_model request;
     chat_messages := chat_messages request;
     chat_stream := stream;
     chat_options := chat_options request |}.

(** [OllamaService.chat] *)
Definition chat (request : OllamaChatRequest) (tenantId : option jsval) : P jsval :=
  try_catchP
    (let sent := with_stream request (Some false) in
     let+ data := (post_chat upstream sent, [PostChat sent]) in
     (* the log line reads [response.data.done] and [response.data.eval_count] *)
     let+ _ := liftP (JS.prop data "done") in
     retP data)
    (λ error,
       match error with
       | AxiosError message => throwP (Error ("Ollama request failed: " +:+ message))
       | _ => throwP error
       end).

(** [OllamaService.listModels] *)
Definition listModels : P jsval :=
  try_catchP
    (let+ data := (get_tags upstream, [GetTags]) in
     let+ _ := liftP (JS.prop data "models") in
     retP data)
    (λ error,
       match error with
       | AxiosError message => throwP (Error ("Failed to fetch models: " +:+ message))
       | _ => throwP error
       end).

Definition rethrow_boomP {A} (message : string) (e : exn) : P A :=
  match e with
  | Boom _ _ => throwP e
  | _ => throwP (Boom 500 message)
  end.

(** The handler of POST /api/llm/chat. *)
Definition chat_handler (credentials : AuthCredentials)
    (headerTenantId : option string) (chatRequest : OllamaChatRequest) : P obj :=
  try_catchP
    (if negb (JS.strict_eq_str headerTenantId (cred_tenantId credentials))
     then throwP (Boom 403 "Tenant ID does not match authenticated user")
     else
       let chatRequest :=
         match chat_stream chatRequest with
         | Some true => with_stream chatRequest (Some false)
         | _ => chatRequest
         end in
       let+ response := chat chatRequest (cred_tenantId credentials) in
       (* the log line reads [response.model] and [response.done] *)
       let+ _ := liftP (JS.prop response "model") in
       retP (JS.set_field "user_id" (cred_user credentials !! "userId")
               (JS.set_field "tenant_id" (cred_tenantId credentials)
                  (JS.own_props response))))
    (rethrow_boomP "Failed to process chat request").

(** The handler of GET /api/llm/models. *)
Definition models_handler (credentials : AuthCredentials)
    (headerTenantId : option string) : P obj :=
  try_catchP
    (if negb (JS.strict_eq_str headerTenantId (cred_tenantId credentials))
     then throwP (Boom 403 "Tenant ID does not match authenticated user")
     else
       let+ models := listModels in
       let+ _ := liftP (JS.prop models "models") in
       retP (JS.set_field "tenant_id" (cred_tenantId credentials)
               (JS.own_props models)))
    (rethrow_boomP "Failed to fetch models").

(** The route option [validate.headers]:
    ['x-tenant-id': Joi.string().uuid().required()]. A header that is
    absent or not a uuid is a validation failure, which hapi answers with
    a 400 before the handler runs. *)
Definition validate_headers (headerTenantId : option string) : P unit :=
  match headerTenantId with
  | None => throwP (Boom 400 "Invalid request headers input")
  | Some h =>
      if Joi_uuid h then retP ()
      else throwP (Boom 400 "Invalid request headers input")
  end.

Definition nonempty (s : string) : bool := negb (String.eqb s EmptyString).

(** [chatRequestSchema]: a model name, at least one message, every
    message with a role among system, user and assistant and a content
    ([Joi.string()] refuses the empty string). *)
Definition message_ok (m : OllamaMessage) : bool :=
  (String.eqb (msg_role m) "system" || String.eqb (msg_role m) "user"
   || String.eqb (msg_role m) "assistant")
  && nonempty (msg_content m).

Definition chatRequestSchema (r : OllamaChatRequest) : bool :=
  nonempty (chat_model r)
  && negb (Nat.eqb (length (chat_messages r)) 0)
  && forallb message_ok (chat_messages r)
  && match chat_options r with Some o => Joi_chat_options o | None => true end.

(** [stream: Joi.boolean().optional().default(false)] *)
Definition chatRequest_defaults (r : OllamaChatRequest) : OllamaChatRequest :=
  with_stream r (Some (default false (chat_stream r))).

(** The route option [response.schema] of the chat route: only the listed
    keys, each of its type: [Joi.string()] passes the strings that are
    not empty, numbers and booleans pass by Joi's own rules. Conversions
    Joi may apply to a [message] that is not an object are left out: what
    this rule accepts, the route accepts. *)
Definition is_string (v : jsval) : bool :=
  match v with JStr s => nonempty s | _ => false end.
Definition is_number (v : jsval) : bool := Joi_number v.
Definition is_boolean (v : jsval) : bool := Joi_boolean v.

Definition message_field_ok (k : string) (v : jsval) : bool :=
  if String.eqb k "role" then is_string v
  else if String.eqb k "content" then is_string v
  else false.

Definition response_field_ok (k : string) (v : jsval) : bool :=
  if String.eqb k "model" then is_string v
  else if String.eqb k "message" then
    match v with
    | JObj m => bool_decide (map_Forall (λ k' v', message_field_ok k' v' = true) m)
    | _ => false
    end
  else if String.eqb k "created_at" then is_string v
  else if String.eqb k "done" then is_boolean v
  else if String.eqb k "total_duration" then is_number v
  else if String.eqb k "load_duration" then is_number v
  else if String.eqb k "prompt_eval_count" then is_number v
  else if String.eqb k "prompt_eval_duration" then is_number v
  else if String.eqb k "eval_count" then is_number v
  else if String.eqb k "eval_duration" then is_number v
  else if String.eqb k "tenant_id" then is_string v
  else if String.eqb k "user_id" then is_string v
  else false.

Definition chatResponseSchema (o : obj) : bool :=
  bool_decide (map_Forall (λ k v, response_field_ok k v = true) o).

(** POST /api/llm/chat after the strategy has produced the Principal:
    header validation, payload validation, the handler, response
    validation. *)
Definition chat_route (credentials : AuthCredentials)
    (headerTenantId : option string) (payload : OllamaChatRequest) : P Reply :=
  let+ _ := validate_headers headerTenantId in
  if negb (chatRequestSchema payload)
  then throwP (Boom 400 "Invalid request payload input")
  else
    let+ response := chat_handler credentials headerTenantId
                       (chatRequest_defaults payload) in
    if chatResponseSchema response
    then retP {| code := 200; body := response |}
    else throwP (Boom 500 "An internal server error occurred").

(** GET /api/llm/models after the strategy. *)
Definition models_route (credentials : AuthCredentials)
    (headerTenantId : option string) : P Reply :=
  let+ _ := validate_headers headerTenantId in
  let+ response := models_handler credentials headerTenantId in
  retP {| code := 200; body := response |}.

End LLM.

(** ** Sessions, the remaining handlers of routes/auth.ts and streaming *)

(** [s.split(sep)] for a one-character separator: never an empty list. *)
Fixpoint split_on (sep : ascii) (s : string) : list string :=
  match s with
  | EmptyString => [EmptyString]
  | String c r =>
      if Ascii.eqb c sep then EmptyString :: split_on sep r
      else match split_on sep r with
           | h :: t => String c h :: t
           | [] => [String c EmptyString]
           end
  end.

Section Sessions.
Context `{Externals}.

(** [Session | null] *)
Definition getSession (sessionId : string) : M jsval :=
  let* sessionData := Redis.get (sessionKey sessionId) in
  match sessionData with
  | Some text => if String.eqb text EmptyString then ret JNull else parse text
  | None => ret JNull
  end.

Definition deleteSession (sessionId : string) : M unit :=
  Redis.del (sessionKey sessionId).

End Sessions.

Section MoreAuthRoutes.
Context `{Externals}.

(** [catch (error) { throw Boom.badImplementation(message) }]: the
    handlers of logout, me and the user list do not let a Boom error
    through. *)
Definition rethrow_500 {A} (message : string) (e : exn) : M A :=
  throw (Boom 500 message).

(** The handler of POST /api/auth/logout; [authorization] is the
    Authorization header. *)
Definition logout_handler (credentials : AuthCredentials)
    (authorization : option string) : M Reply :=
  try_catch
    (if negb (JS.truthy_str authorization)
     then throw (Boom 401 "No authorization header")
     else
       let token := split_on " "%char (default EmptyString authorization) !! 1%nat in
       let* _ := blacklistToken (JS.interp (JStr <$> token)) 14400 in
       ret {| code := 200;
              body := <["message" := JStr "Logout successful"]> ∅ |})
    (rethrow_500 "Failed to logout").

(** The handler of GET /api/auth/me. *)
Definition me_handler (credentials : AuthCredentials) : M Reply :=
  try_catch
    (let* tenant := getTenant (JS.interp (cred_tenantId credentials)) in
     ret {| code := 200;
            body := <["user" := JObj (cred_user credentials)]>
                    (<["tenant" := if JS.truthy tenant
                                   then JObj (tenantSummary (JS.own_props tenant))
                                   else JNull]> ∅) |})
    (rethrow_500 "Failed to get user information").

(** The handler of GET /api/users. *)
Definition getUsers_handler (credentials : AuthCredentials) : M Reply :=
  try_catch
    (let* users := getAllUsers (JS.interp (cred_tenantId credentials)) in
     ret {| code := 200;
            body := <["users" := JArr (JObj <$> users)]>
                    (<["count" := JNum (Z.of_nat (length users))]> ∅) |})
    (rethrow_500 "Failed to get users").

End MoreAuthRoutes.

(** How a response stream closes: the [end] event or the [error] event. *)
Inductive stream_close :=
  | StreamEnd
  | StreamError (message : string).

Section Streaming.
Context `{Externals}.
(** [String.prototype.trim]. *)
Variable trim : string → string.
(** The inference service on a streaming call: the post is rejected, or
    it resolves with a stream that emits chunks (already decoded by
    [chunk.toString()]) and then closes. *)
Variable post_stream : OllamaChatRequest → result (list string * stream_close).

(** The [for] loop of the [data] listener over the complete lines: a
    line that is not blank is parsed and handed to [onChunk]; a line that
    does not parse is logged and skipped. *)
Definition deliver (lines : list string) : list jsval :=
  omap (λ line, if String.eqb (trim line) EmptyString then None else JSON_parse line)
       lines.

(** The [data] listener: the buffer after the chunk, and the calls of
    [onChunk] it made. *)
Definition on_data (buffer chunk : string) : string * list jsval :=
  let lines := split_on "010"%char (buffer +:+ chunk) in
  (List.last lines EmptyString, deliver (removelast lines)).

(** The listener over the chunks of a stream, in order. *)
Fixpoint on_chunks (buffer : string) (chunks : list string) : string * list jsval :=
  match chunks with
  | [] => (buffer, [])
  | chunk :: rest =>
      let '(buffer', calls) := on_data buffer chunk in
      let '(final, calls') := on_chunks buffer' rest in
      (final, calls ++ calls')
  end.

(** [OllamaService.streamChat]: the outcome of the returned promise, the
    call made upstream, and the values handed to [onChunk]. *)
Definition streamChat (request : OllamaChatRequest) (tenantId : option jsval)
    : P unit * list jsval :=
  let sent := {| chat_model := chat_model request;
                 chat_messages := chat_messages request;
                 chat_stream := Some true;
                 chat_options := chat_options request |} in
  match post_stream sent with
  | Ok (chunks, close) =>
      let calls := (on_chunks EmptyString chunks).2 in
      match close with
      | StreamEnd => ((Ok (), [PostChat sent]), calls)
      | StreamError message => ((Throw (Error message), [PostChat sent]), calls)
      end
  | Throw (AxiosError message) =>
      ((Throw (Error ("Ollama streaming request failed: " +:+ message)),
        [PostChat sent]), [])
  | Throw e => ((Throw e, [PostChat sent]), [])
  end.

End Streaming.

(** ** Vocabulary of the statements *)

(** Identifiers made by [uuidv4()] are hexadecimal digits and dashes; all
    the key lemmas need of them is that they hold no colon. *)
Fixpoint colon_free (s : string) : bool :=
  match s with
  | EmptyString => true
  | String c r => negb (Ascii.eqb c ":"%char) && colon_free r
  end.

(** An identifier as [uuidv4()] makes them: not empty, no colon. *)
Definition uuid_like (s : string) : bool :=
  colon_free s && negb (String.eqb s EmptyString).

(** The store with another keyspace. *)
Definition with_db (s : redis) (d : gmap string rvalue) : redis :=
  {| connected := connected s; db := d |}.

(** The members of the set under a key. *)
Definition members (d : gmap string rvalue) (key : string) : gset string :=
  match d !! key with Some (RSet ms) => ms | _ => ∅ end.

(** The key holds no string, so that [sAdd] is not refused. *)
Definition set_or_absent (d : gmap string rvalue) (key : string) : Prop :=
  ∀ text, d !! key ≠ Some (RString text).

(** The raw token string has a blacklist entry. *)
Definition blacklisted (s : redis) (token : string) : Prop :=
  is_Some (db s !! blacklistKey token).

(** There is a record under the tenant key. *)
Definition tenantExists (s : redis) (tenantId : string) : Prop :=
  is_Some (db s !! tenantKey tenantId).

(** There is no user record under the tenant: [redis.get] resolves to
    [null] or to the empty string. *)
Definition noUserRecord (s : redis) (tenantId userId : string) : Prop :=
  db s !! userKey tenantId userId = None
  ∨ db s !! userKey tenantId userId = Some (RString EmptyString).

(** The [isValid] flag of a validation result. *)
Definition isValid (r : ValidateResult) : bool :=
  match r with Valid _ => true | Invalid => false end.

Section Vocabulary.
Context `{Externals}.

(** What makes a step of [validate] throw: an unreachable store, a user
    key of the wrong kind, stored text that is not JSON, or JSON
    [null]. *)
Definition storeFault (s : redis) (tenantId userId : string) : Prop :=
  connected s = false
  ∨ (∃ ms, db s !! userKey tenantId userId = Some (RSet ms))
  ∨ (∃ text, db s !! userKey tenantId userId = Some (RString text)
             ∧ text ≠ EmptyString
             ∧ (JSON_parse text = None ∨ JSON_parse text = Some JNull)).

(** The Principal [validate] builds from the parsed user record. *)
Definition principal (payload : obj) (user : jsval) : AuthCredentials :=
  {| cred_user := delete "password" (JS.own_props user);
     cred_tenantId := payload !! "tenantId";
     cred_scope := if JS.is_str (JS.own_props user !! "role") "admin"
                   then ["admin"; "user"] else ["user"] |}.

(** [validate] on a reachable store, as one expression over the three
    lookups it makes. *)
Definition gate (d : gmap string rvalue) (a : JWTArtifacts) : ValidateResult :=
  let payload := decoded_payload a in
  match d !! blacklistKey (token a) with
  | Some _ => Invalid
  | None =>
      match d !! tenantKey (JS.interp (payload !! "tenantId")) with
      | None => Invalid
      | Some _ =>
          match d !! userKey (JS.interp (payload !! "tenantId"))
                             (JS.interp (payload !! "userId")) with
          | Some (RString text) =>
              if String.eqb text EmptyString then Invalid
              else match JSON_parse text with
                   | Some JNull | None => Invalid
                   | Some user => Valid (principal payload user)
                   end
          | Some (RSet _) | None => Invalid
          end
      end
  end.

(** The decision of the Auth Gate on the artifacts of a token. *)
Definition accepts (a : JWTArtifacts) (s : redis) : bool :=
  match (validate a s).1 with
  | Ok r => isValid r
  | Throw _ => false
  end.

(** Two stores that differ only in the status field of one tenant
    record. *)
Definition tenantStatusVariant (s1 s2 : redis) : Prop :=
  ∃ (tenantId text1 text2 status : string) (tenant : obj),
    colon_free tenantId = true
    ∧ db s1 !! tenantKey tenantId = Some (RString text1)
    ∧ JSON_parse text1 = Some (JObj tenant)
    ∧ JSON_parse text2 = Some (JObj (<["status" := JStr status]> tenant))
    ∧ s2 = with_db s1 (<[tenantKey tenantId := RString text2]> (db s1)).

(** Two stores that differ only in the status field of one user
    record. *)
Definition userStatusVariant (s1 s2 : redis) : Prop :=
  ∃ (tenantId userId text1 text2 status : string) (user : obj),
    db s1 !! userKey tenantId userId = Some (RString text1)
    ∧ text1 ≠ EmptyString ∧ text2 ≠ EmptyString
    ∧ JSON_parse text1 = Some (JObj user)
    ∧ JSON_parse text2 = Some (JObj (<["status" := JStr status]> user))
    ∧ s2 = with_db s1 (<[userKey tenantId userId := RString text2]> (db s1)).


(** [getUser] can read the user: there is no record, or an empty one, or
    one whose text is JSON other than [null]. *)
Definition userReadable (s : redis) (tenantId userId : string) : Prop :=
  match db s !! userKey tenantId userId with
  | None => True
  | Some (RString text) =>
      text = EmptyString ∨ ∃ v, JSON_parse text = Some v ∧ v ≠ JNull
  | Some (RSet _) => False
  end.

(** The user ids of a tenant. *)
Definition usersOf (s : redis) (tenantId : string) : gset string :=
  members (db s) (usersKey tenantId).



(** The keyspace after a successful [createUser]. *)
Definition created (uuid now tenantId : string) (data : CreateUserData)
    (d : gmap string rvalue) : gmap string rvalue :=
  <[emailKey tenantId (user_email data) := RString uuid]>
    (<[usersKey tenantId := RSet ({[ uuid ]} ∪ members d (usersKey tenantId))]>
       (<[userKey tenantId uuid :=
            RString (JSON_stringify (JObj (newUser uuid now tenantId data)))]> d)).

(** [JSON.parse(JSON.stringify(v))] gives [v] back. *)
Definition json_roundtrip (v : jsval) : Prop :=
  JSON_parse (JSON_stringify v) = Some v.

(** The jwt scheme accepts the token [JWT.token.generate] makes for the
    claims and decodes it to those claims, next to the ones the library
    adds ([iat], [exp]). *)
Definition jwt_roundtrip (claims : obj) : Prop :=
  ∃ decoded, JWT_verify (JWT_generate claims) = Some decoded ∧ claims ⊆ decoded.

End Vocabulary.

(** ** A small instance of the libraries

    Enough of JSON, @hapi/jwt, bcrypt and Joi to run the model on concrete
    stores: [JSON.parse] and the token verifier know a finite list of
    documents and of issued claims. *)
Module Demo.

Definition render (v : jsval) : string :=
  match v with
  | JObj o =>
      "{" +:+ String.concat ","
                ((λ kv : string * jsval, kv.1 +:+ "=" +:+ JS.toString kv.2)
                   <$> map_to_list o) +:+ "}"
  | _ => JS.toString v
  end.

Definition parse_among (documents : list jsval) (text : string) : option jsval :=
  if String.eqb text EmptyString then None
  else List.find (λ v, String.eqb (render v) text) documents.

Definition sign (claims : obj) : string := "jwt:" +:+ render (JObj claims).

Definition verify_among (issued : list obj) (bearer : string) : option obj :=
  (λ claims, <["exp" := JNum 14400]> (<["iat" := JNum 0]> claims))
    <$> List.find (λ claims, String.eqb (sign claims) bearer) issued.

Definition libraries (documents : list jsval) (issued : list obj) : Externals :=
  {| JSON_stringify := render;
     JSON_parse := parse_among documents;
     JWT_generate := sign;
     JWT_verify := verify_among issued;
     bcrypt_hash := λ password, "bcrypt:" +:+ password;
     bcrypt_compare := λ password hashed, String.eqb hashed ("bcrypt:" +:+ password);
     JWT_refusal := λ _, "Invalid token structure";
     Joi_uuid := λ s, Nat.eqb (String.length s) 36 && colon_free s;
     Joi_chat_options := λ _, true;
     Joi_number := λ v, match v with
                        | JNum n => Z.abs n <=? 9007199254740991
                        | _ => false
                        end;
     Joi_boolean := λ v, match v with JBool _ => true | _ => false end |}.

Definition store (entries : list (string * rvalue)) : redis :=
  {| connected := true; db := list_to_map entries |}.

End Demo.

(** ** Vocabulary of the further statements *)

(** An operation that leaves the store as it found it, whatever it
    returns or throws. *)
Definition read_only {A} (m : M A) : Prop := ∀ s, (m s).2 = s.

(** A token as [JWT.token.generate] makes them holds no space. *)
Fixpoint space_free (s : string) : bool :=
  match s with
  | EmptyString => true
  | String c r => negb (Ascii.eqb c " "%char) && space_free r
  end.

Section MoreVocabulary.
Context `{Externals}.

(** What [getUser] gives for a user id: the stored record without its
    password, when there is a record. *)
Definition userView (s : redis) (tenantId userId : string) : option obj :=
  match db s !! userKey tenantId userId with
  | Some (RString text) =>
      if String.eqb text EmptyString then None
      else match JSON_parse text with
           | Some v => Some (delete "password" (JS.own_props v))
           | None => None
           end
  | _ => None
  end.

(** The [session] record [createSession] builds. *)
Definition newSession (uuid now : string) (tenantId userId : option jsval)
    (loginTime userAgent : option string) : obj :=
  <["sessionId" := JStr uuid]>
  (JS.set_field "tenantId" tenantId
  (JS.set_field "userId" userId
  (<["loginTime" := JStr (match loginTime with
                          | Some t => if String.eqb t EmptyString then now else t
                          | None => now
                          end)]>
  (JS.set_field "userAgent" (JStr <$> userAgent)
  (<["createdAt" := JStr now]> ∅))))).

End MoreVocabulary.

(** ** A sample deployment

    Two tenants, two users of the first, one issued token, and an inference
    service that answers or refuses the connection; the statements below are
    run on it. *)
Module Acme.

Definition acmeId : string := "11111111-1111-4111-8111-111111111111".
Definition globexId : string := "22222222-2222-4222-8222-222222222222".
Definition adminId : string := "aaaaaaaa-aaaa-4aaa-8aaa-aaaaaaaaaaaa".
Definition bobId : string := "bbbbbbbb-bbbb-4bbb-8bbb-bbbbbbbbbbbb".
Definition freshId : string := "cccccccc-cccc-4ccc-8ccc-cccccccccccc".
Definition now : string := "2024-01-15T10:30:00.000Z".
Definition later : string := "2024-01-15T11:00:00.000Z".

Definition bcryptOnly : Externals := Demo.libraries [] [].

Definition acmeData : CreateTenantData :=
  {| tenant_name := "Acme"; tenant_domain := "acme.com"; tenant_settings := None |}.
Definition globexData : CreateTenantData :=
  {| tenant_name := "Globex"; tenant_domain := "globex.com"; tenant_settings := None |}.
Definition acmeAgainData : CreateTenantData :=
  {| tenant_name := "Acme Two"; tenant_domain := "acme.com"; tenant_settings := None |}.
Definition adminData : CreateUserData :=
  {| user_username := "admin"; user_email := "admin@acme.com";
     user_password := "SecurePass123"; user_role := Some "admin" |}.
Definition bobData : CreateUserData :=
  {| user_username := "bob"; user_email := "bob@acme.com";
     user_password := "BobSecret123"; user_role := None |}.

Definition acme : obj := newTenant acmeId now acmeData.
Definition globex : obj := newTenant globexId now globexData.
Definition acmeAgain : obj := newTenant freshId later acmeAgainData.
Definition admin : obj := @newUser bcryptOnly adminId now acmeId adminData.
Definition bob : obj := @newUser bcryptOnly bobId now acmeId bobData.
Definition bobAtGlobex : obj := @newUser bcryptOnly freshId later globexId bobData.
Definition deactivate : obj := {[ "status" := JStr "inactive" ]}.
Definition move : obj := {[ "domain" := JStr "acme.io" ]}.
Definition acmeInactive : obj := mergeTenant (JObj acme) deactivate acmeId later.
Definition acmeMoved : obj := mergeTenant (JObj acme) move acmeId later.
Definition acmeSuspended : obj := <["status" := JStr "suspended"]> acme.
Definition bobInactive : obj := <["status" := JStr "inactive"]> bob.

Definition adminClaims : obj := tokenClaims (delete "password" admin) (Some (JStr acmeId)).
Definition adminDecoded : obj :=
  <["exp" := JNum 14400]> (<["iat" := JNum 0]> adminClaims).

Definition libs : Externals :=
  Demo.libraries
    [JObj acme; JObj globex; JObj acmeAgain; JObj admin; JObj bob;
     JObj bobAtGlobex; JObj acmeInactive; JObj acmeMoved; JObj acmeSuspended;
     JObj bobInactive]
    [adminClaims].

Definition adminToken : string := Demo.sign adminClaims.

Definition entries : list (string * rvalue) :=
  [ (tenantKey acmeId, RString (Demo.render (JObj acme)));
    (tenantKey globexId, RString (Demo.render (JObj globex)));
    (tenantsAllKey, RSet {[ acmeId; globexId ]});
    (domainKey "acme.com", RString acmeId);
    (domainKey "globex.com", RString globexId);
    (userKey acmeId adminId, RString (Demo.render (JObj admin)));
    (userKey acmeId bobId, RString (Demo.render (JObj bob)));
    (usersKey acmeId, RSet {[ adminId; bobId ]});
    (emailKey acmeId "admin@acme.com", RString adminId);
    (emailKey acmeId "bob@acme.com", RString bobId) ].

Definition store : redis := Demo.store entries.

Definition empty : redis := Demo.store [].

(** The same store after the first tenant was deactivated. *)
Definition storeInactive : redis :=
  Demo.store ((tenantKey acmeId, RString (Demo.render (JObj acmeInactive))) :: entries).

(** The same store after the first tenant was suspended, and after bob
    was deactivated. *)
Definition storeSuspended : redis :=
  with_db store
    (<[tenantKey acmeId := RString (Demo.render (JObj acmeSuspended))]> (db store)).

Definition storeBobInactive : redis :=
  with_db store
    (<[userKey acmeId bobId := RString (Demo.render (JObj bobInactive))]> (db store)).

Definition adminPrincipal : AuthCredentials :=
  {| cred_user := delete "password" admin;
     cred_tenantId := Some (JStr acmeId);
     cred_scope := ["admin"; "user"] |}.


Definition adminArtifacts : JWTArtifacts :=
  {| decoded_payload := adminDecoded; token := adminToken |}.

Definition hello : OllamaChatRequest :=
  {| chat_model := "llama2";
     chat_messages := [ {| msg_role := "user"; msg_content := "Hello" |} ];
     chat_stream := None;
     chat_options := None |}.

Definition answer : obj :=
  <["model" := JStr "llama2"]>
  (<["created_at" := JStr "2024-01-15T10:30:00Z"]>
  (<["message" := JObj (<["role" := JStr "assistant"]>
                        (<["content" := JStr "Hi there"]> ∅))]>
  (<["done" := JBool true]> ∅))).

Definition ollamaUp : Upstream :=
  {| post_chat := λ _, Ok (JObj answer); get_tags := Ok (JObj ∅) |}.

(** An inference service whose answer says why it stopped. *)
Definition ollamaWithReason : Upstream :=
  {| post_chat := λ _, Ok (JObj (<["done_reason" := JStr "stop"]> answer));
     get_tags := Ok (JObj ∅) |}.

Definition ollamaDown : Upstream :=
  {| post_chat := λ _, Throw (AxiosError "connect ECONNREFUSED 127.0.0.1:11434");
     get_tags := Throw (AxiosError "connect ECONNREFUSED 127.0.0.1:11434") |}.

Definition registerAcmeAgain : RegisterPayload :=
  {| reg_tenantName := "Acme Two"; reg_domain := "acme.com";
     reg_username := "mallory"; reg_email := "mallory@acme.com";
     reg_password := "Mallory12345" |}.

Definition loginBob : LoginPayload :=
  {| login_email := "bob@acme.com"; login_password := "BobSecret123";
     login_tenantId := Some acmeId; login_domain := None |}.

Definition loginAdmin : LoginPayload :=
  {| login_email := "admin@acme.com"; login_password := "SecurePass123";
     login_tenantId := Some acmeId; login_domain := None |}.

End Acme.

(** ** A third tenant, a session and a stream

    What the further statements are run on, next to the deployment
    above: a tenant that registers, a user that is added and one that is
    renamed, the session of a login, a token of a plain user, a store that
    cannot be reached, and an inference service that streams. *)
Module Initech.

Definition initechId : string := "33333333-3333-4333-8333-333333333333".
Definition peterId : string := "dddddddd-dddd-4ddd-8ddd-dddddddddddd".
Definition carolId : string := "eeeeeeee-eeee-4eee-8eee-eeeeeeeeeeee".
Definition sessionId : string := "ffffffff-ffff-4fff-8fff-ffffffffffff".

Definition initechData : CreateTenantData :=
  {| tenant_name := "Initech"; tenant_domain := "initech.com";
     tenant_settings := None |}.
Definition registerInitech : RegisterPayload :=
  {| reg_tenantName := "Initech"; reg_domain := "initech.com";
     reg_username := "peter"; reg_email := "peter@initech.com";
     reg_password := "TpsReports123" |}.
Definition peterData : CreateUserData :=
  {| user_username := "peter"; user_email := "peter@initech.com";
     user_password := "TpsReports123"; user_role := Some "admin" |}.
Definition carolData : CreateUserData :=
  {| user_username := "carol"; user_email := "carol@acme.com";
     user_password := "CarolSecret123"; user_role := None |}.

Definition initech : obj := newTenant initechId Acme.later initechData.
Definition peter : obj :=
  @newUser Acme.bcryptOnly peterId Acme.later initechId peterData.
Definition carol : obj :=
  @newUser Acme.bcryptOnly carolId Acme.later Acme.acmeId carolData.
Definition rename : obj := {[ "email" := JStr "robert@acme.com" ]}.
Definition bobRenamed : obj :=
  mergeUser (JObj Acme.bob) rename Acme.acmeId Acme.bobId Acme.later.
Definition session : obj :=
  newSession sessionId Acme.later (Some (JStr Acme.acmeId)) (Some (JStr Acme.adminId))
    (Some Acme.later) (Some "curl/8.0").
Definition piece : obj := {[ "response" := JStr "Hi" ]}.

Definition peterClaims : obj :=
  tokenClaims (delete "password" peter) (Some (JStr initechId)).
Definition peterDecoded : obj :=
  <["exp" := JNum 14400]> (<["iat" := JNum 0]> peterClaims).
Definition bobClaims : obj :=
  tokenClaims (delete "password" Acme.bob) (Some (JStr Acme.acmeId)).
Definition bobToken : string := Demo.sign bobClaims.

Definition libs : Externals :=
  Demo.libraries
    [JObj Acme.acme; JObj Acme.globex; JObj Acme.admin; JObj Acme.bob;
     JObj Acme.acmeMoved; JObj initech; JObj peter; JObj carol; JObj bobRenamed;
     JObj session; JObj piece]
    [Acme.adminClaims; peterClaims; bobClaims].

(** The store of the deployment while Redis cannot be reached. *)
Definition down : redis := {| connected := false; db := db Acme.store |}.

Definition loginAdminWrong : LoginPayload :=
  {| login_email := "admin@acme.com"; login_password := "letmein";
     login_tenantId := Some Acme.acmeId; login_domain := None |}.
Definition loginNobody : LoginPayload :=
  {| login_email := "nobody@acme.com"; login_password := "letmein";
     login_tenantId := Some Acme.acmeId; login_domain := None |}.

(** An inference service of a later version: its answer has one more
    field. *)
Definition ollamaNew : Upstream :=
  {| post_chat := λ _, Ok (JObj (<["done_reason" := JStr "stop"]> Acme.answer));
     get_tags := Ok JNull |}.

Definition is_space (c : ascii) : bool :=
  Ascii.eqb c " "%char || Ascii.eqb c "009"%char || Ascii.eqb c "010"%char
  || Ascii.eqb c "013"%char.

Fixpoint trimStart (s : string) : string :=
  match s with
  | EmptyString => EmptyString
  | String c r => if is_space c then trimStart r else s
  end.

Fixpoint trimEnd (s : string) : string :=
  match s with
  | EmptyString => EmptyString
  | String c r =>
      match trimEnd r with
      | EmptyString => if is_space c then EmptyString else String c EmptyString
      | r' => String c r'
      end
  end.

Definition trim (s : string) : string := trimEnd (trimStart s).

(** Two answers and a blank line, cut into three chunks; the stream
    ends in the middle of a third answer. *)
Definition chunks : list string :=
  [ "{respon";
    "se=Hi}" +:+ String "010"%char (String "010"%char "{response");
    "=Hi}" +:+ String "010"%char "{resp" ].

Definition streaming : OllamaChatRequest → result (list string * stream_close) :=
  λ _, Ok (chunks, StreamEnd).

End Initech.

(** * Properties *)

(** ** Strings and keys *)

#[local] Arguments String.append !_ _ / : simpl nomatch.

Lemma eqb_empty_true (s : string) : String.eqb s EmptyString = true → s = EmptyString.
Proof. apply String.eqb_eq. Qed.

Lemma colon_free_app (a b : string) :
  colon_free (a +:+ b) = colon_free a && colon_free b.
Proof.
  induction a as [|c a IH]; simpl; [reflexivity|].
  rewrite IH. apply andb_assoc.
Qed.

(** The first colon splits a string in one way only. *)
Lemma colon_split (a b x y : string) :
  colon_free a = true → colon_free b = true →
  a +:+ String ":"%char x = b +:+ String ":"%char y → a = b ∧ x = y.
Proof.
  revert b. induction a as [|c a IH]; intros [|c' b] Ha Hb Heq; simpl in *.
  - by simplify_eq.
  - simplify_eq; simpl in *; done.
  - simplify_eq; simpl in *; done.
  - apply andb_prop in Ha as [_ Ha]. apply andb_prop in Hb as [_ Hb].
    simplify_eq. destruct (IH b Ha Hb) as [-> ->]; done.
Qed.

Lemma blacklistKey_ne_tenantKey (token tenantId : string) :
  blacklistKey token ≠ tenantKey tenantId.
Proof. unfold blacklistKey, tenantKey. simpl. congruence. Qed.

Lemma blacklistKey_ne_userKey (token tenantId userId : string) :
  blacklistKey token ≠ userKey tenantId userId.
Proof. unfold blacklistKey, userKey. simpl. congruence. Qed.

Lemma tenantKey_inj (a b : string) : tenantKey a = tenantKey b → a = b.
Proof. unfold tenantKey. simpl. congruence. Qed.

Lemma tenantKey_ne_userKey (tenantId t u : string) :
  colon_free tenantId = true → tenantKey tenantId ≠ userKey t u.
Proof.
  unfold tenantKey, userKey. simpl. intros Hfree Heq. simplify_eq.
  rewrite colon_free_app in Hfree. simpl in Hfree.
  by rewrite andb_false_r in Hfree.
Qed.

Lemma tenantKey_ne_domainKey (tenantId domain : string) :
  colon_free tenantId = true → tenantKey tenantId ≠ domainKey domain.
Proof.
  unfold tenantKey, domainKey. simpl. intros Hfree Heq. by simplify_eq.
Qed.

Lemma tenantKey_ne_tenantsAllKey (tenantId : string) :
  tenantKey tenantId ≠ tenantsAllKey.
Proof. unfold tenantKey, tenantsAllKey. simpl. congruence. Qed.

Lemma domainKey_ne_tenantsAllKey (domain : string) :
  domainKey domain ≠ tenantsAllKey.
Proof. unfold domainKey, tenantsAllKey. simpl. congruence. Qed.

(** ** Redis commands on a reachable store *)

Lemma connected_eta (s : redis) :
  connected s = true → {| connected := true; db := db s |} = s.
Proof. destruct s as [c d]. simpl. intros ->. reflexivity. Qed.

Lemma get_run (key : string) (s : redis) :
  connected s = true →
  Redis.get key s =
    (match db s !! key with
     | None => Ok None
     | Some (RString v) => Ok (Some v)
     | Some (RSet _) => Throw Redis.wrongtype
     end, s).
Proof.
  intros Hc. unfold Redis.get, Redis.command. rewrite Hc.
  destruct (db s !! key) as [[v|ms]|]; simpl; by rewrite connected_eta.
Qed.

Lemma exists_run (key : string) (s : redis) :
  connected s = true →
  Redis.exists_ key s =
    (Ok (match db s !! key with Some _ => 1 | None => 0 end), s).
Proof.
  intros Hc. unfold Redis.exists_, Redis.command. rewrite Hc. simpl.
  by rewrite connected_eta.
Qed.

Lemma set_run (key value : string) (s : redis) :
  connected s = true →
  Redis.set key value s = (Ok (), with_db s (<[key := RString value]> (db s))).
Proof.
  intros Hc. unfold Redis.set, Redis.command, with_db. rewrite Hc. reflexivity.
Qed.

Lemma sAdd_run (key member : string) (s : redis) :
  connected s = true →
  Redis.sAdd key member s =
    match db s !! key with
    | None => (Ok (), with_db s (<[key := RSet {[ member ]}]> (db s)))
    | Some (RSet ms) => (Ok (), with_db s (<[key := RSet ({[ member ]} ∪ ms)]> (db s)))
    | Some (RString _) => (Throw Redis.wrongtype, s)
    end.
Proof.
  intros Hc. unfold Redis.sAdd, Redis.command, with_db. rewrite Hc.
  destruct (db s !! key) as [[v|ms]|]; simpl; try reflexivity.
  by rewrite connected_eta.
Qed.

Lemma command_down {A} (f : gmap string rvalue → result A * gmap string rvalue) (s : redis) :
  connected s = false → Redis.command f s = (Throw Redis.unreachable, s).
Proof. intros Hc. unfold Redis.command. by rewrite Hc. Qed.

(** ** The Auth Gate *)

Section Validate.
Context `{Externals}.

Lemma validate_run (a : JWTArtifacts) (s : redis) :
  validate a s = (Ok (if connected s then gate (db s) a else Invalid), s).
Proof.
  destruct (connected s) eqn:Hc.
  - unfold validate, validate_try, try_catch, bind, gate.
    rewrite (exists_run _ _ Hc).
    destruct (db s !! blacklistKey (token a)); simpl; [reflexivity|].
    rewrite (exists_run _ _ Hc).
    destruct (db s !! tenantKey _); simpl; [|reflexivity].
    rewrite (get_run _ _ Hc).
    destruct (db s !! userKey _ _) as [[text|ms]|]; simpl; try reflexivity.
    destruct (String.eqb text EmptyString); simpl; [reflexivity|].
    unfold parse. destruct (JSON_parse text) as [v|]; simpl; [|reflexivity].
    destruct v; reflexivity.
  - unfold validate, validate_try, try_catch, bind, Redis.exists_.
    by rewrite (command_down _ _ Hc).
Qed.

(** C2. [validate] never throws and never writes. On the artifacts of a
    signed, well-formed, unexpired token it answers invalid exactly when
    the raw token has a blacklist entry, or the tenant of the claims has
    no record, or the user of the claims has no record under that tenant,
    or a step fails (store unreachable, malformed stored JSON); in every
    other case it answers valid with a Principal, the one built from the
    stored user record. *)
Theorem validate_fail_closed (s : redis) (a : JWTArtifacts) :
  let tenantId := JS.interp (decoded_payload a !! "tenantId") in
  let userId := JS.interp (decoded_payload a !! "userId") in
  ∃ r, validate a s = (Ok r, s)
       ∧ (r = Invalid ↔ blacklisted s (token a)
                        ∨ ¬ tenantExists s tenantId
                        ∨ noUserRecord s tenantId userId
                        ∨ storeFault s tenantId userId)
       ∧ (r ≠ Invalid → ∃ credentials, r = Valid credentials)
       ∧ (∀ text user,
            connected s = true → ¬ blacklisted s (token a) →
            tenantExists s tenantId →
            db s !! userKey tenantId userId = Some (RString text) →
            text ≠ EmptyString →
            JSON_parse text = Some user → user ≠ JNull →
            r = Valid (principal (decoded_payload a) user)).
Proof.
  intros tenantId userId. rewrite validate_run.
  eexists; split; [reflexivity|]. split; [|split].
  2:{ destruct (if connected s then _ else _); [congruence|eauto]. }
  2:{ intros text user Hc Hbl [tn Htn] Hrec Htext Hparse Huser.
      rewrite Hc. unfold gate. fold tenantId userId.
      destruct (db s !! blacklistKey (token a)) eqn:Hb.
      { exfalso. apply Hbl. unfold blacklisted. rewrite Hb. eauto. }
      rewrite Htn, Hrec. apply String.eqb_neq in Htext. rewrite Htext, Hparse.
      by destruct user. }
  unfold blacklisted, tenantExists, noUserRecord, storeFault, gate.
  fold tenantId userId.
  destruct (connected s); [|naive_solver].
  destruct (db s !! blacklistKey (token a)) as [bl|]; [naive_solver|].
  destruct (db s !! tenantKey tenantId) as [tn|].
  2:{ split; [intros _|done]. right; left. by intros [? ?]. }
  destruct (db s !! userKey tenantId userId) as [[text|ms]|]; [|naive_solver..].
  destruct (String.eqb text EmptyString) eqn:Hempty.
  { apply eqb_empty_true in Hempty as ->. naive_solver. }
  apply String.eqb_neq in Hempty.
  destruct (JSON_parse text) as [v|] eqn:Hparse; [|naive_solver].
  destruct v; split; try done; try naive_solver.
Qed.

End Validate.

Section TokenRoundTrip.
Context `{Externals}.

Lemma tokenClaims_tenantId (user : obj) (tenantId : option jsval) :
  tokenClaims user tenantId !! "tenantId" = tenantId.
Proof.
  unfold tokenClaims, JS.set_field.
  destruct (user !! "role"), tenantId, (user !! "userId"); by simplify_map_eq.
Qed.

Lemma tokenClaims_userId (user : obj) (tenantId : option jsval) :
  tokenClaims user tenantId !! "userId" = user !! "userId".
Proof.
  unfold tokenClaims, JS.set_field.
  destruct (user !! "role"), tenantId, (user !! "userId"); by simplify_map_eq.
Qed.


(** C1. A token issued by [generateToken] for a user of a tenant and
    then presented to the Auth Gate, on a store that holds the tenant
    record and the user record with the role of the token, is admitted
    with a Principal whose scope is [admin; user] when the role is admin
    and [user] otherwise, whose tenant is the tenant embedded in the
    token, and whose user is the stored user record without its
    password. The token is the one [generateToken] makes: all that is
    asked of the jwt library is that it decodes the tokens it issues. *)
Theorem issued_token_principal (s : redis) (user stored : obj)
    (tenantId userId text : string) :
  let bearer := generateToken user (Some (JStr tenantId)) in
  let expected :=
    {| cred_user := delete "password" stored;
       cred_tenantId := Some (JStr tenantId);
       cred_scope := if JS.is_str (user !! "role") "admin"
                     then ["admin"; "user"] else ["user"] |} in
  connected s = true →
  user !! "userId" = Some (JStr userId) →
  jwt_roundtrip (tokenClaims user (Some (JStr tenantId))) →
  ¬ blacklisted s bearer →
  tenantExists s tenantId →
  db s !! userKey tenantId userId = Some (RString text) →
  text ≠ EmptyString →
  JSON_parse text = Some (JObj stored) →
  stored !! "role" = user !! "role" →
  ∃ decoded,
    JWT_verify bearer = Some decoded
    ∧ validate {| decoded_payload := decoded; token := bearer |} s
      = (Ok (Valid expected), s)
    ∧ authenticate bearer s = (Ok expected, s)
    ∧ decoded !! "tenantId" = cred_tenantId expected
    ∧ decoded !! "userId" = Some (JStr userId)
    ∧ cred_user expected !! "password" = None.
Proof.
  intros bearer expected Hc Huid (decoded & Hverify & Hclaims) Hbl [tn Htn]
    Hu Htext Hparse Hrole.
  exists decoded.
  assert (JWT_verify bearer = Some decoded) as Hverify' by exact Hverify.
  assert (decoded !! "tenantId" = Some (JStr tenantId)) as Hdt.
  { eapply lookup_weaken; [|exact Hclaims]. apply tokenClaims_tenantId. }
  assert (decoded !! "userId" = Some (JStr userId)) as Hdu.
  { eapply lookup_weaken; [|exact Hclaims]. by rewrite tokenClaims_userId. }
  assert (validate {| decoded_payload := decoded; token := bearer |} s
          = (Ok (Valid expected), s)) as Hvalid.
  { rewrite validate_run, Hc. unfold gate. simpl.
    rewrite Hdt, Hdu. simpl.
    destruct (db s !! blacklistKey bearer) eqn:Hb.
    { exfalso. apply Hbl. unfold blacklisted. rewrite Hb. eauto. }
    rewrite Htn, Hu.
    apply String.eqb_neq in Htext. rewrite Htext, Hparse.
    unfold principal, expected. simpl. by rewrite Hdt, Hrole. }
  split; [exact Hverify'|]. split; [exact Hvalid|].
  split; [|split; [exact Hdt|split; [exact Hdu|]]].
  - unfold authenticate. rewrite Hverify'. unfold bind. by rewrite Hvalid.
  - apply lookup_delete_eq.
Qed.

End TokenRoundTrip.

(** ** The directory on a reachable store *)

Section DirectoryRuns.
Context `{Externals}.

Lemma getTenant_run (tenantId : string) (s : redis) :
  connected s = true →
  getTenant tenantId s =
    (match db s !! tenantKey tenantId with
     | None => Ok JNull
     | Some (RString text) =>
         if String.eqb text EmptyString then Ok JNull
         else match JSON_parse text with
              | Some v => Ok v
              | None => Throw (Error "SyntaxError: Unexpected token in JSON")
              end
     | Some (RSet _) => Throw Redis.wrongtype
     end, s).
Proof.
  intros Hc. unfold getTenant, bind. rewrite (get_run _ _ Hc).
  destruct (db s !! tenantKey tenantId) as [[text|ms]|]; try reflexivity.
  destruct (String.eqb text EmptyString); [reflexivity|].
  unfold parse. by destruct (JSON_parse text).
Qed.

Lemma getTenantByDomain_run (domain : string) (s : redis) :
  connected s = true →
  getTenantByDomain domain s =
    match db s !! domainKey domain with
    | None => (Ok JNull, s)
    | Some (RString id) =>
        if String.eqb id EmptyString then (Ok JNull, s) else getTenant id s
    | Some (RSet _) => (Throw Redis.wrongtype, s)
    end.
Proof.
  intros Hc. unfold getTenantByDomain, bind. rewrite (get_run _ _ Hc).
  destruct (db s !! domainKey domain) as [[id|ms]|]; try reflexivity.
  by destruct (String.eqb id EmptyString).
Qed.

Lemma getUserByEmail_run (tenantId email : string) (s : redis) :
  connected s = true →
  getUserByEmail tenantId email s =
    (match db s !! emailKey tenantId email with
     | None => Ok JNull
     | Some (RString id) =>
         if String.eqb id EmptyString then Ok JNull
         else match db s !! userKey tenantId id with
              | None => Ok JNull
              | Some (RString text) =>
                  if String.eqb text EmptyString then Ok JNull
                  else match JSON_parse text with
                       | Some v => Ok v
                       | None => Throw (Error "SyntaxError: Unexpected token in JSON")
                       end
              | Some (RSet _) => Throw Redis.wrongtype
              end
     | Some (RSet _) => Throw Redis.wrongtype
     end, s).
Proof.
  intros Hc. unfold getUserByEmail, bind. rewrite (get_run _ _ Hc).
  destruct (db s !! emailKey tenantId email) as [[id|ms]|]; try reflexivity.
  destruct (String.eqb id EmptyString); [reflexivity|].
  rewrite (get_run _ _ Hc).
  destruct (db s !! userKey tenantId id) as [[text|ms]|]; try reflexivity.
  destruct (String.eqb text EmptyString); [reflexivity|].
  unfold parse. by destruct (JSON_parse text).
Qed.

(** [updateTenant] writes at most the tenant record, and only where a
    record already is. *)
Lemma updateTenant_store (now tenantId : string) (updates : obj) (s : redis) :
  (updateTenant now tenantId updates s).2 = s
  ∨ (is_Some (db s !! tenantKey tenantId)
     ∧ ∃ text, (updateTenant now tenantId updates s).2
               = with_db s (<[tenantKey tenantId := RString text]> (db s))).
Proof.
  destruct (connected s) eqn:Hc.
  - unfold updateTenant, bind. rewrite (getTenant_run _ _ Hc).
    destruct (db s !! tenantKey tenantId) as [[text|ms]|] eqn:Hrec; simpl; auto.
    destruct (String.eqb text EmptyString); simpl; auto.
    destruct (JSON_parse text) as [v|]; simpl; auto.
    destruct (JS.truthy v); simpl; auto.
    rewrite (set_run _ _ _ Hc). simpl. right. split; eauto.
  - left. unfold updateTenant, getTenant, bind, Redis.get.
    by rewrite (command_down _ _ Hc).
Qed.

End DirectoryRuns.

(** ** Lifecycle status and the Auth Gate *)

Section Status.
Context `{Externals}.

Lemma gate_insert_tenant (d : gmap string rvalue) (tenantId : string)
    (v : rvalue) (a : JWTArtifacts) :
  colon_free tenantId = true →
  is_Some (d !! tenantKey tenantId) →
  gate (<[tenantKey tenantId := v]> d) a = gate d a.
Proof.
  intros Hfree [old Hold]. unfold gate.
  rewrite lookup_insert_ne by (apply not_eq_sym, blacklistKey_ne_tenantKey).
  destruct (d !! blacklistKey (token a)); [reflexivity|].
  rewrite (lookup_insert_ne _ _ (userKey _ _))
    by (by apply tenantKey_ne_userKey).
  destruct (decide (tenantKey tenantId
                    = tenantKey (JS.interp (decoded_payload a !! "tenantId")))) as [Heq|Hne].
  - rewrite <- Heq, lookup_insert_eq, Hold. reflexivity.
  - by rewrite lookup_insert_ne.
Qed.

Lemma validate_tenantStatusVariant (s1 s2 : redis) (a : JWTArtifacts) :
  tenantStatusVariant s1 s2 → (validate a s1).1 = (validate a s2).1.
Proof.
  intros (tenantId & text1 & text2 & status & tenant & Hfree & Hrec & _ & _ & ->).
  rewrite !validate_run. simpl.
  destruct (connected s1); [|reflexivity].
  rewrite gate_insert_tenant; eauto.
Qed.

Lemma validate_updateTenant (now tenantId : string) (updates : obj)
    (s : redis) (a : JWTArtifacts) :
  colon_free tenantId = true →
  (validate a (updateTenant now tenantId updates s).2).1 = (validate a s).1.
Proof.
  intros Hfree.
  destruct (updateTenant_store now tenantId updates s) as [->|[Hsome [text ->]]];
    [reflexivity|].
  rewrite !validate_run. simpl.
  destruct (connected s); [|reflexivity].
  by rewrite gate_insert_tenant.
Qed.

Lemma principal_status (payload : obj) (user : obj) (status : string) :
  cred_tenantId (principal payload (JObj (<["status" := JStr status]> user)))
    = cred_tenantId (principal payload (JObj user))
  ∧ cred_scope (principal payload (JObj (<["status" := JStr status]> user)))
    = cred_scope (principal payload (JObj user)).
Proof. unfold principal. simpl. by rewrite lookup_insert_ne. Qed.

Lemma validate_userStatusVariant (s1 s2 : redis) (a : JWTArtifacts) :
  userStatusVariant s1 s2 →
  match (validate a s1).1, (validate a s2).1 with
  | Ok (Valid c1), Ok (Valid c2) =>
      cred_tenantId c1 = cred_tenantId c2 ∧ cred_scope c1 = cred_scope c2
  | Ok Invalid, Ok Invalid => True
  | _, _ => False
  end.
Proof.
  intros (tenantId & userId & text1 & text2 & status & user
          & Hrec & Hne1 & Hne2 & Hp1 & Hp2 & ->).
  rewrite !validate_run. simpl.
  destruct (connected s1); [|done].
  unfold gate.
  rewrite lookup_insert_ne by (apply not_eq_sym, blacklistKey_ne_userKey).
  destruct (db s1 !! blacklistKey (token a)); [done|].
  set (tk := tenantKey (JS.interp (decoded_payload a !! "tenantId"))).
  set (uk := userKey (JS.interp (decoded_payload a !! "tenantId"))
                     (JS.interp (decoded_payload a !! "userId"))).
  assert (is_Some (<[userKey tenantId userId := RString text2]> (db s1) !! tk)
          ↔ is_Some (db s1 !! tk)) as Htk.
  { destruct (decide (userKey tenantId userId = tk)) as [<-|Hne].
    - rewrite lookup_insert_eq, Hrec. split; eauto.
    - by rewrite lookup_insert_ne. }
  destruct (db s1 !! tk) as [tn|] eqn:Htn.
  2:{ destruct (<[userKey tenantId userId:=RString text2]> (db s1) !! tk) eqn:Htn2; [|done].
      destruct Htk as [Htk _]. destruct Htk as [? ?]; [eauto|done]. }
  destruct (<[userKey tenantId userId:=RString text2]> (db s1) !! tk) eqn:Htn2.
  2:{ destruct Htk as [_ Htk]. destruct Htk as [? ?]; [eauto|done]. }
  destruct (decide (userKey tenantId userId = uk)) as [<-|Hne].
  - rewrite lookup_insert_eq, Hrec.
    apply String.eqb_neq in Hne1, Hne2. rewrite Hne1, Hne2, Hp1, Hp2.
    destruct (principal_status (decoded_payload a) user status) as [-> ->]. done.
  - rewrite lookup_insert_ne by done.
    destruct (db s1 !! uk) as [[text|ms]|]; try done.
    destruct (String.eqb text EmptyString); [done|].
    destruct (JSON_parse text) as [[]|]; done.
Qed.

(** Login with a tenant id whose record is not active is refused. *)
Lemma login_inactive_tenant (sessionUuid loginTime sessionNow : string)
    (userAgent : option string) (payload : LoginPayload) (s : redis)
    (tenantId text : string) (tenant : obj) :
  connected s = true →
  login_tenantId payload = Some tenantId → tenantId ≠ EmptyString →
  db s !! tenantKey tenantId = Some (RString text) → text ≠ EmptyString →
  JSON_parse text = Some (JObj tenant) →
  JS.is_str (tenant !! "status") "active" = false →
  login_handler sessionUuid loginTime sessionNow userAgent payload s
  = (Throw (Boom 403 "Tenant is not active"), s).
Proof.
  intros Hc Hid Hne Hrec Htext Hparse Hstatus.
  unfold login_handler, try_catch, bind. rewrite Hid. simpl.
  apply String.eqb_neq in Hne, Htext. rewrite Hne. simpl.
  rewrite (getTenant_run _ _ Hc), Hrec, Htext, Hparse. simpl.
  by rewrite Hstatus.
Qed.

(** Login of a user whose record is not active is refused, even with the
    right password. *)
Lemma login_inactive_user (sessionUuid loginTime sessionNow : string)
    (userAgent : option string) (payload : LoginPayload) (s : redis)
    (tenantId text userId userText hashed : string) (tenant user : obj) :
  connected s = true →
  login_tenantId payload = Some tenantId → tenantId ≠ EmptyString →
  db s !! tenantKey tenantId = Some (RString text) → text ≠ EmptyString →
  JSON_parse text = Some (JObj tenant) →
  tenant !! "status" = Some (JStr "active") →
  db s !! emailKey (JS.interp (tenant !! "tenantId")) (login_email payload)
    = Some (RString userId) → userId ≠ EmptyString →
  db s !! userKey (JS.interp (tenant !! "tenantId")) userId
    = Some (RString userText) → userText ≠ EmptyString →
  JSON_parse userText = Some (JObj user) →
  user !! "password" = Some (JStr hashed) →
  bcrypt_compare (login_password payload) hashed = true →
  JS.is_str (user !! "status") "active" = false →
  login_handler sessionUuid loginTime sessionNow userAgent payload s
  = (Throw (Boom 403 "User account is not active"), s).
Proof.
  intros Hc Hid Hne Hrec Htext Hparse Hactive Hidx Huid Hurec Hutext Huparse
    Hpw Hcmp Hstatus.
  unfold login_handler, try_catch, bind. rewrite Hid. simpl.
  apply String.eqb_neq in Hne, Htext, Huid, Hutext. rewrite Hne. simpl.
  rewrite (getTenant_run _ _ Hc), Hrec, Htext, Hparse. simpl.
  rewrite Hactive. simpl.
  rewrite (getUserByEmail_run _ _ _ Hc), Hidx, Huid, Hurec, Hutext, Huparse. simpl.
  rewrite Hpw. unfold verifyPassword, ret. rewrite Hcmp. simpl.
  by rewrite Hstatus.
Qed.

(** C9. The decision of the Auth Gate does not depend on lifecycle
    status: two stores that differ only in the status of a tenant give
    the same result for every token, two stores that differ only in the
    status of a user give the same decision, tenant and scope, and
    [updateTenant] (a deactivation in particular) changes the result of
    no token, although login refuses a tenant or a user that is not
    active. *)
Theorem auth_gate_ignores_status :
  (∀ s1 s2 a, tenantStatusVariant s1 s2 → (validate a s1).1 = (validate a s2).1)
  ∧ (∀ s1 s2 a, userStatusVariant s1 s2 →
       accepts a s1 = accepts a s2
       ∧ ∀ c1, (validate a s1).1 = Ok (Valid c1) →
           ∃ c2, (validate a s2).1 = Ok (Valid c2)
                 ∧ cred_tenantId c2 = cred_tenantId c1
                 ∧ cred_scope c2 = cred_scope c1)
  ∧ (∀ now tenantId s a,
       colon_free tenantId = true →
       let s' := (updateTenant now tenantId {[ "status" := JStr "inactive" ]} s).2 in
       (validate a s').1 = (validate a s).1 ∧ accepts a s' = accepts a s)
  ∧ (∀ sessionUuid loginTime sessionNow userAgent payload s tenantId text tenant,
       connected s = true →
       login_tenantId payload = Some tenantId → tenantId ≠ EmptyString →
       db s !! tenantKey tenantId = Some (RString text) → text ≠ EmptyString →
       JSON_parse text = Some (JObj tenant) →
       JS.is_str (tenant !! "status") "active" = false →
       login_handler sessionUuid loginTime sessionNow userAgent payload s
       = (Throw (Boom 403 "Tenant is not active"), s))
  ∧ (∀ sessionUuid loginTime sessionNow userAgent payload s
       tenantId text userId userText hashed tenant user,
       connected s = true →
       login_tenantId payload = Some tenantId → tenantId ≠ EmptyString →
       db s !! tenantKey tenantId = Some (RString text) → text ≠ EmptyString →
       JSON_parse text = Some (JObj tenant) →
       tenant !! "status" = Some (JStr "active") →
       db s !! emailKey (JS.interp (tenant !! "tenantId")) (login_email payload)
         = Some (RString userId) → userId ≠ EmptyString →
       db s !! userKey (JS.interp (tenant !! "tenantId")) userId
         = Some (RString userText) → userText ≠ EmptyString →
       JSON_parse userText = Some (JObj user) →
       user !! "password" = Some (JStr hashed) →
       bcrypt_compare (login_password payload) hashed = true →
       JS.is_str (user !! "status") "active" = false →
       login_handler sessionUuid loginTime sessionNow userAgent payload s
       = (Throw (Boom 403 "User account is not active"), s)).
Proof.
  split; [|split; [|split; [|split]]].
  - apply validate_tenantStatusVariant.
  - intros s1 s2 a Hvar.
    pose proof (validate_userStatusVariant s1 s2 a Hvar) as Hm.
    unfold accepts.
    destruct (validate a s1).1 as [[|c1]|], (validate a s2).1 as [[|c2]|];
      try done; simpl.
    split; [done|]. intros c [= <-]. destruct Hm as [-> ->]. eauto.
  - intros now tenantId s a Hfree s'.
    assert ((validate a s').1 = (validate a s).1) as Heq
      by (by apply validate_updateTenant).
    split; [exact Heq|]. unfold accepts. by rewrite Heq.
  - intros. by eapply login_inactive_tenant.
  - intros. by eapply login_inactive_user.
Qed.

End Status.

(** ** Tenants and the domain index *)

Lemma domainKey_inj (a b : string) : domainKey a = domainKey b → a = b.
Proof. unfold domainKey. simpl. congruence. Qed.

Section Tenants.
Context `{Externals}.

Lemma createTenant_run (uuid now : string) (data : CreateTenantData) (s : redis) :
  connected s = true →
  set_or_absent (db s) tenantsAllKey →
  createTenant uuid now data s =
    (Ok (newTenant uuid now data),
     with_db s
       ((if negb (String.eqb (tenant_domain data) EmptyString)
         then <[domainKey (tenant_domain data) := RString uuid]>
         else id)
          (<[tenantsAllKey := RSet ({[ uuid ]} ∪ members (db s) tenantsAllKey)]>
             (<[tenantKey uuid := RString (JSON_stringify (JObj (newTenant uuid now data)))]>
                (db s))))).
Proof.
  intros Hc Hset. unfold createTenant, bind.
  rewrite (set_run _ _ _ Hc). rewrite sAdd_run by done. simpl.
  rewrite lookup_insert_ne by apply tenantKey_ne_tenantsAllKey.
  unfold members.
  destruct (db s !! tenantsAllKey) as [[text|ms]|] eqn:Hall.
  - by destruct (Hset text).
  - destruct (negb _); [rewrite set_run by done|]; reflexivity.
  - rewrite union_empty_r_L.
    destruct (negb _); [rewrite set_run by done|]; reflexivity.
Qed.

Lemma stringify_nonempty (v : jsval) :
  JSON_parse EmptyString = None → json_roundtrip v →
  String.eqb (JSON_stringify v) EmptyString = false.
Proof.
  intros Hempty Hrt. apply String.eqb_neq. intros Heq.
  unfold json_roundtrip in Hrt. rewrite Heq in Hrt. congruence.
Qed.

Lemma createTenant_then_getTenantByDomain (uuid now : string)
    (data : CreateTenantData) (s : redis) :
  connected s = true →
  set_or_absent (db s) tenantsAllKey →
  colon_free uuid = true → uuid ≠ EmptyString →
  tenant_domain data ≠ EmptyString →
  JSON_parse EmptyString = None →
  json_roundtrip (JObj (newTenant uuid now data)) →
  let s1 := (createTenant uuid now data s).2 in
  getTenantByDomain (tenant_domain data) s1 = (Ok (JObj (newTenant uuid now data)), s1).
Proof.
  intros Hc Hset Hfree Huuid Hdom Hempty Hrt s1. subst s1.
  rewrite createTenant_run by done. simpl.
  apply String.eqb_neq in Hdom. rewrite Hdom. simpl.
  rewrite getTenantByDomain_run by done. simpl.
  rewrite lookup_insert_eq.
  apply String.eqb_neq in Huuid. rewrite Huuid.
  rewrite getTenant_run by done. simpl.
  rewrite lookup_insert_ne by (apply not_eq_sym; by apply tenantKey_ne_domainKey).
  rewrite lookup_insert_ne by (apply not_eq_sym, tenantKey_ne_tenantsAllKey).
  rewrite lookup_insert_eq.
  rewrite stringify_nonempty by done. by rewrite Hrt.
Qed.

Lemma updateTenant_run (now tenantId text : string) (updates : obj)
    (tenant : jsval) (s : redis) :
  connected s = true →
  db s !! tenantKey tenantId = Some (RString text) → text ≠ EmptyString →
  JSON_parse text = Some tenant → JS.truthy tenant = true →
  updateTenant now tenantId updates s =
    (Ok (JObj (mergeTenant tenant updates tenantId now)),
     with_db s (<[tenantKey tenantId :=
                    RString (JSON_stringify (JObj (mergeTenant tenant updates tenantId now)))]>
                  (db s))).
Proof.
  intros Hc Hrec Htext Hparse Htruthy. unfold updateTenant, bind.
  rewrite getTenant_run by done. rewrite Hrec.
  apply String.eqb_neq in Htext. rewrite Htext, Hparse, Htruthy. simpl.
  by rewrite set_run.
Qed.

(** C10. [updateTenant] never writes the domain index: no index entry
    changes, whatever the updates. Right after [createTenant] the domain
    resolves to the tenant; after an [updateTenant] that gives the tenant
    a domain not registered so far, the new domain resolves to nothing
    and the previous domain still resolves to the tenant, which now bears
    the new domain. *)
Theorem updateTenant_leaves_domain_index :
  JSON_parse EmptyString = None →
  (∀ uuid now data s,
     connected s = true → set_or_absent (db s) tenantsAllKey →
     colon_free uuid = true → uuid ≠ EmptyString →
     tenant_domain data ≠ EmptyString →
     json_roundtrip (JObj (newTenant uuid now data)) →
     let s1 := (createTenant uuid now data s).2 in
     getTenantByDomain (tenant_domain data) s1
     = (Ok (JObj (newTenant uuid now data)), s1))
  ∧ (∀ now tenantId text oldDomain newDomain updates tenant s,
       connected s = true →
       colon_free tenantId = true → tenantId ≠ EmptyString →
       db s !! domainKey oldDomain = Some (RString tenantId) →
       db s !! tenantKey tenantId = Some (RString text) → text ≠ EmptyString →
       JSON_parse text = Some (JObj tenant) →
       updates !! "domain" = Some (JStr newDomain) →
       db s !! domainKey newDomain = None →
       let updated := mergeTenant (JObj tenant) updates tenantId now in
       json_roundtrip (JObj updated) →
       ∃ s', updateTenant now tenantId updates s = (Ok (JObj updated), s')
             ∧ updated !! "domain" = Some (JStr newDomain)
             ∧ db s' !! domainKey newDomain = None
             ∧ db s' !! domainKey oldDomain = Some (RString tenantId)
             ∧ getTenantByDomain newDomain s' = (Ok JNull, s')
             ∧ getTenantByDomain oldDomain s' = (Ok (JObj updated), s'))
  ∧ (∀ now tenantId updates s domain,
       colon_free tenantId = true →
       db (updateTenant now tenantId updates s).2 !! domainKey domain
       = db s !! domainKey domain).
Proof.
  intros Hempty. split.
  { intros. by apply createTenant_then_getTenantByDomain. }
  split.
  2:{ intros now tenantId updates s domain Hfree.
      destruct (updateTenant_store now tenantId updates s) as [->|[_ [text ->]]];
        [reflexivity|].
      simpl. rewrite lookup_insert_ne; [done|by apply tenantKey_ne_domainKey]. }
  intros now tenantId text oldDomain newDomain updates tenant s
    Hc Hfree Hid Hold Hrec Htext Hparse Hupd Hnew updated Hrt.
  eexists. split; [by eapply updateTenant_run|].
  assert (updated !! "domain" = Some (JStr newDomain)) as Hdomain.
  { unfold updated, mergeTenant. rewrite !lookup_insert_ne by done.
    by apply lookup_union_Some_l. }
  assert (∀ d, tenantKey tenantId ≠ domainKey d) as Hne
    by (intros d; by apply tenantKey_ne_domainKey).
  split; [exact Hdomain|].
  split; [simpl; by rewrite lookup_insert_ne|].
  split; [simpl; by rewrite lookup_insert_ne|].
  split.
  - rewrite getTenantByDomain_run by done. simpl.
    by rewrite lookup_insert_ne, Hnew.
  - rewrite getTenantByDomain_run by done. simpl.
    rewrite lookup_insert_ne, Hold by done.
    apply String.eqb_neq in Hid. rewrite Hid.
    rewrite getTenant_run by done. simpl. rewrite lookup_insert_eq.
    fold updated. rewrite stringify_nonempty by done. by rewrite Hrt.
Qed.

(** [POST /api/auth/register] on a domain whose index entry resolves to
    a stored tenant: a conflict, and nothing is written. *)
Lemma register_conflict (tenantUuid tenantNow userUuid userNow : string)
    (payload : RegisterPayload) (s : redis) (id text : string) (v : jsval) :
  connected s = true →
  db s !! domainKey (reg_domain payload) = Some (RString id) → id ≠ EmptyString →
  db s !! tenantKey id = Some (RString text) → text ≠ EmptyString →
  JSON_parse text = Some v → JS.truthy v = true →
  register_handler tenantUuid tenantNow userUuid userNow payload s
  = (Throw (Boom 409 "Tenant with this domain already exists"), s).
Proof.
  intros Hc Hidx Hid Hrec Htext Hparse Htruthy.
  unfold register_handler, try_catch, bind.
  rewrite getTenantByDomain_run, Hidx by done.
  apply String.eqb_neq in Hid, Htext. rewrite Hid.
  rewrite getTenant_run, Hrec, Htext, Hparse by done.
  by rewrite Htruthy.
Qed.

(** C5, as the code has it. The guard against a second tenant under a
    registered domain is the pre-check of the registration route: when
    the index entry of the domain resolves to a stored tenant, the route
    answers 409 and writes nothing. [createTenant] itself makes no check:
    called on a domain that is already indexed it succeeds, stores the
    new tenant and overwrites the index entry with the new id. *)
Theorem duplicate_domain_guard_is_in_register :
  (∀ tenantUuid tenantNow userUuid userNow payload s id text v,
     connected s = true →
     db s !! domainKey (reg_domain payload) = Some (RString id) → id ≠ EmptyString →
     db s !! tenantKey id = Some (RString text) → text ≠ EmptyString →
     JSON_parse text = Some v → JS.truthy v = true →
     register_handler tenantUuid tenantNow userUuid userNow payload s
     = (Throw (Boom 409 "Tenant with this domain already exists"), s))
  ∧ (∀ uuid now data s,
       connected s = true → set_or_absent (db s) tenantsAllKey →
       colon_free uuid = true →
       tenant_domain data ≠ EmptyString →
       is_Some (db s !! domainKey (tenant_domain data)) →
       ∃ s', createTenant uuid now data s = (Ok (newTenant uuid now data), s')
             ∧ db s' !! domainKey (tenant_domain data) = Some (RString uuid)
             ∧ db s' !! tenantKey uuid
               = Some (RString (JSON_stringify (JObj (newTenant uuid now data))))).
Proof.
  split.
  { intros. by eapply register_conflict. }
  intros uuid now data s Hc Hset Hfree Hdom _.
  eexists. split; [by apply createTenant_run|].
  apply String.eqb_neq in Hdom. rewrite Hdom. simpl.
  split; [by rewrite lookup_insert_eq|].
  rewrite lookup_insert_ne by (apply not_eq_sym; by apply tenantKey_ne_domainKey).
  rewrite lookup_insert_ne by (apply not_eq_sym, tenantKey_ne_tenantsAllKey).
  by rewrite lookup_insert_eq.
Qed.

End Tenants.

(** ** Users *)

Lemma bind_Ok {A B} (m : M A) (k : A → M B) (s s' : redis) (b : B) :
  bind m k s = (Ok b, s') → ∃ a s1, m s = (Ok a, s1) ∧ k a s1 = (Ok b, s').
Proof.
  unfold bind. destruct (m s) as [[a|e] s1]; intros Heq; [eauto|congruence].
Qed.

Lemma ret_Ok {A} (a b : A) (s s' : redis) : ret a s = (Ok b, s') → a = b ∧ s = s'.
Proof. unfold ret. intros [= -> ->]. done. Qed.

Lemma userKey_ne_usersKey (tenantId userId : string) :
  userKey tenantId userId ≠ usersKey tenantId.
Proof.
  unfold userKey, usersKey. simpl. intros Heq. simplify_eq.
Qed.

(** Keys scoped to different tenants are different keys. *)
Lemma tenant_scoped_ne (t t' x y : string) :
  colon_free t = true → colon_free t' = true → t ≠ t' →
  "tenant:" +:+ t +:+ String ":"%char x ≠ "tenant:" +:+ t' +:+ String ":"%char y.
Proof.
  intros Ht Ht' Hne Heq. simpl in Heq. simplify_eq.
  by destruct (colon_split _ _ _ _ Ht Ht' Heq).
Qed.

Lemma userKey_ne_emailKey (tenantId userId t email : string) :
  colon_free tenantId = true → colon_free t = true → colon_free userId = true →
  userKey tenantId userId ≠ emailKey t email.
Proof.
  intros Ht Ht' Hu Heq. unfold userKey, emailKey in Heq. simpl in Heq. simplify_eq.
  destruct (colon_split _ _ _ _ Ht Ht' Heq) as [_ Hrest]. simplify_eq.
Qed.

Lemma usersKey_ne_emailKey (tenantId t email : string) :
  colon_free tenantId = true → colon_free t = true →
  usersKey tenantId ≠ emailKey t email.
Proof.
  intros Ht Ht' Heq. unfold usersKey, emailKey in Heq. simpl in Heq. simplify_eq.
  destruct (colon_split _ _ _ _ Ht Ht' Heq) as [_ Hrest]. simplify_eq.
Qed.

Section Users.
Context `{Externals}.

Lemma createUser_run (uuid now tenantId : string) (data : CreateUserData) (s : redis) :
  connected s = true →
  set_or_absent (db s) (usersKey tenantId) →
  createUser uuid now tenantId data s =
    (Ok (delete "password" (newUser uuid now tenantId data)),
     with_db s
       (<[emailKey tenantId (user_email data) := RString uuid]>
          (<[usersKey tenantId := RSet ({[ uuid ]} ∪ members (db s) (usersKey tenantId))]>
             (<[userKey tenantId uuid :=
                  RString (JSON_stringify (JObj (newUser uuid now tenantId data)))]>
                (db s))))).
Proof.
  intros Hc Hset. unfold createUser, bind.
  rewrite (set_run _ _ _ Hc). rewrite sAdd_run by done. simpl.
  rewrite lookup_insert_ne by apply userKey_ne_usersKey.
  unfold members.
  destruct (db s !! usersKey tenantId) as [[text|ms]|] eqn:Hall.
  - by destruct (Hset text).
  - by rewrite set_run.
  - rewrite union_empty_r_L. by rewrite set_run.
Qed.

Lemma createUser_no_password (uuid now tenantId : string) (data : CreateUserData)
    (s s' : redis) (o : obj) :
  createUser uuid now tenantId data s = (Ok o, s') → o !! "password" = None.
Proof.
  unfold createUser. intros Hrun.
  apply bind_Ok in Hrun as (? & ? & _ & Hrun).
  apply bind_Ok in Hrun as (? & ? & _ & Hrun).
  apply bind_Ok in Hrun as (? & ? & _ & Hrun).
  apply ret_Ok in Hrun as [<- _]. apply lookup_delete_eq.
Qed.

Lemma getUser_no_password (tenantId userId : string) (s s' : redis) (o : obj) :
  getUser tenantId userId s = (Ok (Some o), s') → o !! "password" = None.
Proof.
  unfold getUser. intros Hrun.
  apply bind_Ok in Hrun as ([text|] & s1 & _ & Hrun);
    [|apply ret_Ok in Hrun as [? _]; done].
  destruct (String.eqb text EmptyString);
    [apply ret_Ok in Hrun as [? _]; done|].
  apply bind_Ok in Hrun as (user & s2 & _ & Hrun).
  apply bind_Ok in Hrun as (rest & s3 & Hrest & Hrun).
  apply ret_Ok in Hrun as [[= <-] _].
  unfold lift, JS.rest_without in Hrest.
  destruct user; simplify_eq; apply lookup_delete_eq.
Qed.

Lemma getAllUsers_loop_no_password (tenantId : string) (userIds : list string) :
  ∀ (users l : list obj) (s s' : redis),
    Forall (λ o : obj, o !! "password" = None) users →
    getAllUsers_loop tenantId userIds users s = (Ok l, s') →
    Forall (λ o : obj, o !! "password" = None) l.
Proof.
  induction userIds as [|userId rest IH]; intros users l s s' Hacc Hrun; simpl in Hrun.
  - apply ret_Ok in Hrun as [<- _]. exact Hacc.
  - apply bind_Ok in Hrun as (user & s1 & Hget & Hrun).
    eapply IH; [|exact Hrun].
    destruct user as [u|]; [|exact Hacc].
    apply Forall_app. split; [exact Hacc|].
    apply Forall_singleton. by eapply getUser_no_password.
Qed.

Lemma updateUser_no_password (now tenantId userId : string) (updates : obj)
    (s s' : redis) (o : obj) :
  updateUser now tenantId userId updates s = (Ok (Some o), s') →
  o !! "password" = None.
Proof.
  unfold updateUser. intros Hrun.
  apply bind_Ok in Hrun as ([text|] & s1 & _ & Hrun);
    [|apply ret_Ok in Hrun as [? _]; done].
  destruct (String.eqb text EmptyString);
    [apply ret_Ok in Hrun as [? _]; done|].
  apply bind_Ok in Hrun as (user & s2 & _ & Hrun).
  apply bind_Ok in Hrun as (? & s3 & _ & Hrun).
  apply ret_Ok in Hrun as [[= <-] _]. apply lookup_delete_eq.
Qed.

Lemma sMembers_run (key : string) (s : redis) :
  connected s = true → set_or_absent (db s) key →
  Redis.sMembers key s = (Ok (elements (members (db s) key)), s).
Proof.
  intros Hc Hset. unfold Redis.sMembers, Redis.command, members. rewrite Hc.
  destruct (db s !! key) as [[text|ms]|] eqn:Hkey; simpl.
  - by destruct (Hset text).
  - by rewrite connected_eta.
  - rewrite elements_empty. by rewrite connected_eta.
Qed.

Lemma getUser_total (tenantId userId : string) (s : redis) :
  connected s = true → userReadable s tenantId userId →
  ∃ r, getUser tenantId userId s = (Ok r, s).
Proof.
  intros Hc Hread. unfold getUser, bind, userReadable in *.
  rewrite get_run by done.
  destruct (db s !! userKey tenantId userId) as [[text|ms]|]; [|done|by eexists].
  destruct (String.eqb text EmptyString) eqn:Htext; [by eexists|].
  apply String.eqb_neq in Htext.
  destruct Hread as [?|(v & Hparse & Hv)]; [done|].
  unfold parse. rewrite Hparse. destruct v; try done; by eexists.
Qed.

Lemma getAllUsers_loop_total (tenantId : string) (s : redis) (userIds : list string) :
  connected s = true →
  (∀ u, u ∈ userIds → userReadable s tenantId u) →
  ∀ users, ∃ l, getAllUsers_loop tenantId userIds users s = (Ok l, s).
Proof.
  intros Hc. induction userIds as [|userId rest IH]; intros Hall users; simpl.
  - by eexists.
  - destruct (getUser_total tenantId userId s Hc) as [r Hr].
    { apply Hall. by left. }
    unfold bind. rewrite Hr. apply IH. intros u Hu. apply Hall. by right.
Qed.

(** C7. No result of the directory carries a password field: what
    [createUser], [getUser], [getAllUsers] and [updateUser] return has no
    [password] property, for every input and every store; and on a
    reachable store with readable records the four operations do return,
    the record that [createUser] builds holding the hash that its result
    lacks. *)
Theorem directory_results_have_no_password :
  (∀ uuid now tenantId data s s' o,
     createUser uuid now tenantId data s = (Ok o, s') → o !! "password" = None)
  ∧ (∀ tenantId userId s s' o,
       getUser tenantId userId s = (Ok (Some o), s') → o !! "password" = None)
  ∧ (∀ tenantId s s' l,
       getAllUsers tenantId s = (Ok l, s') →
       Forall (λ o : obj, o !! "password" = None) l)
  ∧ (∀ now tenantId userId updates s s' o,
       updateUser now tenantId userId updates s = (Ok (Some o), s') →
       o !! "password" = None)
  ∧ (∀ uuid now tenantId data s,
       connected s = true → set_or_absent (db s) (usersKey tenantId) →
       ∃ o s', createUser uuid now tenantId data s = (Ok o, s')
               ∧ o !! "password" = None
               ∧ newUser uuid now tenantId data !! "password"
                 = Some (JStr (bcrypt_hash (user_password data)))
               ∧ ∀ k, k ≠ "password" → o !! k = newUser uuid now tenantId data !! k)
  ∧ (∀ tenantId userId text user s,
       connected s = true →
       db s !! userKey tenantId userId = Some (RString text) → text ≠ EmptyString →
       JSON_parse text = Some (JObj user) →
       getUser tenantId userId s = (Ok (Some (delete "password" user)), s))
  ∧ (∀ now tenantId userId updates text user s,
       connected s = true →
       db s !! userKey tenantId userId = Some (RString text) → text ≠ EmptyString →
       JSON_parse text = Some user →
       ∃ s', updateUser now tenantId userId updates s
             = (Ok (Some (delete "password"
                            (mergeUser user updates tenantId userId now))), s'))
  ∧ (∀ tenantId s,
       connected s = true → set_or_absent (db s) (usersKey tenantId) →
       (∀ u, u ∈ usersOf s tenantId → userReadable s tenantId u) →
       ∃ l, getAllUsers tenantId s = (Ok l, s)
            ∧ Forall (λ o : obj, o !! "password" = None) l).
Proof.
  split; [|split; [|split; [|split; [|split; [|split; [|split]]]]]].
  - intros. by eapply createUser_no_password.
  - intros. by eapply getUser_no_password.
  - intros tenantId s s' l Hrun. unfold getAllUsers in Hrun.
    apply bind_Ok in Hrun as (ids & s1 & _ & Hrun).
    by eapply getAllUsers_loop_no_password.
  - intros. by eapply updateUser_no_password.
  - intros uuid now tenantId data s Hc Hset.
    eexists _, _. split; [by apply createUser_run|].
    split; [apply lookup_delete_eq|]. split; [reflexivity|].
    intros k Hk. by rewrite lookup_delete_ne.
  - intros tenantId userId text user s Hc Hrec Htext Hparse.
    unfold getUser, bind. rewrite get_run, Hrec by done.
    apply String.eqb_neq in Htext. rewrite Htext.
    unfold parse. by rewrite Hparse.
  - intros now tenantId userId updates text user s Hc Hrec Htext Hparse.
    unfold updateUser, bind. rewrite get_run, Hrec by done.
    apply String.eqb_neq in Htext. rewrite Htext.
    unfold parse. rewrite Hparse. unfold ret at 1.
    rewrite set_run by done. by eexists.
  - intros tenantId s Hc Hset Hall.
    assert (∃ l, getAllUsers tenantId s = (Ok l, s)) as [l Hl].
    { unfold getAllUsers, bind. rewrite sMembers_run by done.
      apply getAllUsers_loop_total; [done|].
      intros u Hu. apply Hall. unfold usersOf. by apply elem_of_elements. }
    exists l. split; [exact Hl|].
    unfold getAllUsers in Hl.
    apply bind_Ok in Hl as (ids & s1 & _ & Hl).
    by eapply getAllUsers_loop_no_password.
Qed.

End Users.

(** ** Email uniqueness within a tenant *)

Lemma uuid_like_colon_free (s : string) : uuid_like s = true → colon_free s = true.
Proof. unfold uuid_like. by intros [? _]%andb_prop. Qed.

Lemma uuid_like_nonempty (s : string) :
  uuid_like s = true → String.eqb s EmptyString = false.
Proof. unfold uuid_like. intros [_ ?]%andb_prop. by apply negb_true_iff. Qed.





Section Emails.
Context `{Externals}.







End Emails.


Section EmailsPerTenant.
Context `{Externals}.



End EmailsPerTenant.

(** ** The LLM proxy and the tenant-isolation check *)

Section Proxy.
Context `{Externals}.
Variable upstream : Upstream.

Lemma sent_request (payload : OllamaChatRequest) :
  with_stream
    (match chat_stream (chatRequest_defaults payload) with
     | Some true => with_stream (chatRequest_defaults payload) (Some false)
     | _ => chatRequest_defaults payload
     end) (Some false)
  = with_stream payload (Some false).
Proof.
  unfold chatRequest_defaults, with_stream. simpl.
  by destruct (default false (chat_stream payload)).
Qed.

Lemma sent_request_handler (chatRequest : OllamaChatRequest) :
  with_stream
    (match chat_stream chatRequest with
     | Some true => with_stream chatRequest (Some false)
     | _ => chatRequest
     end) (Some false)
  = with_stream chatRequest (Some false).
Proof. unfold with_stream. by destruct (chat_stream chatRequest) as [[]|]. Qed.

Lemma strict_eq_str_refl (t : string) : JS.strict_eq_str (Some t) (Some (JStr t)) = true.
Proof. simpl. apply String.eqb_refl. Qed.

Lemma strict_eq_str_differs (h t : string) :
  h ≠ t → JS.strict_eq_str (Some h) (Some (JStr t)) = false.
Proof. intros Hne. simpl. by apply String.eqb_neq. Qed.

(** The enforcer in the handler: any header value that is not strictly
    equal to the tenant of the Principal, the absent header included, is
    a 403 with one and the same message, and nothing is sent upstream. *)
Lemma chat_handler_mismatch (credentials : AuthCredentials)
    (headerTenantId : option string) (chatRequest : OllamaChatRequest) :
  JS.strict_eq_str headerTenantId (cred_tenantId credentials) = false →
  chat_handler upstream credentials headerTenantId chatRequest
  = (Throw (Boom 403 "Tenant ID does not match authenticated user"), []).
Proof. intros Hne. unfold chat_handler, try_catchP. by rewrite Hne. Qed.

Lemma models_handler_mismatch (credentials : AuthCredentials)
    (headerTenantId : option string) :
  JS.strict_eq_str headerTenantId (cred_tenantId credentials) = false →
  models_handler upstream credentials headerTenantId
  = (Throw (Boom 403 "Tenant ID does not match authenticated user"), []).
Proof. intros Hne. unfold models_handler, try_catchP. by rewrite Hne. Qed.

(** The handler when the header equals the tenant of the Principal and
    the inference service answers with an object. *)
Lemma chat_handler_success (credentials : AuthCredentials) (tenantId : string)
    (chatRequest : OllamaChatRequest) (response : obj) :
  cred_tenantId credentials = Some (JStr tenantId) →
  post_chat upstream
    (with_stream (match chat_stream chatRequest with
                  | Some true => with_stream chatRequest (Some false)
                  | _ => chatRequest
                  end) (Some false)) = Ok (JObj response) →
  chat_handler upstream credentials (Some tenantId) chatRequest
  = (Ok (JS.set_field "user_id" (cred_user credentials !! "userId")
           (<["tenant_id" := JStr tenantId]> response)),
     [PostChat (with_stream (match chat_stream chatRequest with
                             | Some true => with_stream chatRequest (Some false)
                             | _ => chatRequest
                             end) (Some false))]).
Proof.
  intros Hcred Hpost. unfold chat_handler, try_catchP, chat, bindP, liftP, retP.
  rewrite Hcred, strict_eq_str_refl. simpl. rewrite Hpost. reflexivity.
Qed.

(** The handler when the call to the inference service is rejected by
    axios: [OllamaService.chat] wraps the text in a plain [Error], which
    the handler turns into a 500 with a fixed message. *)
Lemma chat_handler_upstream_failure (credentials : AuthCredentials)
    (tenantId message : string) (chatRequest : OllamaChatRequest) :
  cred_tenantId credentials = Some (JStr tenantId) →
  post_chat upstream
    (with_stream (match chat_stream chatRequest with
                  | Some true => with_stream chatRequest (Some false)
                  | _ => chatRequest
                  end) (Some false)) = Throw (AxiosError message) →
  chat_handler upstream credentials (Some tenantId) chatRequest
  = (Throw (Boom 500 "Failed to process chat request"),
     [PostChat (with_stream (match chat_stream chatRequest with
                             | Some true => with_stream chatRequest (Some false)
                             | _ => chatRequest
                             end) (Some false))]).
Proof.
  intros Hcred Hpost. unfold chat_handler, try_catchP, chat, bindP, liftP, retP.
  rewrite Hcred, strict_eq_str_refl. simpl. rewrite Hpost. reflexivity.
Qed.

Lemma chat_service_wraps_axios_error (request : OllamaChatRequest)
    (tenantId : option jsval) (message : string) :
  post_chat upstream (with_stream request (Some false)) = Throw (AxiosError message) →
  chat upstream request tenantId
  = (Throw (Error ("Ollama request failed: " +:+ message)),
     [PostChat (with_stream request (Some false))]).
Proof. intros Hpost. unfold chat, try_catchP, bindP. rewrite Hpost. reflexivity. Qed.

Lemma annotated_schema (response : obj) (tenantId userId : string) :
  chatResponseSchema response = true →
  tenantId ≠ EmptyString → userId ≠ EmptyString →
  chatResponseSchema (<["user_id" := JStr userId]> (<["tenant_id" := JStr tenantId]> response))
  = true.
Proof.
  unfold chatResponseSchema. intros Hresp Ht Hu.
  apply bool_decide_eq_true in Hresp. apply bool_decide_eq_true.
  apply String.eqb_neq in Ht, Hu.
  apply map_Forall_insert_2.
  { change (nonempty userId = true). unfold nonempty. by rewrite Hu. }
  apply map_Forall_insert_2; [|done].
  change (nonempty tenantId = true). unfold nonempty. by rewrite Ht.
Qed.

(** C8, as the code has it. A chat request with a valid Principal whose
    x-tenant-id header is a uuid equal to the tenant of the token and
    whose payload passes the request schema makes exactly one call
    upstream, and the handler returns the answer of the inference
    service with [tenant_id] and [user_id] added, set to the tenant and
    the user id of the caller; the route answers 200 with it when the
    annotated answer passes the response schema of the route, as it does
    when the answer of the service passes and the two ids are not empty.
    A request whose header differs from the tenant of the token makes no
    call upstream: the handler refuses it with a 403, and so does the
    route when the header is a uuid and the payload is valid. *)
Theorem chat_annotates_or_refuses_before_upstream :
  (∀ credentials tenantId payload response,
     cred_tenantId credentials = Some (JStr tenantId) →
     Joi_uuid tenantId = true →
     chatRequestSchema payload = true →
     post_chat upstream (with_stream payload (Some false)) = Ok (JObj response) →
     let annotated :=
       JS.set_field "user_id" (cred_user credentials !! "userId")
         (<["tenant_id" := JStr tenantId]> response) in
     chat_handler upstream credentials (Some tenantId) payload
     = (Ok annotated, [PostChat (with_stream payload (Some false))])
     ∧ annotated !! "tenant_id" = Some (JStr tenantId)
     ∧ annotated !! "user_id" = cred_user credentials !! "userId"
     ∧ (∀ k, k ≠ "tenant_id" → k ≠ "user_id" → annotated !! k = response !! k)
     ∧ (chatResponseSchema annotated = true →
        chat_route upstream credentials (Some tenantId) payload
        = (Ok {| code := 200; body := annotated |},
           [PostChat (with_stream payload (Some false))]))
     ∧ (∀ userId,
          cred_user credentials !! "userId" = Some (JStr userId) →
          tenantId ≠ EmptyString → userId ≠ EmptyString →
          chatResponseSchema response = true →
          chatResponseSchema annotated = true))
  ∧ (∀ credentials tenantId header payload,
       cred_tenantId credentials = Some (JStr tenantId) →
       header ≠ tenantId →
       chat_handler upstream credentials (Some header) payload
       = (Throw (Boom 403 "Tenant ID does not match authenticated user"), [])
       ∧ (chat_route upstream credentials (Some header) payload).2 = []
       ∧ (Joi_uuid header = true → chatRequestSchema payload = true →
          chat_route upstream credentials (Some header) payload
          = (Throw (Boom 403 "Tenant ID does not match authenticated user"), []))).
Proof.
  split.
  - intros credentials tenantId payload response Hcred Huuid Hschema Hpost annotated.
    subst annotated.
    pose proof (chat_handler_success credentials tenantId payload response Hcred)
      as Hhandler.
    rewrite sent_request_handler in Hhandler. specialize (Hhandler Hpost).
    pose proof (chat_handler_success credentials tenantId
                  (chatRequest_defaults payload) response Hcred) as Hroute.
    rewrite sent_request in Hroute. specialize (Hroute Hpost).
    split; [exact Hhandler|].
    split; [|split; [|split; [|split]]].
    + unfold JS.set_field.
      destruct (cred_user credentials !! "userId"); by simplify_map_eq.
    + unfold JS.set_field.
      destruct (cred_user credentials !! "userId"); by simplify_map_eq.
    + intros k Hk1 Hk2. unfold JS.set_field.
      destruct (cred_user credentials !! "userId").
      * by rewrite !lookup_insert_ne.
      * by rewrite lookup_delete_ne, lookup_insert_ne.
    + intros Hresp.
      unfold chat_route, validate_headers, bindP, retP, throwP.
      rewrite Huuid, Hschema. simpl. by rewrite Hroute, Hresp.
    + intros userId Huser Ht Hu Hresp. rewrite Huser. simpl.
      by apply annotated_schema.
  - intros credentials tenantId header payload Hcred Hne.
    assert (∀ r, chat_handler upstream credentials (Some header) r
                 = (Throw (Boom 403 "Tenant ID does not match authenticated user"), []))
      as Hrefuse.
    { intros r. apply chat_handler_mismatch.
      rewrite Hcred. by apply strict_eq_str_differs. }
    split; [apply Hrefuse|]. split.
    + unfold chat_route, validate_headers, bindP, retP, throwP.
      destruct (Joi_uuid header); [|reflexivity].
      destruct (chatRequestSchema payload); simpl; [|reflexivity].
      by rewrite Hrefuse.
    + intros Huuid Hschema.
      unfold chat_route, validate_headers, bindP, retP, throwP.
      rewrite Huuid, Hschema. simpl. by rewrite Hrefuse.
Qed.

(** The routes on a request without the x-tenant-id header: header
    validation refuses it with a 400 before the handler runs. *)
Lemma routes_missing_header (credentials : AuthCredentials)
    (payload : OllamaChatRequest) :
  chat_route upstream credentials None payload
  = (Throw (Boom 400 "Invalid request headers input"), [])
  ∧ models_route upstream credentials None
    = (Throw (Boom 400 "Invalid request headers input"), []).
Proof. split; reflexivity. Qed.

(** The chat route when axios rejects the call upstream. *)
Lemma chat_route_upstream_failure (credentials : AuthCredentials)
    (tenantId message : string) (payload : OllamaChatRequest) :
  cred_tenantId credentials = Some (JStr tenantId) →
  Joi_uuid tenantId = true → chatRequestSchema payload = true →
  post_chat upstream (with_stream payload (Some false)) = Throw (AxiosError message) →
  chat_route upstream credentials (Some tenantId) payload
  = (Throw (Boom 500 "Failed to process chat request"),
     [PostChat (with_stream payload (Some false))]).
Proof.
  intros Hcred Huuid Hschema Hpost.
  unfold chat_route, validate_headers, bindP, retP, throwP.
  rewrite Huuid, Hschema. simpl.
  rewrite (chat_handler_upstream_failure credentials tenantId message)
    by (by rewrite ?sent_request).
  by rewrite sent_request.
Qed.

End Proxy.

(** ** The statements on the sample deployment *)

Lemma issued_token_principal_witness :
  ∃ decoded,
    @JWT_verify Acme.libs
      (@generateToken Acme.libs (delete "password" Acme.admin) (Some (JStr Acme.acmeId)))
    = Some decoded
    ∧ @validate Acme.libs
        {| decoded_payload := decoded;
           token := @generateToken Acme.libs (delete "password" Acme.admin)
                      (Some (JStr Acme.acmeId)) |} Acme.store
      = (Ok (Valid {| cred_user := delete "password" Acme.admin;
                      cred_tenantId := Some (JStr Acme.acmeId);
                      cred_scope :=
                        if JS.is_str (delete "password" Acme.admin !! "role") "admin"
                        then ["admin"; "user"] else ["user"] |}), Acme.store).
Proof.
  destruct (@issued_token_principal Acme.libs Acme.store
              (delete "password" Acme.admin) Acme.admin
              Acme.acmeId Acme.adminId (Demo.render (JObj Acme.admin)))
    as (decoded & Hverify & Hvalid & _).
  - reflexivity.
  - vm_compute. reflexivity.
  - exists Acme.adminDecoded. split; [vm_compute; reflexivity|].
    unfold Acme.adminDecoded.
    etrans; [|apply insert_subseteq; vm_compute; reflexivity].
    apply insert_subseteq; vm_compute; reflexivity.
  - intros [x Hx]. vm_compute in Hx. discriminate.
  - eexists. vm_compute. reflexivity.
  - vm_compute. reflexivity.
  - vm_compute. discriminate.
  - vm_compute. reflexivity.
  - vm_compute. reflexivity.
  - exists decoded. split; [exact Hverify|exact Hvalid].
Defined.

Lemma auth_gate_ignores_status_witness :
  (@validate Acme.libs Acme.adminArtifacts Acme.store).1
  = (@validate Acme.libs Acme.adminArtifacts Acme.storeSuspended).1
  ∧ @accepts Acme.libs Acme.adminArtifacts Acme.store
    = @accepts Acme.libs Acme.adminArtifacts Acme.storeBobInactive
  ∧ ((@validate Acme.libs Acme.adminArtifacts
        (@updateTenant Acme.libs Acme.later Acme.acmeId
           {[ "status" := JStr "inactive" ]} Acme.store).2).1
     = (@validate Acme.libs Acme.adminArtifacts Acme.store).1
     ∧ @accepts Acme.libs Acme.adminArtifacts
         (@updateTenant Acme.libs Acme.later Acme.acmeId
            {[ "status" := JStr "inactive" ]} Acme.store).2
       = @accepts Acme.libs Acme.adminArtifacts Acme.store)
  ∧ @login_handler Acme.libs Acme.freshId Acme.later Acme.later None
      Acme.loginAdmin Acme.storeInactive
    = (Throw (Boom 403 "Tenant is not active"), Acme.storeInactive)
  ∧ @login_handler Acme.libs Acme.freshId Acme.later Acme.later None
      Acme.loginBob Acme.storeBobInactive
    = (Throw (Boom 403 "User account is not active"), Acme.storeBobInactive).
Proof.
  destruct (@auth_gate_ignores_status Acme.libs)
    as (Htenant & Huser & Hupdate & Hlogin & Hlogin').
  split; [|split; [|split; [|split]]].
  - apply (Htenant Acme.store Acme.storeSuspended Acme.adminArtifacts).
    exists Acme.acmeId, (Demo.render (JObj Acme.acme)),
      (Demo.render (JObj Acme.acmeSuspended)), "suspended", Acme.acme.
    split; [vm_compute; reflexivity|]. split; [vm_compute; reflexivity|].
    split; [vm_compute; reflexivity|]. split; [vm_compute; reflexivity|].
    reflexivity.
  - apply (Huser Acme.store Acme.storeBobInactive Acme.adminArtifacts).
    exists Acme.acmeId, Acme.bobId, (Demo.render (JObj Acme.bob)),
      (Demo.render (JObj Acme.bobInactive)), "inactive", Acme.bob.
    split; [vm_compute; reflexivity|]. split; [vm_compute; discriminate|].
    split; [vm_compute; discriminate|]. split; [vm_compute; reflexivity|].
    split; [vm_compute; reflexivity|]. reflexivity.
  - apply (Hupdate Acme.later Acme.acmeId Acme.store Acme.adminArtifacts).
    vm_compute. reflexivity.
  - apply (Hlogin Acme.freshId Acme.later Acme.later None Acme.loginAdmin
             Acme.storeInactive Acme.acmeId
             (Demo.render (JObj Acme.acmeInactive)) Acme.acmeInactive).
    + reflexivity.
    + reflexivity.
    + vm_compute. discriminate.
    + vm_compute. reflexivity.
    + vm_compute. discriminate.
    + vm_compute. reflexivity.
    + vm_compute. reflexivity.
  - apply (Hlogin' Acme.freshId Acme.later Acme.later None Acme.loginBob
             Acme.storeBobInactive Acme.acmeId (Demo.render (JObj Acme.acme))
             Acme.bobId (Demo.render (JObj Acme.bobInactive)) "bcrypt:BobSecret123"
             Acme.acme Acme.bobInactive).
    + reflexivity.
    + reflexivity.
    + vm_compute. discriminate.
    + vm_compute. reflexivity.
    + vm_compute. discriminate.
    + vm_compute. reflexivity.
    + vm_compute. reflexivity.
    + vm_compute. reflexivity.
    + vm_compute. discriminate.
    + vm_compute. reflexivity.
    + vm_compute. discriminate.
    + vm_compute. reflexivity.
    + vm_compute. reflexivity.
    + vm_compute. reflexivity.
    + vm_compute. reflexivity.
Defined.

Lemma updateTenant_leaves_domain_index_witness :
  (∃ s', @updateTenant Acme.libs Acme.later Acme.acmeId Acme.move Acme.store
         = (Ok (JObj (mergeTenant (JObj Acme.acme) Acme.move Acme.acmeId Acme.later)), s')
         ∧ mergeTenant (JObj Acme.acme) Acme.move Acme.acmeId Acme.later !! "domain"
           = Some (JStr "acme.io")
         ∧ db s' !! domainKey "acme.io" = None
         ∧ db s' !! domainKey "acme.com" = Some (RString Acme.acmeId)
         ∧ @getTenantByDomain Acme.libs "acme.io" s' = (Ok JNull, s')
         ∧ @getTenantByDomain Acme.libs "acme.com" s'
           = (Ok (JObj (mergeTenant (JObj Acme.acme) Acme.move Acme.acmeId Acme.later)), s'))
  ∧ @getTenantByDomain Acme.libs (tenant_domain Acme.acmeData)
      (@createTenant Acme.libs Acme.acmeId Acme.now Acme.acmeData Acme.empty).2
    = (Ok (JObj (newTenant Acme.acmeId Acme.now Acme.acmeData)),
       (@createTenant Acme.libs Acme.acmeId Acme.now Acme.acmeData Acme.empty).2)
  ∧ db (@updateTenant Acme.libs Acme.later Acme.acmeId Acme.move Acme.store).2
      !! domainKey "acme.io"
    = db Acme.store !! domainKey "acme.io".
Proof.
  destruct (@updateTenant_leaves_domain_index Acme.libs eq_refl)
    as (Hcreate & Hupdate & Hindex).
  split; [|split].
  - apply (Hupdate Acme.later Acme.acmeId (Demo.render (JObj Acme.acme))
             "acme.com" "acme.io" Acme.move Acme.acme Acme.store).
    + reflexivity.
    + vm_compute. reflexivity.
    + vm_compute. discriminate.
    + vm_compute. reflexivity.
    + vm_compute. reflexivity.
    + vm_compute. discriminate.
    + vm_compute. reflexivity.
    + vm_compute. reflexivity.
    + vm_compute. reflexivity.
    + vm_compute. reflexivity.
  - apply (Hcreate Acme.acmeId Acme.now Acme.acmeData Acme.empty).
    + reflexivity.
    + intros text Htext. vm_compute in Htext. discriminate.
    + vm_compute. reflexivity.
    + vm_compute. discriminate.
    + vm_compute. discriminate.
    + vm_compute. reflexivity.
  - apply (Hindex Acme.later Acme.acmeId Acme.move Acme.store "acme.io").
    vm_compute. reflexivity.
Defined.

Lemma duplicate_domain_guard_is_in_register_witness :
  @register_handler Acme.libs Acme.freshId Acme.later Acme.freshId Acme.later
    Acme.registerAcmeAgain Acme.store
  = (Throw (Boom 409 "Tenant with this domain already exists"), Acme.store)
  ∧ ∃ s', @createTenant Acme.libs Acme.freshId Acme.later Acme.acmeAgainData Acme.store
          = (Ok (newTenant Acme.freshId Acme.later Acme.acmeAgainData), s')
          ∧ db s' !! domainKey (tenant_domain Acme.acmeAgainData)
            = Some (RString Acme.freshId)
          ∧ db s' !! tenantKey Acme.freshId
            = Some (RString (@JSON_stringify Acme.libs
                               (JObj (newTenant Acme.freshId Acme.later
                                        Acme.acmeAgainData)))).
Proof.
  destruct (@duplicate_domain_guard_is_in_register Acme.libs) as (Hregister & Hcreate).
  split.
  - apply (Hregister Acme.freshId Acme.later Acme.freshId Acme.later
             Acme.registerAcmeAgain Acme.store Acme.acmeId
             (Demo.render (JObj Acme.acme)) (JObj Acme.acme)).
    + reflexivity.
    + vm_compute. reflexivity.
    + vm_compute. discriminate.
    + vm_compute. reflexivity.
    + vm_compute. discriminate.
    + vm_compute. reflexivity.
    + reflexivity.
  - apply (Hcreate Acme.freshId Acme.later Acme.acmeAgainData Acme.store).
    + reflexivity.
    + intros text Htext. vm_compute in Htext. discriminate.
    + vm_compute. reflexivity.
    + vm_compute. discriminate.
    + eexists. vm_compute. reflexivity.
Defined.

(** C5, as stated, fails: on a store where acme.com is indexed to the
    first tenant, [createTenant] for acme.com does not fail; it returns the
    new tenant, and the index entry of acme.com now holds the new id. *)
Lemma createTenant_indexed_domain_counterexample :
  db Acme.store !! domainKey "acme.com" = Some (RString Acme.acmeId)
  ∧ ∃ s', @createTenant Acme.libs Acme.freshId Acme.later Acme.acmeAgainData Acme.store
          = (Ok Acme.acmeAgain, s')
          ∧ db s' !! domainKey "acme.com" = Some (RString Acme.freshId)
          ∧ is_Some (db s' !! tenantKey Acme.acmeId)
          ∧ is_Some (db s' !! tenantKey Acme.freshId).
Proof.
  split; [vm_compute; reflexivity|].
  eexists. split.
  - apply (@createTenant_run Acme.libs); [reflexivity|].
    intros text Htext. vm_compute in Htext. discriminate.
  - split; [vm_compute; reflexivity|].
    split; eexists; vm_compute; reflexivity.
Qed.


Lemma directory_results_have_no_password_witness :
  (∃ o s', @createUser Acme.libs Acme.freshId Acme.later Acme.globexId Acme.bobData Acme.store
           = (Ok o, s')
           ∧ o !! "password" = None
           ∧ @newUser Acme.libs Acme.freshId Acme.later Acme.globexId Acme.bobData !! "password"
             = Some (JStr (@bcrypt_hash Acme.libs (user_password Acme.bobData)))
           ∧ ∀ k, k ≠ "password" →
                  o !! k = @newUser Acme.libs Acme.freshId Acme.later Acme.globexId
                             Acme.bobData !! k)
  ∧ @getUser Acme.libs Acme.acmeId Acme.bobId Acme.store
    = (Ok (Some (delete "password" Acme.bob)), Acme.store)
  ∧ (∃ s', @updateUser Acme.libs Acme.later Acme.acmeId Acme.bobId
             {[ "role" := JStr "admin" ]} Acme.store
           = (Ok (Some (delete "password"
                          (mergeUser (JObj Acme.bob) {[ "role" := JStr "admin" ]}
                             Acme.acmeId Acme.bobId Acme.later))), s'))
  ∧ (∃ l, @getAllUsers Acme.libs Acme.globexId Acme.store = (Ok l, Acme.store)
          ∧ Forall (λ o : obj, o !! "password" = None) l).
Proof.
  destruct (@directory_results_have_no_password Acme.libs)
    as (_ & _ & _ & _ & Hcreate & Hget & Hupdate & Hall).
  split; [|split; [|split]].
  - apply (Hcreate Acme.freshId Acme.later Acme.globexId Acme.bobData Acme.store).
    + reflexivity.
    + intros text Htext. vm_compute in Htext. discriminate.
  - apply (Hget Acme.acmeId Acme.bobId (Demo.render (JObj Acme.bob)) Acme.bob Acme.store).
    + reflexivity.
    + vm_compute. reflexivity.
    + vm_compute. discriminate.
    + vm_compute. reflexivity.
  - apply (Hupdate Acme.later Acme.acmeId Acme.bobId {[ "role" := JStr "admin" ]}
             (Demo.render (JObj Acme.bob)) (JObj Acme.bob) Acme.store).
    + reflexivity.
    + vm_compute. reflexivity.
    + vm_compute. discriminate.
    + vm_compute. reflexivity.
  - apply (Hall Acme.globexId Acme.store).
    + reflexivity.
    + intros text Htext. vm_compute in Htext. discriminate.
    + intros u Hu. vm_compute in Hu. discriminate.
Defined.

Lemma chat_annotates_or_refuses_before_upstream_witness :
  (@chat_route Acme.libs Acme.ollamaUp Acme.adminPrincipal (Some Acme.acmeId) Acme.hello
   = (Ok {| code := 200;
            body := JS.set_field "user_id" (cred_user Acme.adminPrincipal !! "userId")
                      (<["tenant_id" := JStr Acme.acmeId]> Acme.answer) |},
      [PostChat (with_stream Acme.hello (Some false))]))
  ∧ (@chat_handler Acme.ollamaUp Acme.adminPrincipal (Some Acme.globexId) Acme.hello
     = (Throw (Boom 403 "Tenant ID does not match authenticated user"), [])).
Proof.
  split.
  - destruct (proj1 (@chat_annotates_or_refuses_before_upstream Acme.libs Acme.ollamaUp)
                Acme.adminPrincipal Acme.acmeId Acme.hello Acme.answer)
      as (_ & _ & _ & _ & Hroute & _).
    + reflexivity.
    + vm_compute. reflexivity.
    + vm_compute. reflexivity.
    + reflexivity.
    + apply Hroute. vm_compute. reflexivity.
  - apply (proj2 (@chat_annotates_or_refuses_before_upstream Acme.libs Acme.ollamaUp)
             Acme.adminPrincipal Acme.acmeId Acme.globexId Acme.hello).
    + reflexivity.
    + vm_compute. discriminate.
Defined.

(** C8, as the claim has it, fails twice. With the header of the caller's
    tenant and a valid payload, an answer of the inference service that
    says why it stopped is not returned: the response schema of the route
    does not list [done_reason], and the route answers 500 after the call
    upstream. And a header that differs from the caller's tenant and is
    not a uuid is refused at header validation with a 400, not as
    forbidden. *)
Lemma chat_answer_outside_response_schema_counterexample :
  @chat_route Acme.libs Acme.ollamaWithReason Acme.adminPrincipal (Some Acme.acmeId)
    Acme.hello
  = (Throw (Boom 500 "An internal server error occurred"),
     [PostChat (with_stream Acme.hello (Some false))])
  ∧ @chat_route Acme.libs Acme.ollamaUp Acme.adminPrincipal (Some "different-tenant-id")
      Acme.hello
    = (Throw (Boom 400 "Invalid request headers input"), []).
Proof. split; vm_compute; reflexivity. Qed.

(** C3, at a request without the x-tenant-id header. The route refuses it
    at header validation with a 400, not with a 403; and the handler, were
    it reached, has one message for an absent and for a different header:
    the code has no missing-header message. *)
Theorem chat_without_tenant_header :
  @chat_route Acme.libs Acme.ollamaUp Acme.adminPrincipal None Acme.hello
  = (Throw (Boom 400 "Invalid request headers input"), [])
  ∧ @models_route Acme.libs Acme.ollamaUp Acme.adminPrincipal None
    = (Throw (Boom 400 "Invalid request headers input"), [])
  ∧ @chat_handler Acme.ollamaUp Acme.adminPrincipal None Acme.hello
    = (Throw (Boom 403 "Tenant ID does not match authenticated user"), [])
  ∧ @chat_handler Acme.ollamaUp Acme.adminPrincipal (Some Acme.globexId) Acme.hello
    = (Throw (Boom 403 "Tenant ID does not match authenticated user"), []).
Proof.
  destruct (@routes_missing_header Acme.libs Acme.ollamaUp Acme.adminPrincipal Acme.hello)
    as [Hchat Hmodels].
  split; [exact Hchat|]. split; [exact Hmodels|].
  split; apply chat_handler_mismatch; reflexivity.
Qed.

(** C4, at a chat request whose call to the inference service is refused.
    [OllamaService.chat] wraps the axios message in a plain [Error]; the
    handler answers 500 with a fixed message, not 502, and the text of the
    upstream error is not in the answer. *)
Theorem chat_with_ollama_down :
  @chat Acme.ollamaDown (with_stream Acme.hello (Some false)) (Some (JStr Acme.acmeId))
  = (Throw (Error "Ollama request failed: connect ECONNREFUSED 127.0.0.1:11434"),
     [PostChat (with_stream Acme.hello (Some false))])
  ∧ @chat_route Acme.libs Acme.ollamaDown Acme.adminPrincipal (Some Acme.acmeId) Acme.hello
    = (Throw (Boom 500 "Failed to process chat request"),
       [PostChat (with_stream Acme.hello (Some false))]).
Proof.
  split.
  - reflexivity.
  - apply (@chat_route_upstream_failure Acme.libs Acme.ollamaDown Acme.adminPrincipal
             Acme.acmeId "connect ECONNREFUSED 127.0.0.1:11434" Acme.hello);
      vm_compute; reflexivity.
Qed.

Lemma validate_fail_closed_witness :
  @validate Acme.libs Acme.adminArtifacts Acme.store
  = (Ok (Valid (principal (decoded_payload Acme.adminArtifacts) (JObj Acme.admin))),
     Acme.store).
Proof.
  destruct (@validate_fail_closed Acme.libs Acme.store Acme.adminArtifacts)
    as (r & Hrun & _ & _ & Hvalid).
  rewrite Hrun. f_equal. f_equal.
  apply (Hvalid (Demo.render (JObj Acme.admin)) (JObj Acme.admin)).
  - reflexivity.
  - intros [x Hx]. vm_compute in Hx. discriminate.
  - eexists. vm_compute. reflexivity.
  - vm_compute. reflexivity.
  - vm_compute. discriminate.
  - vm_compute. reflexivity.
  - discriminate.
Defined.

(** * Further properties *)

(** ** Reads never write *)

Lemma read_only_ret {A} (a : A) : read_only (ret a).
Proof. by intros s. Qed.

Lemma read_only_throw {A} (e : exn) : read_only (@throw A e).
Proof. by intros s. Qed.

Lemma read_only_lift {A} (r : result A) : read_only (lift r).
Proof. by intros s. Qed.

Lemma read_only_bind {A B} (m : M A) (k : A → M B) :
  read_only m → (∀ a, read_only (k a)) → read_only (bind m k).
Proof.
  intros Hm Hk s. unfold bind. specialize (Hm s).
  destruct (m s) as [[a|e] s1]; simpl in *; subst; [apply Hk|done].
Qed.

Lemma read_only_try_catch {A} (body : M A) (handler : exn → M A) :
  read_only body → (∀ e, read_only (handler e)) → read_only (try_catch body handler).
Proof.
  intros Hm Hk s. unfold try_catch. specialize (Hm s).
  destruct (body s) as [[a|e] s1]; simpl in *; subst; [done|apply Hk].
Qed.

Lemma read_only_command {A} (f : gmap string rvalue → result A * gmap string rvalue) :
  (∀ d, (f d).2 = d) → read_only (Redis.command f).
Proof.
  intros Hf s. unfold Redis.command. destruct (connected s) eqn:Hc; [|done].
  specialize (Hf (db s)). destruct (f (db s)) as [r d]. simpl in *. subst d.
  by apply connected_eta.
Qed.

Lemma read_only_get (key : string) : read_only (Redis.get key).
Proof.
  apply read_only_command. intros d. by destruct (d !! key) as [[]|].
Qed.

Lemma read_only_exists (key : string) : read_only (Redis.exists_ key).
Proof. by apply read_only_command. Qed.

Lemma read_only_sMembers (key : string) : read_only (Redis.sMembers key).
Proof.
  apply read_only_command. intros d. by destruct (d !! key) as [[]|].
Qed.

Section Reads.
Context `{Externals}.

Lemma read_only_parse (text : string) : read_only (parse text).
Proof.
  unfold parse. destruct (JSON_parse text);
    [apply read_only_ret|apply read_only_throw].
Qed.

Lemma read_only_getTenant (tenantId : string) : read_only (getTenant tenantId).
Proof.
  apply read_only_bind; [apply read_only_get|].
  intros [text|]; [|apply read_only_ret].
  destruct (String.eqb text EmptyString);
    [apply read_only_ret|apply read_only_parse].
Qed.

Lemma read_only_getTenantByDomain (domain : string) :
  read_only (getTenantByDomain domain).
Proof.
  apply read_only_bind; [apply read_only_get|].
  intros [id|]; [|apply read_only_ret].
  destruct (String.eqb id EmptyString);
    [apply read_only_ret|apply read_only_getTenant].
Qed.

Lemma read_only_getUserByEmail (tenantId email : string) :
  read_only (getUserByEmail tenantId email).
Proof.
  apply read_only_bind; [apply read_only_get|].
  intros [id|]; [|apply read_only_ret].
  destruct (String.eqb id EmptyString); [apply read_only_ret|].
  apply read_only_bind; [apply read_only_get|].
  intros [text|]; [|apply read_only_ret].
  destruct (String.eqb text EmptyString);
    [apply read_only_ret|apply read_only_parse].
Qed.

Lemma read_only_getUser (tenantId userId : string) :
  read_only (getUser tenantId userId).
Proof.
  apply read_only_bind; [apply read_only_get|].
  intros [text|]; [|apply read_only_ret].
  destruct (String.eqb text EmptyString); [apply read_only_ret|].
  apply read_only_bind; [apply read_only_parse|]. intros user.
  apply read_only_bind; [apply read_only_lift|]. intros rest.
  apply read_only_ret.
Qed.

Lemma read_only_getAllUsers_loop (tenantId : string) (userIds : list string) :
  ∀ users, read_only (getAllUsers_loop tenantId userIds users).
Proof.
  induction userIds as [|userId rest IH]; intros users; simpl.
  - apply read_only_ret.
  - apply read_only_bind; [apply read_only_getUser|]. intros user. apply IH.
Qed.

Lemma read_only_getAllUsers (tenantId : string) : read_only (getAllUsers tenantId).
Proof.
  apply read_only_bind; [apply read_only_sMembers|].
  intros ids. apply read_only_getAllUsers_loop.
Qed.

Lemma read_only_getSession (sessionId : string) : read_only (getSession sessionId).
Proof.
  apply read_only_bind; [apply read_only_get|].
  intros [text|]; [|apply read_only_ret].
  destruct (String.eqb text EmptyString);
    [apply read_only_ret|apply read_only_parse].
Qed.

Lemma read_only_isTokenBlacklisted (token : string) :
  read_only (isTokenBlacklisted token).
Proof.
  apply read_only_bind; [apply read_only_exists|]. intros n. apply read_only_ret.
Qed.

(** X1. The lookups of the directory ([getTenant], [getTenantByDomain],
    [getUserByEmail], [getUser], [getAllUsers], [getSession],
    [isTokenBlacklisted], [verifyPassword]) never write: whatever they
    return or throw, on any store, the store is as it was; so asking twice
    gives the same answer twice. *)
Theorem directory_lookups_never_write :
  (∀ tenantId, read_only (getTenant tenantId))
  ∧ (∀ domain, read_only (getTenantByDomain domain))
  ∧ (∀ tenantId email, read_only (getUserByEmail tenantId email))
  ∧ (∀ tenantId userId, read_only (getUser tenantId userId))
  ∧ (∀ tenantId, read_only (getAllUsers tenantId))
  ∧ (∀ sessionId, read_only (getSession sessionId))
  ∧ (∀ token, read_only (isTokenBlacklisted token))
  ∧ (∀ password hashed, read_only (verifyPassword password hashed))
  ∧ (∀ tenantId s, getTenant tenantId (getTenant tenantId s).2 = getTenant tenantId s)
  ∧ (∀ tenantId userId s,
       getUser tenantId userId (getUser tenantId userId s).2
       = getUser tenantId userId s).
Proof.
  split; [apply read_only_getTenant|].
  split; [apply read_only_getTenantByDomain|].
  split; [apply read_only_getUserByEmail|].
  split; [apply read_only_getUser|].
  split; [apply read_only_getAllUsers|].
  split; [apply read_only_getSession|].
  split; [apply read_only_isTokenBlacklisted|].
  split; [intros; apply read_only_ret|].
  split; intros.
  - by rewrite read_only_getTenant.
  - by rewrite read_only_getUser.
Qed.

End Reads.

(** ** Round trips of the directory *)

Lemma del_run (key : string) (s : redis) :
  connected s = true →
  Redis.del key s = (Ok (), with_db s (delete key (db s))).
Proof.
  intros Hc. unfold Redis.del, Redis.command, with_db. by rewrite Hc.
Qed.

Lemma setEx_run (key : string) (seconds : Z) (value : string) (s : redis) :
  connected s = true → 0 < seconds →
  Redis.setEx key seconds value s
  = (Ok (), with_db s (<[key := RString value]> (db s))).
Proof.
  intros Hc Hpos. unfold Redis.setEx, Redis.command, with_db. rewrite Hc.
  by rewrite (proj2 (Z.leb_gt seconds 0) Hpos).
Qed.


Lemma lookup_merge_fields (updates old : obj) (k : string) :
  (updates ∪ old) !! k = match updates !! k with Some v => Some v | None => old !! k end.
Proof.
  rewrite lookup_union. destruct (updates !! k), (old !! k); reflexivity.
Qed.

Section DirectoryRoundTrips.
Context `{Externals}.

(** X2. After [createTenant] the tenant can be read back by its id, it
    is active, its id is in the set of all tenants next to those that
    were there, and neither the record of another tenant nor the index
    entry of another domain has changed; a tenant created with the empty
    domain gets no index entry at all. *)
Theorem createTenant_then_getTenant (uuid now : string)
    (data : CreateTenantData) (s : redis) :
  connected s = true →
  set_or_absent (db s) tenantsAllKey →
  colon_free uuid = true →
  JSON_parse EmptyString = None →
  json_roundtrip (JObj (newTenant uuid now data)) →
  let s1 := (createTenant uuid now data s).2 in
  getTenant uuid s1 = (Ok (JObj (newTenant uuid now data)), s1)
  ∧ newTenant uuid now data !! "status" = Some (JStr "active")
  ∧ members (db s1) tenantsAllKey = {[ uuid ]} ∪ members (db s) tenantsAllKey
  ∧ (∀ other, other ≠ uuid → colon_free other = true →
       db s1 !! tenantKey other = db s !! tenantKey other)
  ∧ (∀ domain, domain ≠ tenant_domain data →
       db s1 !! domainKey domain = db s !! domainKey domain)
  ∧ (tenant_domain data = EmptyString →
     ∀ domain, db s1 !! domainKey domain = db s !! domainKey domain).
Proof.
  intros Hc Hset Hfree Hempty Hrt s1. subst s1.
  rewrite createTenant_run by done. simpl.
  assert (∀ (g : gmap string rvalue → gmap string rvalue) d key,
            (g = id ∨ ∃ dom v, g = insert (domainKey dom) v ∧ key ≠ domainKey dom) →
            g d !! key = d !! key) as Hskip.
  { intros g d key [->|(dom & v & -> & Hne)]; [done|].
    by rewrite lookup_insert_ne. }
  split; [|split; [|split; [|split; [|split]]]].
  - rewrite getTenant_run by done. simpl.
    rewrite Hskip.
    2:{ destruct (negb _); [right|by left].
        eexists _, _. split; [done|]. by apply tenantKey_ne_domainKey. }
    rewrite lookup_insert_ne by (apply not_eq_sym, tenantKey_ne_tenantsAllKey).
    rewrite lookup_insert_eq.
    rewrite stringify_nonempty by done. by rewrite Hrt.
  - reflexivity.
  - unfold members at 1. rewrite Hskip.
    2:{ destruct (negb _); [right|by left].
        eexists _, _. split; [done|]. apply not_eq_sym, domainKey_ne_tenantsAllKey. }
    by rewrite lookup_insert_eq.
  - intros other Hne Hother. rewrite Hskip.
    2:{ destruct (negb _); [right|by left].
        eexists _, _. split; [done|]. by apply tenantKey_ne_domainKey. }
    rewrite lookup_insert_ne by (apply not_eq_sym, tenantKey_ne_tenantsAllKey).
    rewrite lookup_insert_ne; [done|]. intros Heq. by apply tenantKey_inj in Heq.
  - intros domain Hne. rewrite Hskip.
    2:{ destruct (negb _); [right|by left].
        eexists _, _. split; [done|]. intros Heq. by apply domainKey_inj in Heq. }
    rewrite lookup_insert_ne by (apply not_eq_sym, domainKey_ne_tenantsAllKey).
    rewrite lookup_insert_ne; [done|]. by apply tenantKey_ne_domainKey.
  - intros Hdom domain. rewrite Hdom. simpl.
    rewrite lookup_insert_ne by (apply not_eq_sym, domainKey_ne_tenantsAllKey).
    rewrite lookup_insert_ne; [done|]. by apply tenantKey_ne_domainKey.
Qed.

(** X3. [updateTenant] on an id without a record answers null and
    writes nothing. On a stored tenant it answers the merged tenant:
    the id is the one asked for and [updatedAt] the time of the call
    whatever the updates say, every other field is the update's when it
    has one and the stored one otherwise; only the record of this tenant
    is written, and [getTenant] then gives the merged tenant back. *)
Theorem updateTenant_merges (now tenantId : string) (updates : obj) (s : redis) :
  connected s = true →
  (db s !! tenantKey tenantId = None →
   updateTenant now tenantId updates s = (Ok JNull, s))
  ∧ (∀ text tenant,
       db s !! tenantKey tenantId = Some (RString text) → text ≠ EmptyString →
       JSON_parse text = Some (JObj tenant) →
       let updated := mergeTenant (JObj tenant) updates tenantId now in
       ∃ s',
         updateTenant now tenantId updates s = (Ok (JObj updated), s')
         ∧ updated !! "tenantId" = Some (JStr tenantId)
         ∧ updated !! "updatedAt" = Some (JStr now)
         ∧ (∀ k, k ≠ "tenantId" → k ≠ "updatedAt" →
              updated !! k = match updates !! k with
                             | Some v => Some v
                             | None => tenant !! k
                             end)
         ∧ (∀ key, key ≠ tenantKey tenantId → db s' !! key = db s !! key)
         ∧ (JSON_parse EmptyString = None → json_roundtrip (JObj updated) →
            getTenant tenantId s' = (Ok (JObj updated), s'))).
Proof.
  intros Hc. split.
  - intros Hnone. unfold updateTenant, bind.
    rewrite getTenant_run by done. by rewrite Hnone.
  - intros text tenant Hrec Htext Hparse updated. subst updated.
    eexists. split; [by eapply updateTenant_run|].
    unfold mergeTenant. simpl.
    split; [by simplify_map_eq|]. split; [by simplify_map_eq|].
    split; [|split].
    + intros k Hk Hk'. rewrite !lookup_insert_ne by done.
      apply lookup_merge_fields.
    + intros key Hkey. by rewrite lookup_insert_ne.
    + intros Hempty Hrt. rewrite getTenant_run by done. simpl.
      rewrite lookup_insert_eq, stringify_nonempty by done. by rewrite Hrt.
Qed.

End DirectoryRoundTrips.

(** ** Users of a tenant *)

Lemma length_omap_le {B} (f : string → option B) (X : gset string) :
  (length (omap f (elements X)) ≤ size X)%nat.
Proof.
  unfold size, set_size. simpl.
  generalize (elements X). intros l.
  induction l as [|u l IH]; simpl; [done|].
  change (list_omap string B f l) with (omap f l).
  destruct (f u); simpl; change (list_omap string B f l) with (omap f l); lia.
Qed.

Section UserRoundTrips.
Context `{Externals}.

Lemma getUser_run (tenantId userId : string) (s : redis) :
  connected s = true →
  getUser tenantId userId s =
    (match db s !! userKey tenantId userId with
     | None => Ok None
     | Some (RString text) =>
         if String.eqb text EmptyString then Ok None
         else match JSON_parse text with
              | Some JNull => Throw (Error "TypeError: Cannot destructure null")
              | Some v => Ok (Some (delete "password" (JS.own_props v)))
              | None => Throw (Error "SyntaxError: Unexpected token in JSON")
              end
     | Some (RSet _) => Throw Redis.wrongtype
     end, s).
Proof.
  intros Hc. unfold getUser, bind. rewrite get_run by done.
  destruct (db s !! userKey tenantId userId) as [[text|ms]|]; try reflexivity.
  destruct (String.eqb text EmptyString); [reflexivity|].
  unfold parse. destruct (JSON_parse text) as [[]|]; reflexivity.
Qed.

Lemma getUser_view (tenantId userId : string) (s : redis) :
  connected s = true → userReadable s tenantId userId →
  getUser tenantId userId s = (Ok (userView s tenantId userId), s).
Proof.
  intros Hc Hread. rewrite getUser_run by done.
  unfold userReadable, userView in *.
  destruct (db s !! userKey tenantId userId) as [[text|ms]|]; [|done|done].
  destruct (String.eqb text EmptyString) eqn:Htext; [done|].
  apply String.eqb_neq in Htext.
  destruct Hread as [?|(v & -> & Hv)]; [done|]. by destruct v.
Qed.

Lemma getAllUsers_loop_view (tenantId : string) (s : redis) (userIds : list string) :
  connected s = true →
  (∀ u, u ∈ userIds → userReadable s tenantId u) →
  ∀ users, getAllUsers_loop tenantId userIds users s
           = (Ok (users ++ omap (userView s tenantId) userIds), s).
Proof.
  intros Hc. induction userIds as [|userId rest IH]; intros Hall users; simpl.
  - by rewrite app_nil_r.
  - unfold bind. rewrite getUser_view; [|done|apply Hall; by left].
    rewrite IH by (intros u Hu; apply Hall; by right).
    destruct (userView s tenantId userId); [|done].
    by rewrite <- app_assoc.
Qed.

(** X4. After [createUser] the user is found under the email and under
    the id: by email with the password hash, by id without it; the id is
    among the users of the tenant next to those that were there; the
    role is [user] unless one was given, the status is active, and the
    stored password is the hash, the answer of [createUser] having none. *)
Theorem createUser_then_lookups (uuid now tenantId : string)
    (data : CreateUserData) (s : redis) :
  connected s = true →
  set_or_absent (db s) (usersKey tenantId) →
  colon_free tenantId = true → uuid_like uuid = true →
  JSON_parse EmptyString = None →
  json_roundtrip (JObj (newUser uuid now tenantId data)) →
  let user := newUser uuid now tenantId data in
  let s1 := (createUser uuid now tenantId data s).2 in
  (createUser uuid now tenantId data s).1 = Ok (delete "password" user)
  ∧ getUserByEmail tenantId (user_email data) s1 = (Ok (JObj user), s1)
  ∧ getUser tenantId uuid s1 = (Ok (Some (delete "password" user)), s1)
  ∧ usersOf s1 tenantId = {[ uuid ]} ∪ usersOf s tenantId
  ∧ user !! "password" = Some (JStr (bcrypt_hash (user_password data)))
  ∧ user !! "status" = Some (JStr "active")
  ∧ (user_role data = None → user !! "role" = Some (JStr "user")).
Proof.
  intros Hc Hset Ht Hu Hempty Hrt user s1. subst user s1.
  pose proof (uuid_like_colon_free _ Hu) as Hfree.
  pose proof (uuid_like_nonempty _ Hu) as Hne.
  rewrite createUser_run by done. simpl.
  split; [done|]. split; [|split; [|split; [|split; [|split]]]].
  - rewrite getUserByEmail_run by done. simpl.
    rewrite lookup_insert_eq, Hne.
    rewrite lookup_insert_ne by (by apply not_eq_sym, userKey_ne_emailKey).
    rewrite lookup_insert_ne by (apply not_eq_sym, userKey_ne_usersKey).
    rewrite lookup_insert_eq, stringify_nonempty by done. by rewrite Hrt.
  - rewrite getUser_run by done. simpl.
    rewrite lookup_insert_ne by (by apply not_eq_sym, userKey_ne_emailKey).
    rewrite lookup_insert_ne by (apply not_eq_sym, userKey_ne_usersKey).
    rewrite lookup_insert_eq, stringify_nonempty by done. by rewrite Hrt.
  - unfold usersOf, members at 1. simpl.
    rewrite lookup_insert_ne by (by apply not_eq_sym, usersKey_ne_emailKey).
    by rewrite lookup_insert_eq.
  - reflexivity.
  - reflexivity.
  - intros Hrole. unfold newUser. by rewrite Hrole.
Qed.

(** X5. [updateUser] on a stored user answers the merged user without
    its password: [userId] and [tenantId] are those of the call and
    [updatedAt] its time whatever the updates say; a [password] among the
    updates is stored as it is given, not hashed. Only the record of
    this user is written: the email index of the tenant is as before, so
    after a change of email the user is still found under the previous
    email, now bearing the new one. An id without a record answers null
    and writes nothing. *)
Theorem updateUser_keeps_email_index (now tenantId userId : string)
    (updates : obj) (s : redis) :
  connected s = true → colon_free tenantId = true → uuid_like userId = true →
  (db s !! userKey tenantId userId = None →
   updateUser now tenantId userId updates s = (Ok None, s))
  ∧ (∀ text user,
       db s !! userKey tenantId userId = Some (RString text) → text ≠ EmptyString →
       JSON_parse text = Some (JObj user) →
       let updated := mergeUser (JObj user) updates tenantId userId now in
       ∃ s',
         updateUser now tenantId userId updates s
           = (Ok (Some (delete "password" updated)), s')
         ∧ updated !! "userId" = Some (JStr userId)
         ∧ updated !! "tenantId" = Some (JStr tenantId)
         ∧ updated !! "updatedAt" = Some (JStr now)
         ∧ (∀ k, k ≠ "userId" → k ≠ "tenantId" → k ≠ "updatedAt" →
              updated !! k = match updates !! k with
                             | Some v => Some v
                             | None => user !! k
                             end)
         ∧ (∀ key, key ≠ userKey tenantId userId → db s' !! key = db s !! key)
         ∧ (∀ email, db s' !! emailKey tenantId email = db s !! emailKey tenantId email)
         ∧ (∀ email,
              db s !! emailKey tenantId email = Some (RString userId) →
              JSON_parse EmptyString = None → json_roundtrip (JObj updated) →
              getUserByEmail tenantId email s' = (Ok (JObj updated), s'))).
Proof.
  intros Hc Ht Hu.
  pose proof (uuid_like_colon_free _ Hu) as Hfree.
  pose proof (uuid_like_nonempty _ Hu) as Hne.
  split.
  - intros Hnone. unfold updateUser, bind. rewrite get_run by done.
    by rewrite Hnone.
  - intros text user Hrec Htext Hparse updated. subst updated.
    apply String.eqb_neq in Htext.
    eexists. split.
    { unfold updateUser, bind. rewrite get_run by done. rewrite Hrec, Htext.
      unfold parse. rewrite Hparse. simpl. rewrite set_run by done. reflexivity. }
    unfold mergeUser. simpl.
    split; [by simplify_map_eq|]. split; [by simplify_map_eq|].
    split; [by simplify_map_eq|]. split; [|split; [|split]].
    + intros k Hk Hk' Hk''. rewrite !lookup_insert_ne by done.
      apply lookup_merge_fields.
    + intros key Hkey. by rewrite lookup_insert_ne.
    + intros email. rewrite lookup_insert_ne; [done|].
      by apply userKey_ne_emailKey.
    + intros email Hidx Hempty Hrt.
      rewrite getUserByEmail_run by done. simpl.
      rewrite lookup_insert_ne by (by apply userKey_ne_emailKey).
      rewrite Hidx, Hne, lookup_insert_eq, stringify_nonempty by done.
      by rewrite Hrt.
Qed.

(** X6. On a reachable store whose user records can be read,
    [getAllUsers] answers, for the ids of the tenant's user set in the
    order Redis gives them, the stored record without its password, an
    id without a record being skipped; the list route answers 200 with
    that list and its length as [count]. *)
Theorem getAllUsers_is_the_user_set (tenantId : string) (s : redis) :
  connected s = true →
  set_or_absent (db s) (usersKey tenantId) →
  (∀ u, u ∈ usersOf s tenantId → userReadable s tenantId u) →
  let users := omap (userView s tenantId) (elements (usersOf s tenantId)) in
  getAllUsers tenantId s = (Ok users, s)
  ∧ (length users ≤ size (usersOf s tenantId))%nat
  ∧ (∀ credentials,
       JS.interp (cred_tenantId credentials) = tenantId →
       getUsers_handler credentials s
       = (Ok {| code := 200;
                body := <["users" := JArr (JObj <$> users)]>
                        (<["count" := JNum (Z.of_nat (length users))]> ∅) |}, s)).
Proof.
  intros Hc Hset Hread users.
  assert (getAllUsers tenantId s = (Ok users, s)) as Hall.
  { unfold getAllUsers, bind. rewrite sMembers_run by done.
    rewrite getAllUsers_loop_view; [done|done|].
    intros u Hu. apply Hread. unfold usersOf. by apply elem_of_elements. }
  split; [done|]. split.
  - subst users. apply length_omap_le.
  - intros credentials Hcred. unfold getUsers_handler, try_catch, bind.
    by rewrite Hcred, Hall.
Qed.

End UserRoundTrips.

(** ** Sessions and logout *)

Lemma sessionKey_ne_blacklistKey (sessionId token : string) :
  sessionKey sessionId ≠ blacklistKey token.
Proof. unfold sessionKey, blacklistKey. simpl. congruence. Qed.

Lemma sessionKey_ne_tenantKey (sessionId tenantId : string) :
  sessionKey sessionId ≠ tenantKey tenantId.
Proof. unfold sessionKey, tenantKey. simpl. congruence. Qed.

Lemma sessionKey_ne_userKey (sessionId tenantId userId : string) :
  sessionKey sessionId ≠ userKey tenantId userId.
Proof. unfold sessionKey, userKey. simpl. congruence. Qed.

Lemma blacklistKey_inj (a b : string) : blacklistKey a = blacklistKey b → a = b.
Proof. unfold blacklistKey. simpl. congruence. Qed.

Lemma split_on_space_free (s : string) :
  space_free s = true → split_on " "%char s = [s].
Proof.
  induction s as [|c r IH]; simpl; [done|].
  intros [Hc Hr]%andb_prop. apply negb_true_iff in Hc. rewrite Hc.
  by rewrite IH.
Qed.

Lemma split_on_cons (sep : ascii) (s : string) :
  ∃ h t, split_on sep s = h :: t.
Proof.
  destruct s as [|c r]; simpl; [by eexists _, _|].
  destruct (Ascii.eqb c sep); [by eexists _, _|].
  destruct (split_on sep r); by eexists _, _.
Qed.

Lemma split_on_app (sep : ascii) (a b : string) :
  split_on sep (a +:+ b)
  = removelast (split_on sep a)
    ++ match split_on sep b with
       | h :: t => (List.last (split_on sep a) EmptyString +:+ h) :: t
       | [] => []
       end.
Proof.
  destruct (split_on_cons sep b) as (hb & tb & Hb). rewrite Hb.
  induction a as [|c r IH]; simpl.
  - by rewrite Hb.
  - destruct (split_on_cons sep r) as (h & t & Hr).
    rewrite IH, Hr. clear IH.
    destruct (Ascii.eqb c sep); [done|].
    destruct t as [|h' t']; done.
Qed.

Section SessionsAndLogout.
Context `{Externals}.

Lemma getSession_run (sessionId : string) (s : redis) :
  connected s = true →
  getSession sessionId s =
    (match db s !! sessionKey sessionId with
     | None => Ok JNull
     | Some (RString text) =>
         if String.eqb text EmptyString then Ok JNull
         else match JSON_parse text with
              | Some v => Ok v
              | None => Throw (Error "SyntaxError: Unexpected token in JSON")
              end
     | Some (RSet _) => Throw Redis.wrongtype
     end, s).
Proof.
  intros Hc. unfold getSession, bind. rewrite (get_run _ _ Hc).
  destruct (db s !! sessionKey sessionId) as [[text|ms]|]; try reflexivity.
  destruct (String.eqb text EmptyString); [reflexivity|].
  unfold parse. by destruct (JSON_parse text).
Qed.

Lemma createSession_run (uuid now : string) (tenantId userId : option jsval)
    (loginTime userAgent : option string) (s : redis) :
  connected s = true →
  createSession uuid now tenantId userId loginTime userAgent s
  = (Ok (newSession uuid now tenantId userId loginTime userAgent),
     with_db s (<[sessionKey uuid :=
                    RString (JSON_stringify
                               (JObj (newSession uuid now tenantId userId
                                        loginTime userAgent)))]> (db s))).
Proof.
  intros Hc. unfold createSession, bind. by rewrite setEx_run.
Qed.

Lemma gate_off_keys (d d' : gmap string rvalue) (a : JWTArtifacts) :
  d' !! blacklistKey (token a) = d !! blacklistKey (token a) →
  (∀ tenantId, d' !! tenantKey tenantId = d !! tenantKey tenantId) →
  (∀ tenantId userId, d' !! userKey tenantId userId = d !! userKey tenantId userId) →
  gate d' a = gate d a.
Proof.
  intros Hb Ht Hu. unfold gate. by rewrite Hb, Ht, Hu.
Qed.

(** X7. A session written by [createSession] is read back by
    [getSession] under its id, and after [deleteSession] the id gives
    null; the session bears the id, and no key but the session's own is
    written or deleted. *)
Theorem session_round_trip (uuid now : string) (tenantId userId : option jsval)
    (loginTime userAgent : option string) (s : redis) :
  connected s = true →
  JSON_parse EmptyString = None →
  json_roundtrip (JObj (newSession uuid now tenantId userId loginTime userAgent)) →
  let session := newSession uuid now tenantId userId loginTime userAgent in
  let s1 := (createSession uuid now tenantId userId loginTime userAgent s).2 in
  let s2 := (deleteSession uuid s1).2 in
  (createSession uuid now tenantId userId loginTime userAgent s).1 = Ok session
  ∧ getSession uuid s1 = (Ok (JObj session), s1)
  ∧ getSession uuid s2 = (Ok JNull, s2)
  ∧ session !! "sessionId" = Some (JStr uuid)
  ∧ (∀ key, key ≠ sessionKey uuid →
       db s1 !! key = db s !! key ∧ db s2 !! key = db s !! key).
Proof.
  intros Hc Hempty Hrt session s1 s2. subst session s1 s2.
  rewrite createSession_run by done. simpl.
  unfold deleteSession. rewrite del_run by done. simpl.
  split; [done|]. split; [|split; [|split]].
  - rewrite getSession_run by done. simpl.
    rewrite lookup_insert_eq, stringify_nonempty by done. by rewrite Hrt.
  - rewrite getSession_run by done. simpl. by rewrite lookup_delete_eq.
  - unfold newSession. by rewrite lookup_insert_eq.
  - intros key Hkey.
    rewrite lookup_delete_ne, lookup_insert_ne by done. done.
Qed.

(** X8. Sessions do not take part in authentication: whatever sessions
    are created or deleted, on whatever store, [validate] and the
    strategy answer every token as before. *)
Theorem sessions_do_not_gate (s : redis) :
  (∀ uuid now tenantId userId loginTime userAgent a bearer,
     let s1 := (createSession uuid now tenantId userId loginTime userAgent s).2 in
     (validate a s1).1 = (validate a s).1
     ∧ (authenticate bearer s1).1 = (authenticate bearer s).1)
  ∧ (∀ sessionId a bearer,
       let s1 := (deleteSession sessionId s).2 in
       (validate a s1).1 = (validate a s).1
       ∧ (authenticate bearer s1).1 = (authenticate bearer s).1).
Proof.
  assert (∀ s1 : redis,
            connected s1 = connected s →
            (∀ a, gate (db s1) a = gate (db s) a) →
            ∀ a bearer, (validate a s1).1 = (validate a s).1
                        ∧ (authenticate bearer s1).1 = (authenticate bearer s).1)
    as Hsame.
  { intros s1 Hconn Hgate a bearer. split.
    - rewrite !validate_run. simpl. by rewrite Hconn, Hgate.
    - unfold authenticate. destruct (JWT_verify bearer) as [payload|]; [|done].
      unfold bind. rewrite !validate_run. rewrite Hconn, Hgate.
      by destruct (if connected s then _ else _). }
  destruct (connected s) eqn:Hc.
  - split.
    + intros. subst s1. rewrite createSession_run by done.
      apply Hsame; [done|]. intros a'. simpl.
      apply gate_off_keys; intros; rewrite lookup_insert_ne;
        auto using sessionKey_ne_blacklistKey, sessionKey_ne_tenantKey,
                   sessionKey_ne_userKey.
    + intros. subst s1. unfold deleteSession. rewrite del_run by done.
      apply Hsame; [done|]. intros a'. simpl.
      apply gate_off_keys; intros; rewrite lookup_delete_ne;
        auto using sessionKey_ne_blacklistKey, sessionKey_ne_tenantKey,
                   sessionKey_ne_userKey.
  - split; intros; subst s1.
    + unfold createSession, bind, Redis.setEx. by rewrite command_down.
    + unfold deleteSession, Redis.del. by rewrite command_down.
Qed.

End SessionsAndLogout.

(** ** Logout *)

Section Logout.
Context `{Externals}.

Lemma logout_handler_run (credentials : AuthCredentials) (header : string)
    (s : redis) :
  connected s = true → header ≠ EmptyString →
  logout_handler credentials (Some header) s
  = (Ok {| code := 200; body := <["message" := JStr "Logout successful"]> ∅ |},
     with_db s
       (<[blacklistKey (JS.interp (JStr <$> split_on " "%char header !! 1%nat))
          := RString "true"]> (db s))).
Proof.
  intros Hc Hne. apply String.eqb_neq in Hne.
  unfold logout_handler, try_catch, bind, blacklistToken. simpl.
  rewrite Hne. simpl. by rewrite setEx_run.
Qed.

Lemma validate_off_blacklist (a : JWTArtifacts) (token' : string) (v : rvalue)
    (s : redis) :
  token a ≠ token' →
  (validate a (with_db s (<[blacklistKey token' := v]> (db s)))).1
  = (validate a s).1.
Proof.
  intros Hne. rewrite !validate_run. simpl. f_equal.
  destruct (connected s); [|done].
  apply gate_off_keys; intros; rewrite lookup_insert_ne;
    auto using blacklistKey_ne_tenantKey, blacklistKey_ne_userKey.
  intros Heq. by apply blacklistKey_inj in Heq.
Qed.

(** X9. Logout with the header [Bearer <token>] answers 200 and
    blacklists that token: right afterwards [validate] refuses it
    whatever its payload and the strategy answers 401; every other token
    is judged as before, and no key but the token's blacklist entry is
    written. *)
Theorem logout_revokes_the_token (credentials : AuthCredentials)
    (bearer : string) (s : redis) :
  connected s = true → space_free bearer = true →
  let s1 := (logout_handler credentials (Some ("Bearer " +:+ bearer)) s).2 in
  (logout_handler credentials (Some ("Bearer " +:+ bearer)) s).1
    = Ok {| code := 200; body := <["message" := JStr "Logout successful"]> ∅ |}
  ∧ blacklisted s1 bearer
  ∧ (∀ payload,
       (validate {| decoded_payload := payload; token := bearer |} s1).1 = Ok Invalid)
  ∧ (∃ message, (authenticate bearer s1).1 = Throw (Boom 401 message))
  ∧ (∀ a, token a ≠ bearer → (validate a s1).1 = (validate a s).1)
  ∧ (∀ key, key ≠ blacklistKey bearer → db s1 !! key = db s !! key).
Proof.
  intros Hc Hfree s1. subst s1.
  rewrite logout_handler_run by done.
  assert (split_on " "%char ("Bearer " +:+ bearer) !! 1%nat = Some bearer) as ->.
  { simpl. by rewrite split_on_space_free. }
  simpl. split; [done|]. split; [|split; [|split; [|split]]].
  - unfold blacklisted. simpl. by rewrite lookup_insert_eq.
  - intros payload. rewrite validate_run. simpl. rewrite Hc.
    unfold gate. simpl. by rewrite lookup_insert_eq.
  - unfold authenticate. destruct (JWT_verify bearer) as [payload|]; [|by eexists].
    unfold bind. rewrite validate_run. simpl. rewrite Hc.
    unfold gate. simpl. rewrite lookup_insert_eq. by eexists.
  - intros a Ha. by apply validate_off_blacklist.
  - intros key Hkey. by rewrite lookup_insert_ne.
Qed.

(** X10. The logout handler lets nothing out but a 500: without an
    Authorization header, or with an empty one, its own 401 is caught
    and becomes [Failed to logout], as does an unreachable store, and
    nothing is written. A header of one word blacklists the text
    [undefined], and a header with two spaces after the scheme
    blacklists the empty token: in both cases the answer is 200 and the
    token presented is judged as before. *)
Theorem logout_handler_edge_cases (credentials : AuthCredentials) (s : redis) :
  (∀ header, JS.truthy_str header = false →
     logout_handler credentials header s = (Throw (Boom 500 "Failed to logout"), s))
  ∧ (connected s = false →
     ∀ header, logout_handler credentials header s
               = (Throw (Boom 500 "Failed to logout"), s))
  ∧ (connected s = true →
     ∀ word, space_free word = true → word ≠ EmptyString →
       logout_handler credentials (Some word) s
       = (Ok {| code := 200; body := <["message" := JStr "Logout successful"]> ∅ |},
          with_db s (<[blacklistKey "undefined" := RString "true"]> (db s)))
       ∧ (∀ a, token a ≠ "undefined" →
            (validate a (logout_handler credentials (Some word) s).2).1
            = (validate a s).1))
  ∧ (connected s = true →
     ∀ bearer, bearer ≠ EmptyString →
       logout_handler credentials (Some ("Bearer  " +:+ bearer)) s
       = (Ok {| code := 200; body := <["message" := JStr "Logout successful"]> ∅ |},
          with_db s (<[blacklistKey EmptyString := RString "true"]> (db s)))
       ∧ (∀ payload,
            (validate {| decoded_payload := payload; token := bearer |}
               (logout_handler credentials (Some ("Bearer  " +:+ bearer)) s).2).1
            = (validate {| decoded_payload := payload; token := bearer |} s).1)).
Proof.
  split; [|split; [|split]].
  - intros header Hheader. unfold logout_handler, try_catch. by rewrite Hheader.
  - intros Hc header. unfold logout_handler, try_catch.
    destruct (JS.truthy_str header); simpl; [|done].
    unfold bind, blacklistToken, Redis.setEx. by rewrite command_down.
  - intros Hc word Hfree Hne.
    rewrite logout_handler_run by done.
    rewrite split_on_space_free by done. simpl. split; [done|].
    intros a Ha. by apply validate_off_blacklist.
  - intros Hc bearer Hne.
    rewrite logout_handler_run by done.
    assert (split_on " "%char ("Bearer  " +:+ bearer) !! 1%nat = Some EmptyString) as ->.
    { reflexivity. }
    simpl. split; [done|].
    intros payload. by apply validate_off_blacklist.
Qed.

End Logout.

(** ** Login *)

Lemma bind_read_only_case {A B} (m : M A) (k : A → M B)
    (Q : result B * redis → Prop) (s : redis) :
  read_only m → (∀ e, Q (Throw e, s)) → (∀ a, Q (k a s)) → Q (bind m k s).
Proof.
  intros Hm Hthrow Hk. unfold bind. specialize (Hm s).
  destruct (m s) as [[a|e] s']; simpl in Hm; subst s'; auto.
Qed.

Section Login.
Context `{Externals}.

Lemma read_only_verifyPassword (password hashed : string) :
  read_only (verifyPassword password hashed).
Proof. apply read_only_ret. Qed.

(** The first step of login: the tenant by id when an id is given,
    else by domain when a domain is given. *)
Lemma read_only_login_tenant (payload : LoginPayload) :
  read_only
    (if JS.truthy_str (login_tenantId payload)
     then let* t := getTenant (default EmptyString (login_tenantId payload)) in ret (Some t)
     else if JS.truthy_str (login_domain payload)
     then let* t := getTenantByDomain (default EmptyString (login_domain payload)) in
          ret (Some t)
     else ret None).
Proof.
  destruct (JS.truthy_str (login_tenantId payload)).
  - apply read_only_bind; [apply read_only_getTenant|]. intros. apply read_only_ret.
  - destruct (JS.truthy_str (login_domain payload)); [|apply read_only_ret].
    apply read_only_bind; [apply read_only_getTenantByDomain|].
    intros. apply read_only_ret.
Qed.

(** X11. Whatever the payload and the store, login either throws a Boom
    error and leaves the store as it was, or answers 200 with a user
    that has no password, having written the session of the call and
    nothing else. *)
Theorem login_writes_the_session_only (sessionUuid loginTime sessionNow : string)
    (userAgent : option string) (payload : LoginPayload) (s : redis) :
  match login_handler sessionUuid loginTime sessionNow userAgent payload s with
  | (Throw e, s') => s' = s ∧ ∃ status message, e = Boom status message
  | (Ok reply, s') =>
      (∃ text, s' = with_db s (<[sessionKey sessionUuid := RString text]> (db s)))
      ∧ code reply = 200
      ∧ (∃ user, body reply !! "user" = Some (JObj user) ∧ user !! "password" = None)
      ∧ is_Some (body reply !! "token")
  end.
Proof.
  set (Q := λ out : result Reply * redis,
         match out with
         | (Throw e, s') => s' = s
         | (Ok reply, s') =>
             (∃ text, s' = with_db s (<[sessionKey sessionUuid := RString text]> (db s)))
             ∧ code reply = 200
             ∧ (∃ user, body reply !! "user" = Some (JObj user)
                        ∧ user !! "password" = None)
             ∧ is_Some (body reply !! "token")
         end).
  unfold login_handler, try_catch.
  match goal with
  | |- context [match ?b s with _ => _ end] => assert (Q (b s)) as Hbody
  end.
  { apply bind_read_only_case; [apply read_only_login_tenant|done|].
    intros [tenant|]; [|done].
    destruct (negb (JS.truthy tenant)); [done|].
    apply bind_read_only_case; [apply read_only_lift|done|]. intros tenantStatus.
    destruct (negb (JS.is_str tenantStatus "active")); [done|].
    apply bind_read_only_case; [apply read_only_lift|done|]. intros tenantId.
    apply bind_read_only_case; [apply read_only_getUserByEmail|done|]. intros user.
    destruct (negb (JS.truthy user)); [done|].
    apply bind_read_only_case; [apply read_only_lift|done|]. intros hashed.
    apply bind_read_only_case.
    { destruct hashed as [[]|];
        first [apply read_only_verifyPassword|apply read_only_throw]. }
    { done. }
    intros isValid. destruct (negb isValid); [done|].
    apply bind_read_only_case; [apply read_only_lift|done|]. intros userStatus.
    destruct (negb (JS.is_str userStatus "active")); [done|].
    unfold bind at 1, lift at 1.
    destruct (JS.rest_without "password" user) as [userWithoutPassword|e] eqn:Hrest;
      [|done].
    apply bind_read_only_case; [apply read_only_lift|done|]. intros userId.
    unfold bind.
    destruct (connected s) eqn:Hc.
    - rewrite createSession_run by done. simpl.
      split; [by eexists|]. split; [done|]. split; [|by simplify_map_eq].
      exists userWithoutPassword. split; [by simplify_map_eq|].
      destruct user; simplify_eq/=; apply lookup_delete_eq.
    - unfold createSession, bind, Redis.setEx. by rewrite command_down. }
  match goal with
  | |- context [match ?b s with _ => _ end] => destruct (b s) as [[reply|e] s']
  end; simpl in Hbody; [done|]. subst s'.
  destruct e; simpl; split; eauto.
Qed.

End Login.

(** ** Passwords and an unreachable store *)

Section Guards.
Context `{Externals}.

(** X12. Login into an active tenant: an email that is not indexed and
    a password that bcrypt refuses get the same 401 and write nothing;
    a password that bcrypt accepts, for an active user, gets 200 with a
    token made from the stored user and the tenant id of the stored
    tenant, the user without its password, and the id of the session,
    which [getSession] then finds. *)
Theorem login_checks_the_password (sessionUuid loginTime sessionNow : string)
    (userAgent : option string) (payload : LoginPayload) (s : redis)
    (tenantId text : string) (tenant : obj) :
  connected s = true →
  login_tenantId payload = Some tenantId → tenantId ≠ EmptyString →
  db s !! tenantKey tenantId = Some (RString text) → text ≠ EmptyString →
  JSON_parse text = Some (JObj tenant) →
  tenant !! "status" = Some (JStr "active") →
  let stored := JS.interp (tenant !! "tenantId") in
  let login := login_handler sessionUuid loginTime sessionNow userAgent payload in
  (db s !! emailKey stored (login_email payload) = None →
   login s = (Throw (Boom 401 "Invalid credentials"), s))
  ∧ (∀ userId userText user hashed,
       db s !! emailKey stored (login_email payload) = Some (RString userId) →
       userId ≠ EmptyString →
       db s !! userKey stored userId = Some (RString userText) →
       userText ≠ EmptyString →
       JSON_parse userText = Some (JObj user) →
       user !! "password" = Some (JStr hashed) →
       (bcrypt_compare (login_password payload) hashed = false →
        login s = (Throw (Boom 401 "Invalid credentials"), s))
       ∧ (bcrypt_compare (login_password payload) hashed = true →
          user !! "status" = Some (JStr "active") →
          ∃ reply s',
            login s = (Ok reply, s')
            ∧ code reply = 200
            ∧ body reply !! "token"
              = Some (JStr (generateToken (delete "password" user)
                              (tenant !! "tenantId")))
            ∧ body reply !! "user" = Some (JObj (delete "password" user))
            ∧ body reply !! "sessionId" = Some (JStr sessionUuid)
            ∧ (JSON_parse EmptyString = None →
               json_roundtrip
                 (JObj (newSession sessionUuid sessionNow (tenant !! "tenantId")
                          (user !! "userId") (Some loginTime) userAgent)) →
               getSession sessionUuid s'
               = (Ok (JObj (newSession sessionUuid sessionNow (tenant !! "tenantId")
                              (user !! "userId") (Some loginTime) userAgent)), s')))).
Proof.
  intros Hc Hid Hne Hrec Htext Hparse Hactive stored login. subst stored login.
  apply String.eqb_neq in Hne, Htext.
  assert (∀ K : jsval → M Reply,
            (let* t := (if JS.truthy_str (login_tenantId payload)
                        then let* t := getTenant (default EmptyString
                                                    (login_tenantId payload)) in
                             ret (Some t)
                        else if JS.truthy_str (login_domain payload)
                        then let* t := getTenantByDomain
                                         (default EmptyString (login_domain payload)) in
                             ret (Some t)
                        else ret None) in
             match t with
             | None => throw (Boom 404 "Tenant not found")
             | Some t => K t
             end) s = K (JObj tenant) s) as Hstart.
  { intros K. unfold bind. rewrite Hid. simpl. rewrite Hne. simpl.
    by rewrite (getTenant_run _ _ Hc), Hrec, Htext, Hparse. }
  split.
  - intros Hnone. unfold login_handler, try_catch. rewrite Hstart.
    unfold bind. simpl. rewrite Hactive. simpl.
    by rewrite (getUserByEmail_run _ _ _ Hc), Hnone.
  - intros userId userText user hashed Hidx Huid Hurec Hutext Huparse Hpw.
    apply String.eqb_neq in Huid, Hutext.
    split.
    + intros Hcmp. unfold login_handler, try_catch. rewrite Hstart.
      unfold bind. simpl. rewrite Hactive. simpl.
      rewrite (getUserByEmail_run _ _ _ Hc), Hidx, Huid, Hurec, Hutext, Huparse.
      simpl. rewrite Hpw. unfold verifyPassword, ret. by rewrite Hcmp.
    + intros Hcmp Hstatus. eexists _, _. split.
      { unfold login_handler, try_catch. rewrite Hstart.
        unfold bind. simpl. rewrite Hactive. simpl.
        rewrite (getUserByEmail_run _ _ _ Hc), Hidx, Huid, Hurec, Hutext, Huparse.
        simpl. rewrite Hpw. unfold verifyPassword, ret. rewrite Hcmp. simpl.
        rewrite Hstatus. simpl.
        rewrite createSession_run by done. reflexivity. }
      simpl. split; [done|]. split; [by simplify_map_eq|].
      split; [by simplify_map_eq|]. split.
      * unfold newSession. rewrite lookup_insert_eq. simpl.
        by simplify_map_eq.
      * intros Hempty Hrt. rewrite getSession_run by done. simpl.
        rewrite lookup_insert_eq, stringify_nonempty by done. by rewrite Hrt.
Qed.

Lemma authenticate_run (bearer : string) (s : redis) :
  authenticate bearer s
  = (match JWT_verify bearer with
     | None => Throw (Boom 401 (JWT_refusal bearer))
     | Some payload =>
         match (if connected s
                then gate (db s) {| decoded_payload := payload; token := bearer |}
                else Invalid) with
         | Invalid => Throw (Boom 401 "Invalid credentials")
         | Valid credentials => Ok credentials
         end
     end, s).
Proof.
  unfold authenticate. destruct (JWT_verify bearer) as [payload|]; [|done].
  unfold bind. rewrite validate_run.
  by destruct (if connected s then _ else _).
Qed.

(** X14. While the store cannot be reached, the handlers of
    routes/auth.ts answer 500 with their own message, the strategy
    refuses every token with 401, and nothing is written; login without
    a tenant id and without a domain answers 404 as it does on a
    reachable store. *)
Theorem handlers_on_unreachable_store (s : redis) :
  connected s = false →
  (∀ tenantUuid tenantNow userUuid userNow payload,
     register_handler tenantUuid tenantNow userUuid userNow payload s
     = (Throw (Boom 500 "Failed to register tenant"), s))
  ∧ (∀ sessionUuid loginTime sessionNow userAgent payload,
       login_handler sessionUuid loginTime sessionNow userAgent payload s
       = (Throw (if JS.truthy_str (login_tenantId payload)
                    || JS.truthy_str (login_domain payload)
                 then Boom 500 "Failed to login"
                 else Boom 404 "Tenant not found"), s))
  ∧ (∀ uuid now credentials userData,
       createUser_handler uuid now credentials userData s
       = (Throw (Boom 500 "Failed to create user"), s))
  ∧ (∀ credentials,
       me_handler credentials s
       = (Throw (Boom 500 "Failed to get user information"), s))
  ∧ (∀ credentials,
       getUsers_handler credentials s = (Throw (Boom 500 "Failed to get users"), s))
  ∧ (∀ bearer, ∃ message, authenticate bearer s = (Throw (Boom 401 message), s)).
Proof.
  intros Hc.
  split; [|split; [|split; [|split; [|split]]]].
  - intros. unfold register_handler, try_catch, bind, getTenantByDomain, bind,
      Redis.get. by rewrite command_down.
  - intros. unfold login_handler, try_catch, bind.
    destruct (JS.truthy_str (login_tenantId payload)); simpl.
    { unfold getTenant, bind, Redis.get. by rewrite command_down. }
    destruct (JS.truthy_str (login_domain payload)); simpl; [|done].
    unfold getTenantByDomain, bind, Redis.get. by rewrite command_down.
  - intros. unfold createUser_handler, try_catch, bind, getUserByEmail, bind,
      Redis.get. by rewrite command_down.
  - intros. unfold me_handler, try_catch, bind, getTenant, bind, Redis.get.
    by rewrite command_down.
  - intros. unfold getUsers_handler, try_catch, bind, getAllUsers, bind,
      Redis.sMembers. by rewrite command_down.
  - intros bearer. rewrite authenticate_run, Hc.
    destruct (JWT_verify bearer); by eexists.
Qed.

End Guards.

(** ** The key templates *)

Lemma tenantKey_ne_scoped (tenantId t x : string) :
  colon_free tenantId = true →
  tenantKey tenantId ≠ "tenant:" +:+ t +:+ String ":"%char x.
Proof.
  unfold tenantKey. simpl. intros Hfree Heq. simplify_eq.
  rewrite colon_free_app in Hfree. simpl in Hfree.
  by rewrite andb_false_r in Hfree.
Qed.

Lemma domainKey_ne_scoped (domain t x : string) :
  colon_free t = true → t ≠ "domain" →
  domainKey domain ≠ "tenant:" +:+ t +:+ String ":"%char x.
Proof.
  unfold domainKey. simpl. intros Hfree Hne Heq. simplify_eq.
  destruct (colon_split "domain" t domain x) as [Ht _]; [done|done|done|].
  by apply Hne.
Qed.

Lemma tenantsAllKey_ne_scoped (t x : string) :
  tenantsAllKey ≠ "tenant:" +:+ t +:+ String ":"%char x.
Proof.
  unfold tenantsAllKey. simpl. intros Heq. simplify_eq.
Qed.

(** X15. The keys one registration and one login touch are pairwise
    distinct when the tenant id and the user id are non-empty, hold no
    colon, and the tenant id is not the word [domain]. The conditions are
    needed: the templates overlap, the email index of a tenant lying
    inside its user keys and the domain index inside the tenant keys. *)
Theorem key_templates_apart (tenantId userId domain email token sessionId : string) :
  uuid_like tenantId = true → uuid_like userId = true → tenantId ≠ "domain" →
  NoDup [tenantKey tenantId; domainKey domain; tenantsAllKey;
         userKey tenantId userId; usersKey tenantId; emailKey tenantId email;
         blacklistKey token; sessionKey sessionId]
  ∧ emailKey tenantId email = userKey tenantId ("email:" +:+ email)
  ∧ domainKey domain = tenantKey ("domain:" +:+ domain)
  ∧ userKey "domain" userId = domainKey ("user:" +:+ userId)
  ∧ userKey tenantId userId = tenantKey (tenantId +:+ ":user:" +:+ userId).
Proof.
  intros Ht Hu Hdom.
  pose proof (uuid_like_colon_free _ Ht) as Htf.
  pose proof (uuid_like_colon_free _ Hu) as Huf.
  split; [|split; [|split; [|split]]].
  - repeat (apply NoDup_cons; split); [..|apply NoDup_nil_2];
      rewrite ?not_elem_of_cons; repeat split; try apply not_elem_of_nil.
    all: try (by apply tenantKey_ne_domainKey).
    all: try (apply tenantKey_ne_tenantsAllKey).
    all: try (by apply tenantKey_ne_scoped).
    all: try (by apply domainKey_ne_scoped).
    all: try (apply domainKey_ne_tenantsAllKey).
    all: try (apply tenantsAllKey_ne_scoped).
    all: try (apply userKey_ne_usersKey).
    all: try (by apply userKey_ne_emailKey).
    all: try (by apply usersKey_ne_emailKey).
    all: try (apply not_eq_sym, blacklistKey_ne_tenantKey).
    all: try (apply not_eq_sym, sessionKey_ne_tenantKey).
    all: try (apply not_eq_sym, sessionKey_ne_blacklistKey).
    all: try (unfold blacklistKey, sessionKey, tenantKey, domainKey, tenantsAllKey,
              userKey, usersKey, emailKey; simpl; congruence).
  - reflexivity.
  - reflexivity.
  - reflexivity.
  - unfold userKey, tenantKey. reflexivity.
Qed.

(** ** From registration to the first request *)

Lemma blacklistKey_ne_scoped (token t x : string) :
  blacklistKey token ≠ "tenant:" +:+ t +:+ x.
Proof. unfold blacklistKey. simpl. congruence. Qed.

Lemma blacklistKey_ne_domainKey (token domain : string) :
  blacklistKey token ≠ domainKey domain.
Proof. unfold blacklistKey, domainKey. simpl. congruence. Qed.

Lemma blacklistKey_ne_tenantsAllKey (token : string) :
  blacklistKey token ≠ tenantsAllKey.
Proof. unfold blacklistKey, tenantsAllKey. simpl. congruence. Qed.

Section Registration.
Context `{Externals}.

(** The keyspace after [createTenant] and [createUser] of the admin. *)
Lemma register_run (tenantUuid tenantNow userUuid userNow : string)
    (payload : RegisterPayload) (s : redis) :
  let tenantData := {| tenant_name := reg_tenantName payload;
                       tenant_domain := reg_domain payload;
                       tenant_settings := None |} in
  let userData := {| user_username := reg_username payload;
                     user_email := reg_email payload;
                     user_password := reg_password payload;
                     user_role := Some "admin" |} in
  let tenant := newTenant tenantUuid tenantNow tenantData in
  let user := newUser userUuid userNow tenantUuid userData in
  connected s = true →
  db s !! domainKey (reg_domain payload) = None →
  set_or_absent (db s) tenantsAllKey →
  set_or_absent (db s) (usersKey tenantUuid) →
  uuid_like tenantUuid = true → tenantUuid ≠ "domain" →
  ∃ d1,
    register_handler tenantUuid tenantNow userUuid userNow payload s
    = (Ok {| code := 201;
             body := <["message" := JStr "Tenant and admin user created successfully"]>
                     (<["tenant" := JObj (tenantSummary tenant)]>
                     (<["user" := JObj (delete "password" user)]>
                     (<["token" := JStr (generateToken (delete "password" user)
                                           (Some (JStr tenantUuid)))]> ∅))) |},
       with_db s d1)
    ∧ d1 !! tenantKey tenantUuid = Some (RString (JSON_stringify (JObj tenant)))
    ∧ (uuid_like userUuid = true →
       d1 !! userKey tenantUuid userUuid
       = Some (RString (JSON_stringify (JObj user))))
    ∧ (∀ token, d1 !! blacklistKey token = db s !! blacklistKey token).
Proof.
  intros tenantData userData tenant user Hc Hnone Hall Husers Ht Hdom.
  pose proof (uuid_like_colon_free _ Ht) as Htf.
  set (d0 := (if negb (String.eqb (tenant_domain tenantData) EmptyString)
              then <[domainKey (tenant_domain tenantData) := RString tenantUuid]>
              else id)
               (<[tenantsAllKey := RSet ({[ tenantUuid ]} ∪ members (db s) tenantsAllKey)]>
                  (<[tenantKey tenantUuid := RString (JSON_stringify (JObj tenant))]>
                     (db s)))).
  assert (∀ key, key ≠ domainKey (reg_domain payload) → key ≠ tenantsAllKey →
                 d0 !! key = <[tenantKey tenantUuid :=
                                 RString (JSON_stringify (JObj tenant))]> (db s) !! key)
    as Hd0.
  { intros key Hk1 Hk2. subst d0. simpl.
    destruct (negb _); simpl.
    - by rewrite !lookup_insert_ne by (by apply not_eq_sym).
    - by rewrite lookup_insert_ne by (by apply not_eq_sym). }
  exists (created userUuid userNow tenantUuid userData d0).
  split; [|split; [|split]].
  - unfold register_handler, try_catch, bind.
    rewrite getTenantByDomain_run, Hnone by done. simpl.
    rewrite createTenant_run by done. fold tenantData tenant d0.
    assert (JS.interp (tenant !! "tenantId") = tenantUuid) as ->.
    { subst tenant. unfold newTenant. by rewrite lookup_insert_eq. }
    assert (tenant !! "tenantId" = Some (JStr tenantUuid)) as ->.
    { subst tenant. unfold newTenant. by rewrite lookup_insert_eq. }
    rewrite createUser_run; [done|done|]. simpl.
    intros text. rewrite Hd0.
    + rewrite lookup_insert_ne; [apply Husers|]. by apply tenantKey_ne_scoped.
    + apply not_eq_sym. by apply domainKey_ne_scoped.
    + apply not_eq_sym, tenantsAllKey_ne_scoped.
  - unfold created.
    rewrite lookup_insert_ne by (apply not_eq_sym; by apply tenantKey_ne_scoped).
    rewrite lookup_insert_ne by (apply not_eq_sym; by apply tenantKey_ne_scoped).
    rewrite lookup_insert_ne by (apply not_eq_sym; by apply tenantKey_ne_scoped).
    rewrite Hd0; [by rewrite lookup_insert_eq| |apply tenantKey_ne_tenantsAllKey].
    by apply tenantKey_ne_domainKey.
  - intros Hu. pose proof (uuid_like_colon_free _ Hu) as Huf. unfold created.
    rewrite lookup_insert_ne by (apply not_eq_sym; by apply userKey_ne_emailKey).
    rewrite lookup_insert_ne by (apply not_eq_sym, userKey_ne_usersKey).
    by rewrite lookup_insert_eq.
  - intros token. unfold created.
    rewrite !lookup_insert_ne by (apply not_eq_sym, blacklistKey_ne_scoped).
    rewrite Hd0; [|apply blacklistKey_ne_domainKey|apply blacklistKey_ne_tenantsAllKey].
    rewrite lookup_insert_ne; [done|].
    apply not_eq_sym, blacklistKey_ne_tenantKey.
Qed.

(** X16. A registration under a domain that is not yet indexed answers
    201 with a token; on the store it leaves, the strategy accepts that
    token with a Principal of the new tenant whose scope is [admin; user]
    and whose user is the admin without its password, and the [me]
    handler answers that user with the summary of the new tenant. *)
Theorem register_then_me (tenantUuid tenantNow userUuid userNow : string)
    (payload : RegisterPayload) (decoded : obj) (s : redis) :
  let tenant := newTenant tenantUuid tenantNow
                  {| tenant_name := reg_tenantName payload;
                     tenant_domain := reg_domain payload;
                     tenant_settings := None |} in
  let user := newUser userUuid userNow tenantUuid
                {| user_username := reg_username payload;
                   user_email := reg_email payload;
                   user_password := reg_password payload;
                   user_role := Some "admin" |} in
  let bearer := generateToken (delete "password" user) (Some (JStr tenantUuid)) in
  let expected := {| cred_user := delete "password" user;
                      cred_tenantId := Some (JStr tenantUuid);
                      cred_scope := ["admin"; "user"] |} in
  connected s = true →
  db s !! domainKey (reg_domain payload) = None →
  set_or_absent (db s) tenantsAllKey →
  set_or_absent (db s) (usersKey tenantUuid) →
  uuid_like tenantUuid = true → uuid_like userUuid = true →
  tenantUuid ≠ "domain" →
  JSON_parse EmptyString = None →
  json_roundtrip (JObj tenant) → json_roundtrip (JObj user) →
  JWT_verify bearer = Some decoded →
  tokenClaims (delete "password" user) (Some (JStr tenantUuid)) ⊆ decoded →
  ¬ blacklisted s bearer →
  ∃ reply s1,
    register_handler tenantUuid tenantNow userUuid userNow payload s = (Ok reply, s1)
    ∧ code reply = 201
    ∧ body reply !! "token" = Some (JStr bearer)
    ∧ authenticate bearer s1 = (Ok expected, s1)
    ∧ me_handler expected s1
      = (Ok {| code := 200;
               body := <["user" := JObj (delete "password" user)]>
                       (<["tenant" := JObj (tenantSummary tenant)]> ∅) |}, s1).
Proof.
  intros tenant user bearer expected Hc Hnone Hall Husers Ht Hu Hdom Hempty
    Hrt Hru Hverify Hclaims Hbl.
  destruct (register_run tenantUuid tenantNow userUuid userNow payload s
              Hc Hnone Hall Husers Ht Hdom) as (d1 & Hrun & Htenant & Huser & Hblack).
  specialize (Huser Hu). fold tenant in Hrun, Htenant. fold user in Hrun, Huser.
  fold bearer in Hrun.
  eexists _, _. split; [exact Hrun|]. simpl.
  split; [done|]. split; [by simplify_map_eq|].
  assert (decoded !! "tenantId" = Some (JStr tenantUuid)) as Hdt.
  { eapply lookup_weaken; [|exact Hclaims]. apply tokenClaims_tenantId. }
  assert (decoded !! "userId" = Some (JStr userUuid)) as Hdu.
  { eapply lookup_weaken; [|exact Hclaims]. rewrite tokenClaims_userId.
    subst user. unfold newUser. by simplify_map_eq. }
  split.
  - rewrite authenticate_run, Hverify. simpl. rewrite Hc.
    unfold gate. simpl. rewrite Hdt, Hdu. simpl.
    rewrite Hblack.
    destruct (db s !! blacklistKey bearer) eqn:Hb.
    { exfalso. apply Hbl. unfold blacklisted. rewrite Hb. eauto. }
    rewrite Htenant, Huser, stringify_nonempty by done. rewrite Hru.
    unfold principal at 1. simpl. rewrite Hdt.
    subst expected user. unfold newUser. by simplify_map_eq.
  - unfold me_handler, try_catch, bind. simpl.
    rewrite getTenant_run by done. simpl.
    rewrite Htenant, stringify_nonempty by done. by rewrite Hrt.
Qed.

End Registration.

(** ** The routes of routes/llm.ts *)

Section Traffic.
Context `{Externals}.
Variable upstream : Upstream.

Lemma chat_calls (request : OllamaChatRequest) (tenantId : option jsval) :
  (chat upstream request tenantId).2 = [PostChat (with_stream request (Some false))].
Proof.
  unfold chat, try_catchP, bindP, retP, throwP, liftP. simpl.
  destruct (post_chat upstream _) as [data|e] eqn:Hpost; simpl.
  - by destruct data.
  - by destruct e.
Qed.

Lemma chat_handler_calls (credentials : AuthCredentials)
    (headerTenantId : option string) (chatRequest : OllamaChatRequest) :
  let out := chat_handler upstream credentials headerTenantId chatRequest in
  (∃ c m, out = (Throw (Boom c m), []))
  ∨ (JS.strict_eq_str headerTenantId (cred_tenantId credentials) = true
     ∧ out.2 = [PostChat (with_stream chatRequest (Some false))]
     ∧ (∀ e, out.1 = Throw e → ∃ c m, e = Boom c m)).
Proof.
  intros out. subst out. unfold chat_handler, try_catchP.
  destruct (JS.strict_eq_str headerTenantId (cred_tenantId credentials)) eqn:Hh;
    simpl; [|left; by eexists _, _].
  right. split; [done|].
  unfold bindP at 1.
  pose proof (chat_calls
                (match chat_stream chatRequest with
                 | Some true => with_stream chatRequest (Some false)
                 | _ => chatRequest
                 end) (cred_tenantId credentials)) as Hcalls.
  rewrite sent_request_handler in Hcalls.
  destruct (chat upstream _ _) as [[response|e] calls]; simpl in Hcalls; subst calls.
  - unfold liftP, bindP, retP. destruct response; simpl; split; try done.
    all: intros e He; simplify_eq; by eexists _, _.
  - unfold rethrow_boomP, throwP. destruct e; simpl; split; try done.
    all: intros e' He; simplify_eq; by eexists _, _.
Qed.

(** X17. Whatever the Principal, the header and the payload, the chat
    route calls the inference service at most once, with the model,
    messages and options of the payload and [stream] set to false, and
    only for a header that is a uuid and equals the tenant of the
    Principal and a payload that passes the request schema; the models
    route makes at most the one [GET /api/tags], under the same
    condition on the header. Neither route lets out an error that is not
    a Boom error. *)
Theorem llm_routes_traffic (credentials : AuthCredentials)
    (headerTenantId : option string) (payload : OllamaChatRequest) :
  let chatOut := chat_route upstream credentials headerTenantId payload in
  let modelsOut := models_route upstream credentials headerTenantId in
  (chatOut.2 = [] ∨ chatOut.2 = [PostChat (with_stream payload (Some false))])
  ∧ (chatOut.2 ≠ [] →
     JS.strict_eq_str headerTenantId (cred_tenantId credentials) = true
     ∧ (∃ h, headerTenantId = Some h ∧ Joi_uuid h = true)
     ∧ chatRequestSchema payload = true)
  ∧ (∀ e, chatOut.1 = Throw e → ∃ c m, e = Boom c m)
  ∧ (modelsOut.2 = [] ∨ modelsOut.2 = [GetTags])
  ∧ (modelsOut.2 ≠ [] →
     JS.strict_eq_str headerTenantId (cred_tenantId credentials) = true
     ∧ ∃ h, headerTenantId = Some h ∧ Joi_uuid h = true)
  ∧ (∀ e, modelsOut.1 = Throw e → ∃ c m, e = Boom c m).
Proof.
  intros chatOut modelsOut. subst chatOut modelsOut.
  assert (∀ A (out : P A), (∃ h, headerTenantId = Some h ∧ Joi_uuid h = true)
            ∨ (let+ _ := validate_headers headerTenantId in out)
              = (Throw (Boom 400 "Invalid request headers input"), [])) as Hheaders.
  { intros A out. unfold validate_headers.
    destruct headerTenantId as [h|]; [|by right].
    destruct (Joi_uuid h) eqn:Hu; [left; by eexists|by right]. }
  assert (let out := chat_route upstream credentials headerTenantId payload in
          (∃ c m, out = (Throw (Boom c m), []))
          ∨ ((JS.strict_eq_str headerTenantId (cred_tenantId credentials) = true
              ∧ (∃ h, headerTenantId = Some h ∧ Joi_uuid h = true)
              ∧ chatRequestSchema payload = true)
             ∧ out.2 = [PostChat (with_stream payload (Some false))]
             ∧ (∀ e, out.1 = Throw e → ∃ c m, e = Boom c m))) as Hchat.
  { unfold chat_route.
    destruct (Hheaders Reply
                (if negb (chatRequestSchema payload)
                 then throwP (Boom 400 "Invalid request payload input")
                 else
                   let+ response := chat_handler upstream credentials headerTenantId
                                      (chatRequest_defaults payload) in
                   if chatResponseSchema response
                   then retP {| code := 200; body := response |}
                   else throwP (Boom 500 "An internal server error occurred")))
      as [(h & -> & Hu)|Hrefused]; [|left; by eexists _, _].
    unfold validate_headers. rewrite Hu. unfold bindP at 1, retP at 1.
    destruct (chatRequestSchema payload) eqn:Hschema; simpl; [|left; by eexists _, _].
    destruct (chat_handler_calls credentials (Some h) (chatRequest_defaults payload))
      as [(c & m & Hout)|(Hh & Hcalls & Hboom)].
    - left. rewrite Hout. by eexists _, _.
    - right. split; [by eauto|].
      change (with_stream (chatRequest_defaults payload) (Some false))
        with (with_stream payload (Some false)) in Hcalls.
      unfold bindP.
      destruct (chat_handler upstream credentials (Some h) (chatRequest_defaults payload))
        as [[response|e] calls]; simpl in *; subst calls.
      + destruct (chatResponseSchema response); simpl; split; try done.
        intros e He. simplify_eq. by eexists _, _.
      + split; [done|]. intros e' He. simplify_eq. by apply Hboom. }
  assert (let out := models_route upstream credentials headerTenantId in
          (∃ c m, out = (Throw (Boom c m), []))
          ∨ ((JS.strict_eq_str headerTenantId (cred_tenantId credentials) = true
              ∧ (∃ h, headerTenantId = Some h ∧ Joi_uuid h = true))
             ∧ out.2 = [GetTags]
             ∧ (∀ e, out.1 = Throw e → ∃ c m, e = Boom c m))) as Hmodels.
  { unfold models_route.
    destruct (Hheaders Reply
                (let+ response := models_handler upstream credentials headerTenantId in
                 retP {| code := 200; body := response |}))
      as [(h & -> & Hu)|Hrefused]; [|left; by eexists _, _].
    unfold validate_headers. rewrite Hu. unfold bindP at 1, retP at 1.
    unfold models_handler, try_catchP.
    destruct (JS.strict_eq_str (Some h) (cred_tenantId credentials)) eqn:Hh;
      simpl; [|left; by eexists _, _].
    right. split; [by eauto|].
    unfold listModels, try_catchP, bindP, liftP, retP, throwP, rethrow_boomP.
    destruct (get_tags upstream) as [data|e]; simpl.
    - destruct data; simpl; split; try done.
      all: intros e He; simplify_eq; by eexists _, _.
    - destruct e; simpl; split; try done.
      all: intros e' He; simplify_eq; by eexists _, _. }
  simpl in Hchat, Hmodels.
  split; [|split; [|split; [|split; [|split]]]].
  - destruct Hchat as [(c & m & ->)|(_ & -> & _)]; auto.
  - destruct Hchat as [(c & m & ->)|(? & _ & _)]; [done|]. by intros _.
  - destruct Hchat as [(c & m & ->)|(_ & _ & Hboom)]; [|done].
    intros e He. simplify_eq/=. by eexists _, _.
  - destruct Hmodels as [(c & m & ->)|(_ & -> & _)]; auto.
  - destruct Hmodels as [(c & m & ->)|(? & _ & _)]; [done|]. by intros _.
  - destruct Hmodels as [(c & m & ->)|(_ & _ & Hboom)]; [|done].
    intros e He. simplify_eq/=. by eexists _, _.
Qed.

End Traffic.

Section Outcomes.
Context `{Externals}.
Variable upstream : Upstream.

(** X18. The models route, for a header that is a uuid and equals the
    tenant of the Principal: the answer of the inference service comes
    back with [tenant_id] set to that tenant, replacing a [tenant_id] of
    the answer itself; when axios rejects the call the service throws
    an error that names the cause and the route answers 500 with
    [Failed to fetch models]; so it does when the service answers
    null. *)
Theorem models_route_outcomes (credentials : AuthCredentials) (tenantId : string) :
  cred_tenantId credentials = Some (JStr tenantId) →
  Joi_uuid tenantId = true →
  (∀ models,
     get_tags upstream = Ok (JObj models) →
     models_route upstream credentials (Some tenantId)
     = (Ok {| code := 200; body := <["tenant_id" := JStr tenantId]> models |},
        [GetTags]))
  ∧ (∀ message,
       get_tags upstream = Throw (AxiosError message) →
       listModels upstream
       = (Throw (Error ("Failed to fetch models: " +:+ message)), [GetTags])
       ∧ models_route upstream credentials (Some tenantId)
         = (Throw (Boom 500 "Failed to fetch models"), [GetTags]))
  ∧ (get_tags upstream = Ok JNull →
     models_route upstream credentials (Some tenantId)
     = (Throw (Boom 500 "Failed to fetch models"), [GetTags])).
Proof.
  intros Hcred Huuid.
  assert (JS.strict_eq_str (Some tenantId) (cred_tenantId credentials) = true) as Hh.
  { rewrite Hcred. apply strict_eq_str_refl. }
  split; [|split].
  - intros models Htags.
    unfold models_route, validate_headers, models_handler, listModels,
      try_catchP, bindP, liftP, retP, throwP.
    rewrite Huuid, Hh, Htags. simpl. by rewrite Hcred.
  - intros message Htags. split.
    + unfold listModels, try_catchP, bindP. by rewrite Htags.
    + unfold models_route, validate_headers, models_handler, listModels,
        try_catchP, bindP, liftP, retP, throwP.
      by rewrite Huuid, Hh, Htags.
  - intros Htags.
    unfold models_route, validate_headers, models_handler, listModels,
      try_catchP, bindP, liftP, retP, throwP.
    by rewrite Huuid, Hh, Htags.
Qed.

(** X19. Response validation of the chat route: when the inference
    service answers an object with a key that the response schema does
    not list, the route answers 500 after the call upstream, although
    the handler returned; when the service answers null, the handler
    itself fails with [Failed to process chat request]. *)
Theorem chat_route_refuses_unlisted_key (credentials : AuthCredentials)
    (tenantId : string) (payload : OllamaChatRequest) :
  cred_tenantId credentials = Some (JStr tenantId) →
  Joi_uuid tenantId = true →
  chatRequestSchema payload = true →
  (∀ response k v,
     post_chat upstream (with_stream payload (Some false)) = Ok (JObj response) →
     response !! k = Some v →
     k ∉ ["model"; "message"; "created_at"; "done"; "total_duration";
          "load_duration"; "prompt_eval_count"; "prompt_eval_duration";
          "eval_count"; "eval_duration"; "tenant_id"; "user_id"] →
     (∃ annotated,
        chat_handler upstream credentials (Some tenantId) (chatRequest_defaults payload)
        = (Ok annotated, [PostChat (with_stream payload (Some false))]))
     ∧ chat_route upstream credentials (Some tenantId) payload
     = (Throw (Boom 500 "An internal server error occurred"),
        [PostChat (with_stream payload (Some false))]))
  ∧ (post_chat upstream (with_stream payload (Some false)) = Ok JNull →
     chat_route upstream credentials (Some tenantId) payload
     = (Throw (Boom 500 "Failed to process chat request"),
        [PostChat (with_stream payload (Some false))])).
Proof.
  intros Hcred Huuid Hschema. split.
  - intros response k v Hpost Hk Hlisted.
    rewrite !not_elem_of_cons in Hlisted.
    destruct Hlisted as (H1 & H2 & H3 & H4 & H5 & H6 & H7 & H8 & H9 & H10 & H11
                         & H12 & _).
    pose proof (chat_handler_success upstream credentials tenantId
                  (chatRequest_defaults payload) response Hcred) as Hhandler.
    rewrite sent_request in Hhandler. specialize (Hhandler Hpost).
    split; [by eexists|].
    unfold chat_route, validate_headers, bindP, retP, throwP.
    rewrite Huuid, Hschema. simpl. rewrite Hhandler.
    assert (chatResponseSchema
              (JS.set_field "user_id" (cred_user credentials !! "userId")
                 (<["tenant_id" := JStr tenantId]> response)) = false) as ->; [|done].
    unfold chatResponseSchema. apply bool_decide_eq_false. intros Hall.
    assert (response_field_ok k v = true) as Hok.
    { apply (Hall k v). unfold JS.set_field.
      destruct (cred_user credentials !! "userId").
      - by rewrite !lookup_insert_ne.
      - by rewrite lookup_delete_ne, lookup_insert_ne. }
    unfold response_field_ok in Hok.
    apply String.eqb_neq in H1, H2, H3, H4, H5, H6, H7, H8, H9, H10, H11, H12.
    by rewrite H1, H2, H3, H4, H5, H6, H7, H8, H9, H10, H11, H12 in Hok.
  - intros Hpost.
    unfold chat_route, validate_headers, bindP, retP, throwP.
    rewrite Huuid, Hschema. simpl.
    unfold chat_handler, try_catchP.
    rewrite Hcred, strict_eq_str_refl. simpl.
    assert (∀ request t,
              with_stream request (Some false) = with_stream payload (Some false) →
              chat upstream request t
              = (Throw (Error "TypeError: Cannot read properties of null"),
                 [PostChat (with_stream payload (Some false))])) as Hchat.
    { intros request t Hsent. unfold chat, try_catchP, bindP, liftP.
      by rewrite Hsent, Hpost. }
    unfold bindP at 1. rewrite Hchat; [done|]. apply sent_request.
Qed.

End Outcomes.

(** ** Streaming *)

Lemma append_assoc (a b c : string) : (a +:+ b) +:+ c = a +:+ (b +:+ c).
Proof. induction a as [|x a IH]; simpl; [done|]. by rewrite IH. Qed.

Lemma split_on_last (sep : ascii) (s : string) :
  split_on sep (List.last (split_on sep s) EmptyString)
  = [List.last (split_on sep s) EmptyString].
Proof.
  induction s as [|c r IH]; [done|]. simpl.
  destruct (split_on_cons sep r) as (h & t & Hr). rewrite Hr in *.
  destruct (Ascii.eqb c sep) eqn:Hc; [done|].
  destruct t as [|x t']; [|done]. simpl in *. by rewrite Hc, IH.
Qed.

Lemma removelast_app_cons {A} (l : list A) (x : A) (l' : list A) :
  removelast (l ++ x :: l') = l ++ removelast (x :: l').
Proof. by apply removelast_app. Qed.

Lemma last_after_app {A} (l : list A) (x : A) (l' : list A) (d : A) :
  List.last (l ++ x :: l') d = List.last (x :: l') d.
Proof.
  induction l as [|y l IH]; [done|].
  simpl. rewrite IH. by destruct l.
Qed.

Section StreamChat.
Context `{Externals}.
Variable trim : string → string.
Variable post_stream : OllamaChatRequest → result (list string * stream_close).

Lemma deliver_app (l l' : list string) :
  deliver trim (l ++ l') = deliver trim l ++ deliver trim l'.
Proof. unfold deliver. apply omap_app. Qed.

(** The listener over the chunks, started with a buffer that holds no
    newline: what counts is the text the chunks add up to. *)
Lemma on_chunks_text (chunks : list string) :
  ∀ buffer,
    split_on "010"%char buffer = [buffer] →
    let lines := split_on "010"%char (buffer +:+ foldr String.append EmptyString chunks) in
    on_chunks trim buffer chunks
    = (List.last lines EmptyString,
       deliver trim (removelast lines)).
Proof.
  induction chunks as [|chunk rest IH]; intros buffer Hbuffer; simpl.
  - assert (buffer +:+ EmptyString = buffer) as ->.
    { clear. induction buffer as [|c b IHb]; simpl; [done|]. by rewrite IHb. }
    by rewrite Hbuffer.
  - unfold on_data.
    rewrite (IH _ (split_on_last _ _)). simpl.
    rewrite <- append_assoc.
    rewrite (split_on_app _ (buffer +:+ chunk)).
    rewrite (split_on_app _ (List.last _ _)), split_on_last. simpl.
    destruct (split_on_cons "010"%char (foldr String.append EmptyString rest))
      as (h & t & ->).
    rewrite removelast_app_cons, deliver_app.
    f_equal. by rewrite last_after_app.
Qed.

Lemma append_empty_r (a : string) : a +:+ EmptyString = a.
Proof. induction a as [|c a IH]; simpl; [done|]. by rewrite IH. Qed.

(** X20. [streamChat] posts the request with [stream] set to true and
    hands to [onChunk], in order, the parsed lines of the text received:
    the lines are those that a newline ends, blank ones and ones that do
    not parse being skipped, so that how the text was cut into chunks
    does not matter, and what follows the last newline is never handed
    over, not even when the stream ends. The promise resolves at the end
    of the stream and rejects with the error of the stream; a post that
    axios rejects gives an error that names the cause, and no line. *)
Theorem streamChat_delivers_complete_lines (request : OllamaChatRequest)
    (tenantId : option jsval) :
  let sent := with_stream request (Some true) in
  let out := streamChat trim post_stream request tenantId in
  out.1.2 = [PostChat sent]
  ∧ (∀ chunks close,
       post_stream sent = Ok (chunks, close) →
       let text := foldr String.append EmptyString chunks in
       out.2 = deliver trim (removelast (split_on "010"%char text))
       ∧ out.1.1 = match close with
                   | StreamEnd => Ok ()
                   | StreamError message => Throw (Error message)
                   end
       ∧ (∀ chunks',
            foldr String.append EmptyString chunks' = text →
            (on_chunks trim EmptyString chunks').2 = out.2)
       ∧ (∀ body tail,
            text = body +:+ String "010"%char tail →
            split_on "010"%char tail = [tail] →
            out.2 = deliver trim (split_on "010"%char body)))
  ∧ (∀ message,
       post_stream sent = Throw (AxiosError message) →
       out = ((Throw (Error ("Ollama streaming request failed: " +:+ message)),
               [PostChat sent]), [])).
Proof.
  intros sent out. subst out. unfold streamChat.
  change {| chat_model := chat_model request;
            chat_messages := chat_messages request;
            chat_stream := Some true;
            chat_options := chat_options request |} with sent.
  split; [|split].
  - destruct (post_stream sent) as [[chunks []]|[]]; reflexivity.
  - intros chunks close ->. simpl.
    assert (∀ l, (on_chunks trim EmptyString l).2
                 = deliver trim (removelast (split_on "010"%char
                                               (foldr String.append EmptyString l))))
      as Htext.
    { intros l. by rewrite (on_chunks_text l EmptyString). }
    split; [|split; [|split]].
    + destruct close; simpl; apply Htext.
    + by destruct close.
    + intros chunks' Hsame. rewrite Htext, Hsame.
      destruct close; simpl; by rewrite Htext.
    + intros body tail Htail Hfree.
      assert ((on_chunks trim EmptyString chunks).2
              = deliver trim (split_on "010"%char body)) as Hbody.
      { rewrite Htext, Htail, split_on_app. simpl.
        rewrite Hfree, append_empty_r.
        destruct (split_on_cons "010"%char body) as (h & t & Hsplit).
        rewrite removelast_app_cons. simpl.
        rewrite <- (app_removelast_last EmptyString) by (by rewrite Hsplit).
        reflexivity. }
      by destruct close.
  - intros message ->. reflexivity.
Qed.

End StreamChat.

(** ** Tokens and the blacklist *)

Section Tokens.
Context `{Externals}.



End Tokens.

(** ** The further statements on the sample deployment *)

Lemma createTenant_then_getTenant_witness :
  let s1 := (@createTenant Initech.libs Initech.initechId Acme.later
               Initech.initechData Acme.store).2 in
  @getTenant Initech.libs Initech.initechId s1 = (Ok (JObj Initech.initech), s1)
  ∧ members (db s1) tenantsAllKey
    = {[ Initech.initechId ]} ∪ members (db Acme.store) tenantsAllKey
  ∧ db s1 !! tenantKey Acme.acmeId = db Acme.store !! tenantKey Acme.acmeId.
Proof.
  destruct (@createTenant_then_getTenant Initech.libs Initech.initechId Acme.later
              Initech.initechData Acme.store) as (Hget & _ & Hall & Hother & _).
  - reflexivity.
  - intros text Htext. vm_compute in Htext. discriminate.
  - vm_compute. reflexivity.
  - vm_compute. reflexivity.
  - vm_compute. reflexivity.
  - split; [exact Hget|]. split; [exact Hall|].
    apply Hother; [vm_compute; discriminate|vm_compute; reflexivity].
Defined.


Lemma updateTenant_merges_witness :
  ∃ s',
    @updateTenant Initech.libs Acme.later Acme.acmeId Acme.move Acme.store
    = (Ok (JObj (mergeTenant (JObj Acme.acme) Acme.move Acme.acmeId Acme.later)), s')
    ∧ @getTenant Initech.libs Acme.acmeId s'
      = (Ok (JObj (mergeTenant (JObj Acme.acme) Acme.move Acme.acmeId Acme.later)), s').
Proof.
  destruct (proj2 (@updateTenant_merges Initech.libs Acme.later Acme.acmeId Acme.move
                     Acme.store eq_refl)
              (Demo.render (JObj Acme.acme)) Acme.acme)
    as (s' & Hrun & _ & _ & _ & _ & Hget).
  - vm_compute. reflexivity.
  - vm_compute. discriminate.
  - vm_compute. reflexivity.
  - exists s'. split; [exact Hrun|].
    apply Hget; vm_compute; reflexivity.
Defined.

Lemma createUser_then_lookups_witness :
  let s1 := (@createUser Initech.libs Initech.carolId Acme.later Acme.acmeId
               Initech.carolData Acme.store).2 in
  @getUserByEmail Initech.libs Acme.acmeId (user_email Initech.carolData) s1
  = (Ok (JObj (@newUser Initech.libs Initech.carolId Acme.later Acme.acmeId
                 Initech.carolData)), s1)
  ∧ @getUser Initech.libs Acme.acmeId Initech.carolId s1
    = (Ok (Some (delete "password"
                   (@newUser Initech.libs Initech.carolId Acme.later Acme.acmeId
                      Initech.carolData))), s1)
  ∧ @newUser Initech.libs Initech.carolId Acme.later Acme.acmeId Initech.carolData
      !! "role" = Some (JStr "user").
Proof.
  destruct (@createUser_then_lookups Initech.libs Initech.carolId Acme.later
              Acme.acmeId Initech.carolData Acme.store)
    as (_ & Hemail & Hid & _ & _ & _ & Hrole).
  - reflexivity.
  - intros text Htext. vm_compute in Htext. discriminate.
  - vm_compute. reflexivity.
  - vm_compute. reflexivity.
  - vm_compute. reflexivity.
  - vm_compute. reflexivity.
  - split; [exact Hemail|]. split; [exact Hid|]. apply Hrole. reflexivity.
Defined.

Lemma updateUser_keeps_email_index_witness :
  ∃ s',
    @updateUser Initech.libs Acme.later Acme.acmeId Acme.bobId Initech.rename Acme.store
    = (Ok (Some (delete "password"
                   (mergeUser (JObj Acme.bob) Initech.rename Acme.acmeId Acme.bobId
                      Acme.later))), s')
    ∧ db s' !! emailKey Acme.acmeId "robert@acme.com"
      = db Acme.store !! emailKey Acme.acmeId "robert@acme.com"
    ∧ @getUserByEmail Initech.libs Acme.acmeId "bob@acme.com" s'
      = (Ok (JObj (mergeUser (JObj Acme.bob) Initech.rename Acme.acmeId Acme.bobId
                     Acme.later)), s').
Proof.
  destruct (proj2 (@updateUser_keeps_email_index Initech.libs Acme.later Acme.acmeId
                     Acme.bobId Initech.rename Acme.store eq_refl eq_refl eq_refl)
              (Demo.render (JObj Acme.bob)) Acme.bob)
    as (s' & Hrun & _ & _ & _ & _ & _ & Hindex & Hfound).
  - vm_compute. reflexivity.
  - vm_compute. discriminate.
  - vm_compute. reflexivity.
  - exists s'. split; [exact Hrun|]. split; [apply Hindex|].
    apply Hfound; vm_compute; reflexivity.
Defined.

Lemma getAllUsers_is_the_user_set_witness :
  @getAllUsers Initech.libs Acme.acmeId Acme.store
  = (Ok (omap (@userView Initech.libs Acme.store Acme.acmeId)
           (elements (usersOf Acme.store Acme.acmeId))), Acme.store)
  ∧ (length (omap (@userView Initech.libs Acme.store Acme.acmeId)
               (elements (usersOf Acme.store Acme.acmeId)))
     ≤ size (usersOf Acme.store Acme.acmeId))%nat.
Proof.
  destruct (@getAllUsers_is_the_user_set Initech.libs Acme.acmeId Acme.store)
    as (Hall & Hlength & _).
  - reflexivity.
  - intros text Htext. vm_compute in Htext. discriminate.
  - intros u Hu.
    assert (usersOf Acme.store Acme.acmeId = {[ Acme.adminId; Acme.bobId ]}) as Husers
      by (vm_compute; reflexivity).
    rewrite Husers in Hu.
    apply elem_of_union in Hu as [Hu|Hu]; apply elem_of_singleton in Hu; subst u.
    + vm_compute. right. eexists. split; [reflexivity|discriminate].
    + vm_compute. right. eexists. split; [reflexivity|discriminate].
  - split; [exact Hall|exact Hlength].
Defined.

Lemma session_round_trip_witness :
  let s1 := (@createSession Initech.libs Initech.sessionId Acme.later
               (Some (JStr Acme.acmeId)) (Some (JStr Acme.adminId))
               (Some Acme.later) (Some "curl/8.0") Acme.store).2 in
  let s2 := (deleteSession Initech.sessionId s1).2 in
  @getSession Initech.libs Initech.sessionId s1
  = (Ok (JObj (newSession Initech.sessionId Acme.later (Some (JStr Acme.acmeId))
                 (Some (JStr Acme.adminId)) (Some Acme.later) (Some "curl/8.0"))), s1)
  ∧ @getSession Initech.libs Initech.sessionId s2 = (Ok JNull, s2).
Proof.
  destruct (@session_round_trip Initech.libs Initech.sessionId Acme.later
              (Some (JStr Acme.acmeId)) (Some (JStr Acme.adminId))
              (Some Acme.later) (Some "curl/8.0") Acme.store)
    as (_ & Hget & Hgone & _).
  - reflexivity.
  - vm_compute. reflexivity.
  - vm_compute. reflexivity.
  - split; [exact Hget|exact Hgone].
Defined.

Lemma logout_revokes_the_token_witness :
  let s1 := (logout_handler Acme.adminPrincipal
               (Some ("Bearer " +:+ Acme.adminToken)) Acme.store).2 in
  blacklisted s1 Acme.adminToken
  ∧ (∃ message, (@authenticate Initech.libs Acme.adminToken s1).1
                = Throw (Boom 401 message))
  ∧ (@validate Initech.libs
       {| decoded_payload := Initech.bobClaims; token := Initech.bobToken |} s1).1
    = (@validate Initech.libs
         {| decoded_payload := Initech.bobClaims; token := Initech.bobToken |}
         Acme.store).1.
Proof.
  destruct (@logout_revokes_the_token Initech.libs Acme.adminPrincipal Acme.adminToken
              Acme.store) as (_ & Hlisted & _ & Hrefused & Hothers & _).
  - reflexivity.
  - vm_compute. reflexivity.
  - split; [exact Hlisted|]. split; [exact Hrefused|].
    apply (Hothers {| decoded_payload := Initech.bobClaims;
                      token := Initech.bobToken |}).
    vm_compute. discriminate.
Defined.

Lemma logout_handler_edge_cases_witness :
  logout_handler Acme.adminPrincipal None Acme.store
  = (Throw (Boom 500 "Failed to logout"), Acme.store)
  ∧ logout_handler Acme.adminPrincipal (Some Acme.adminToken) Initech.down
    = (Throw (Boom 500 "Failed to logout"), Initech.down)
  ∧ logout_handler Acme.adminPrincipal (Some Acme.adminToken) Acme.store
    = (Ok {| code := 200; body := <["message" := JStr "Logout successful"]> ∅ |},
       with_db Acme.store
         (<[blacklistKey "undefined" := RString "true"]> (db Acme.store)))
  ∧ (@validate Initech.libs Acme.adminArtifacts
       (logout_handler Acme.adminPrincipal
          (Some ("Bearer  " +:+ Acme.adminToken)) Acme.store).2).1
    = (@validate Initech.libs Acme.adminArtifacts Acme.store).1.
Proof.
  destruct (@logout_handler_edge_cases Initech.libs Acme.adminPrincipal Acme.store)
    as (Hnone & _ & Hword & Htwo).
  destruct (@logout_handler_edge_cases Initech.libs Acme.adminPrincipal Initech.down)
    as (_ & Hdown & _ & _).
  split; [|split; [|split]].
  - apply Hnone. reflexivity.
  - apply Hdown. reflexivity.
  - apply (Hword eq_refl Acme.adminToken).
    + vm_compute. reflexivity.
    + vm_compute. discriminate.
  - apply (proj2 (Htwo eq_refl Acme.adminToken
                    ltac:(vm_compute; discriminate)) Acme.adminDecoded).
Defined.

Lemma login_checks_the_password_witness :
  @login_handler Initech.libs Initech.sessionId Acme.later Acme.later (Some "curl/8.0")
    Initech.loginNobody Acme.store
  = (Throw (Boom 401 "Invalid credentials"), Acme.store)
  ∧ @login_handler Initech.libs Initech.sessionId Acme.later Acme.later (Some "curl/8.0")
      Initech.loginAdminWrong Acme.store
    = (Throw (Boom 401 "Invalid credentials"), Acme.store)
  ∧ (∃ reply s',
       @login_handler Initech.libs Initech.sessionId Acme.later Acme.later
         (Some "curl/8.0") Acme.loginAdmin Acme.store = (Ok reply, s')
       ∧ code reply = 200
       ∧ body reply !! "sessionId" = Some (JStr Initech.sessionId)).
Proof.
  split; [|split].
  - apply (proj1 (@login_checks_the_password Initech.libs Initech.sessionId Acme.later
                    Acme.later (Some "curl/8.0") Initech.loginNobody Acme.store
                    Acme.acmeId (Demo.render (JObj Acme.acme)) Acme.acme
                    eq_refl eq_refl ltac:(vm_compute; discriminate)
                    ltac:(vm_compute; reflexivity) ltac:(vm_compute; discriminate)
                    ltac:(vm_compute; reflexivity) ltac:(vm_compute; reflexivity))).
    vm_compute. reflexivity.
  - apply (proj1 (proj2 (@login_checks_the_password Initech.libs Initech.sessionId
                           Acme.later Acme.later (Some "curl/8.0")
                           Initech.loginAdminWrong Acme.store
                           Acme.acmeId (Demo.render (JObj Acme.acme)) Acme.acme
                           eq_refl eq_refl ltac:(vm_compute; discriminate)
                           ltac:(vm_compute; reflexivity) ltac:(vm_compute; discriminate)
                           ltac:(vm_compute; reflexivity) ltac:(vm_compute; reflexivity))
                    Acme.adminId (Demo.render (JObj Acme.admin)) Acme.admin
                    "bcrypt:SecurePass123"
                    ltac:(vm_compute; reflexivity) ltac:(vm_compute; discriminate)
                    ltac:(vm_compute; reflexivity) ltac:(vm_compute; discriminate)
                    ltac:(vm_compute; reflexivity) ltac:(vm_compute; reflexivity))).
    vm_compute. reflexivity.
  - destruct (proj2 (proj2 (@login_checks_the_password Initech.libs Initech.sessionId
                              Acme.later Acme.later (Some "curl/8.0")
                              Acme.loginAdmin Acme.store
                              Acme.acmeId (Demo.render (JObj Acme.acme)) Acme.acme
                              eq_refl eq_refl ltac:(vm_compute; discriminate)
                              ltac:(vm_compute; reflexivity)
                              ltac:(vm_compute; discriminate)
                              ltac:(vm_compute; reflexivity)
                              ltac:(vm_compute; reflexivity))
                       Acme.adminId (Demo.render (JObj Acme.admin)) Acme.admin
                       "bcrypt:SecurePass123"
                       ltac:(vm_compute; reflexivity) ltac:(vm_compute; discriminate)
                       ltac:(vm_compute; reflexivity) ltac:(vm_compute; discriminate)
                       ltac:(vm_compute; reflexivity) ltac:(vm_compute; reflexivity))
                ltac:(vm_compute; reflexivity) ltac:(vm_compute; reflexivity))
      as (reply & s' & Hrun & Hcode & _ & _ & Hsession & _).
    exists reply, s'. split; [exact Hrun|]. split; [exact Hcode|exact Hsession].
Defined.

Lemma handlers_on_unreachable_store_witness :
  @login_handler Initech.libs Initech.sessionId Acme.later Acme.later None
    Acme.loginAdmin Initech.down
  = (Throw (Boom 500 "Failed to login"), Initech.down)
  ∧ @me_handler Initech.libs Acme.adminPrincipal Initech.down
    = (Throw (Boom 500 "Failed to get user information"), Initech.down)
  ∧ ∃ message, @authenticate Initech.libs Acme.adminToken Initech.down
               = (Throw (Boom 401 message), Initech.down).
Proof.
  destruct (@handlers_on_unreachable_store Initech.libs Initech.down eq_refl)
    as (_ & Hlogin & _ & Hme & _ & Hauth).
  split; [|split].
  - apply (Hlogin Initech.sessionId Acme.later Acme.later None Acme.loginAdmin).
  - apply Hme.
  - apply Hauth.
Defined.

Lemma key_templates_apart_witness :
  NoDup [tenantKey Acme.acmeId; domainKey "acme.com"; tenantsAllKey;
         userKey Acme.acmeId Acme.adminId; usersKey Acme.acmeId;
         emailKey Acme.acmeId "admin@acme.com";
         blacklistKey Acme.adminToken; sessionKey Initech.sessionId].
Proof.
  apply (@key_templates_apart Acme.acmeId Acme.adminId "acme.com" "admin@acme.com"
           Acme.adminToken Initech.sessionId).
  - vm_compute. reflexivity.
  - vm_compute. reflexivity.
  - vm_compute. discriminate.
Defined.

Lemma register_then_me_witness :
  ∃ reply s1,
    @register_handler Initech.libs Initech.initechId Acme.later Initech.peterId
      Acme.later Initech.registerInitech Acme.store = (Ok reply, s1)
    ∧ code reply = 201
    ∧ @authenticate Initech.libs
        (@generateToken Initech.libs
           (delete "password"
              (@newUser Initech.libs Initech.peterId Acme.later Initech.initechId
                 {| user_username := reg_username Initech.registerInitech;
                    user_email := reg_email Initech.registerInitech;
                    user_password := reg_password Initech.registerInitech;
                    user_role := Some "admin" |}))
           (Some (JStr Initech.initechId))) s1
      = (Ok {| cred_user :=
                 delete "password"
                   (@newUser Initech.libs Initech.peterId Acme.later Initech.initechId
                      {| user_username := reg_username Initech.registerInitech;
                         user_email := reg_email Initech.registerInitech;
                         user_password := reg_password Initech.registerInitech;
                         user_role := Some "admin" |});
               cred_tenantId := Some (JStr Initech.initechId);
               cred_scope := ["admin"; "user"] |}, s1).
Proof.
  destruct (@register_then_me Initech.libs Initech.initechId Acme.later Initech.peterId
              Acme.later Initech.registerInitech Initech.peterDecoded Acme.store)
    as (reply & s1 & Hrun & Hcode & _ & Hauth & _).
  - reflexivity.
  - vm_compute. reflexivity.
  - intros text Htext. vm_compute in Htext. discriminate.
  - intros text Htext. vm_compute in Htext. discriminate.
  - vm_compute. reflexivity.
  - vm_compute. reflexivity.
  - vm_compute. discriminate.
  - vm_compute. reflexivity.
  - vm_compute. reflexivity.
  - vm_compute. reflexivity.
  - vm_compute. reflexivity.
  - unfold Initech.peterDecoded.
    etrans; [|apply insert_subseteq; vm_compute; reflexivity].
    apply insert_subseteq; vm_compute; reflexivity.
  - intros [x Hx]. vm_compute in Hx. discriminate.
  - exists reply, s1. split; [exact Hrun|]. split; [exact Hcode|exact Hauth].
Defined.

Lemma llm_routes_traffic_witness :
  JS.strict_eq_str (Some Acme.acmeId) (cred_tenantId Acme.adminPrincipal) = true
  ∧ (∃ h, Some Acme.acmeId = Some h ∧ @Joi_uuid Initech.libs h = true)
  ∧ @chatRequestSchema Initech.libs Acme.hello = true.
Proof.
  apply (proj1 (proj2 (@llm_routes_traffic Initech.libs Acme.ollamaUp
                         Acme.adminPrincipal (Some Acme.acmeId) Acme.hello))).
  vm_compute. discriminate.
Defined.

Lemma models_route_outcomes_witness :
  @models_route Initech.libs Acme.ollamaUp Acme.adminPrincipal (Some Acme.acmeId)
  = (Ok {| code := 200; body := <["tenant_id" := JStr Acme.acmeId]> ∅ |}, [GetTags])
  ∧ @models_route Initech.libs Acme.ollamaDown Acme.adminPrincipal (Some Acme.acmeId)
    = (Throw (Boom 500 "Failed to fetch models"), [GetTags])
  ∧ @models_route Initech.libs Initech.ollamaNew Acme.adminPrincipal (Some Acme.acmeId)
    = (Throw (Boom 500 "Failed to fetch models"), [GetTags]).
Proof.
  split; [|split].
  - apply (proj1 (@models_route_outcomes Initech.libs Acme.ollamaUp
                    Acme.adminPrincipal Acme.acmeId eq_refl
                    ltac:(vm_compute; reflexivity)) ∅).
    reflexivity.
  - apply (proj1 (proj2 (@models_route_outcomes Initech.libs Acme.ollamaDown
                           Acme.adminPrincipal Acme.acmeId eq_refl
                           ltac:(vm_compute; reflexivity)))
             "connect ECONNREFUSED 127.0.0.1:11434").
    reflexivity.
  - apply (proj2 (proj2 (@models_route_outcomes Initech.libs Initech.ollamaNew
                           Acme.adminPrincipal Acme.acmeId eq_refl
                           ltac:(vm_compute; reflexivity)))).
    reflexivity.
Defined.

Lemma chat_route_refuses_unlisted_key_witness :
  @chat_route Initech.libs Initech.ollamaNew Acme.adminPrincipal (Some Acme.acmeId)
    Acme.hello
  = (Throw (Boom 500 "An internal server error occurred"),
     [PostChat (with_stream Acme.hello (Some false))]).
Proof.
  apply (proj1 (@chat_route_refuses_unlisted_key Initech.libs Initech.ollamaNew
                  Acme.adminPrincipal Acme.acmeId Acme.hello eq_refl
                  ltac:(vm_compute; reflexivity) ltac:(vm_compute; reflexivity))
           (<["done_reason" := JStr "stop"]> Acme.answer) "done_reason" (JStr "stop")).
  - reflexivity.
  - vm_compute. reflexivity.
  - intros Hin.
    repeat (apply elem_of_cons in Hin as [Hin|Hin]; [discriminate|]).
    by apply elem_of_nil in Hin.
Defined.

Lemma streamChat_delivers_complete_lines_witness :
  (@streamChat Initech.libs Initech.trim Initech.streaming Acme.hello
     (Some (JStr Acme.acmeId))).2
  = @deliver Initech.libs Initech.trim
      (removelast (split_on "010"%char
                     (foldr String.append EmptyString Initech.chunks)))
  ∧ (@streamChat Initech.libs Initech.trim Initech.streaming Acme.hello
       (Some (JStr Acme.acmeId))).2
    = [JObj Initech.piece; JObj Initech.piece].
Proof.
  destruct (proj1 (proj2 (@streamChat_delivers_complete_lines Initech.libs Initech.trim
                            Initech.streaming Acme.hello (Some (JStr Acme.acmeId))))
              Initech.chunks StreamEnd eq_refl) as (Hlines & _).
  split; [exact Hlines|].
  etrans; [exact Hlines|]. vm_compute. reflexivity.
Defined.


